(** * Stage coordination of the CodeQL action: init, autobuild, analyze

    A shallow embedding of the three stage entry points
    [src/init-action.ts], [src/autobuild-action.ts] and
    [src/analyze-action.ts].  Each [run] function is an [async] function
    made of awaited calls to collaborators that live in other modules
    (the CodeQL CLI wrapper, the config store, the uploader, ...).  The
    embedding keeps the control flow of [run] as it is written -- the
    [try]/[catch] blocks, the early [return]s, the mutable [let]
    variables shared between a [try] block and its handler -- and takes
    the behaviour of every collaborator as an oracle: a value that says
    whether the call returns (and what) or throws (and which error).

    Everything observable that a stage does is recorded, in order, in a
    trace of events: collaborator calls, [core.setFailed],
    [core.setOutput], [core.exportVariable], warnings, and the status
    reports handed to the telemetry sink.  Informational and debug log
    lines are not recorded.

    Conventions:
    - a collaborator whose result the stage only hands to other
      collaborators (the CodeQL handle, the API details, the thread and
      memory flags, ...) returns [unit];
    - a collaborator that can fail answers with a [Result], and what it
      throws is an [Error] object;
    - the calls that a stage awaits on its way to the telemetry sink
      (building the base of a report, the size of the TRAP caches,
      sending the report)
      are gathered in a [Reporter], which says for each of them whether
      it resolves or rejects.  A [Sink] is the reporter that follows the
      contract of the Status Reporter: nothing on that path rejects, and
      sending answers with a boolean.  What a stage does in its [try]
      blocks is stated for a [Sink]; what becomes of its reports and of
      its exit code is stated for any [Reporter];
    - a [number] that the stages round is a rational, and [Math.round]
      is [Math_round]; the other numbers are only passed on and are
      integers. *)

From Stdlib Require Import String Ascii List Bool ZArith Lia.
From Stdlib Require Import QArith Qround.
Close Scope Q_scope.
Import ListNotations.
Local Open Scope string_scope.
Local Open Scope list_scope.

(** ** JavaScript strings *)

Module JsString.

(** [s.endsWith(suffix)]: some tail of [s] is [suffix]. *)
Fixpoint endsWith (s suffix : string) : bool :=
  String.eqb s suffix ||
  match s with
  | EmptyString => false
  | String _ rest => endsWith rest suffix
  end.

(** [s.includes(needle)]: [needle] starts at some position of [s]. *)
Fixpoint includes (s needle : string) : bool :=
  String.prefix needle s ||
  match s with
  | EmptyString => false
  | String _ rest => includes rest needle
  end.

(** [xs.join(",")]. *)
Definition join (sep : string) (xs : list string) : string :=
  String.concat sep xs.

(** [xs.includes(x)] on an array of strings. *)
Definition array_includes (xs : list string) (x : string) : bool :=
  existsb (String.eqb x) xs.

(** Truthiness of a [string | undefined] value: [undefined] and the
    empty string are falsy. *)
Definition truthy (v : option string) : bool :=
  match v with
  | Some s => negb (String.eqb s EmptyString)
  | None => false
  end.

(** [v === lit] for [v : string | undefined]. *)
Definition strict_eq (v : option string) (lit : string) : bool :=
  match v with
  | Some s => String.eqb s lit
  | None => false
  end.

(** [a || b] on [string | undefined] operands. *)
Definition or_else (a b : option string) : option string :=
  if truthy a then a else b.

End JsString.

(** [path.join(a, b, ...)] and [path.resolve(a, b)] on paths that need
    no normalisation. *)
Definition path_join (segments : list string) : string :=
  String.concat "/" segments.

(** [Math.round(x)]: the integer nearest to [x], a tie going to the
    larger one. *)
Definition Math_round (x : Q) : Z := Qfloor (x + (1 # 2))%Q.

(** [x || 0] on a [number | undefined] operand. *)
Definition number_or_zero (x : option Q) : Q :=
  match x with
  | Some t => t
  | None => 0%Q
  end.

(** ** Errors *)

Definition Language := string.

Module Language.
Definition go : Language := "go".
Definition java : Language := "java".
Definition python : Language := "python".
End Language.

(** [QueriesStatusReport] of [./analyze]: the field the stages read,
    [analyze_failure_language], and the remaining sparse numeric fields
    (per-language durations) kept as an association list. *)
Record QueriesStatusReport := mkQueriesStatusReport {
  analyze_failure_language : option Language;
  query_fields : list (string * Z)
}.

(** The classes of [Error] that the stages tell apart with [instanceof]. *)
Inductive ErrorClass :=
| PlainError
| UserError
| CodeQLAnalysisError (queriesStatusReport : QueriesStatusReport).

(** A thrown value.  Every collaborator throws [Error] objects, on which
    [wrapError] is the identity; the stack trace travels with the message
    and is left out. *)
Record Error := mkError {
  error_class : ErrorClass;
  message : string
}.

Definition isUserError (e : Error) : bool :=
  match error_class e with UserError => true | _ => false end.

(** [String(e)], as a template literal computes it, for an [Error]
    object whose [name] is the default one: the name alone when the
    message is empty, and the name, a colon and the message otherwise. *)
Definition Error_toString (e : Error) : string :=
  if String.eqb (message e) EmptyString then "Error"
  else ("Error: " ++ message e)%string.

(** What an awaited collaborator call does: it resolves or it rejects. *)
Inductive Result (A : Type) :=
| Ok (a : A)
| Raise (e : Error).
Arguments Ok {A} a.
Arguments Raise {A} e.

(** ** Status reports *)

Inductive ActionName := init | autobuild | finish.

Inductive ActionStatus := starting | aborted | success | failure | user_error.

Record DiskUsage := mkDiskUsage {
  numAvailableBytes : Z;
  numTotalBytes : Z
}.

(** The part of [StatusReportBase] that is a function of the arguments of
    [createStatusReportBase]; the fields read from the job's environment
    (commit, ref, workflow run id, ...) are the same for every report of a
    job and are left out. *)
Record StatusReportBase := mkStatusReportBase {
  action_name : ActionName;
  status : ActionStatus;
  action_started_at : Z;
  disk_usage : DiskUsage;
  cause : option string
}.

(** Modelled from the spec: [createStatusReportBase] of [status-report.ts],
    whose source is not among the files verified here (only its test
    is).  The spec's Status Reporter contract is
    [buildReport(stage, status, startedAt, diskUsage, cause?, stack?) ->
    ReportBase], a total function of its arguments. *)
Definition createStatusReportBase (name : ActionName) (st : ActionStatus)
    (startedAt : Z) (du : DiskUsage) (cause : option string)
  : StatusReportBase :=
  mkStatusReportBase name st startedAt du cause.

(** Modelled from the spec: [getActionsStatus] of [status-report.ts], not
    among the files verified here.  The spec's Outcome Classifier maps an error or
    a recorded per-language failure to [failure], the distinguished
    [UserError] subtype to [user-error], and the absence of both to
    [success]. *)
Definition getActionsStatus (error : option Error)
    (otherFailureCause : option string) : ActionStatus :=
  match error, otherFailureCause with
  | None, None => success
  | Some e, _ => if isUserError e then user_error else failure
  | None, Some _ => failure
  end.

Definition UploadStatusReport := list (string * Z).
Definition DatabaseCreationTimings := list (string * Z).

Record UploadResult := mkUploadResult {
  sarifID : string;
  statusReport : UploadStatusReport
}.

(** [AnalysisStatusReport extends UploadStatusReport, QueriesStatusReport]. *)
Record AnalysisStatusReport := mkAnalysisStatusReport {
  queries_part : QueriesStatusReport;
  upload_part : UploadStatusReport
}.

Record TrapUploadFields := mkTrapUploadFields {
  trap_cache_upload_duration_ms : Z;
  trap_cache_upload_size_bytes : Z
}.

(** [ToolsSource] of [./setup-codeql]: [ToolsSource.Unknown] and the
    sources a resolved bundle can come from. *)
Inductive ToolsSource := ToolsUnknown | ToolsFrom (origin : string).

Record InitStatusFields := mkInitStatusFields {
  tools_input : string;
  tools_resolved_version : string;
  tools_source : ToolsSource;
  workflow_languages : string
}.

Record InitToolsDownloadFields := mkInitToolsDownloadFields {
  tools_download_duration_ms : option Z;
  tools_feature_flags_valid : option bool
}.

(** The config-dependent fields of the init report that are computed
    without further collaborators. *)
Record InitConfigFields := mkInitConfigFields {
  report_languages : string;
  trap_cache_languages : string;
  trap_cache_download_size_bytes : Z;
  trap_cache_download_duration_ms : Z
}.

(** The objects handed to [statusReport.sendStatusReport]. *)
Inductive StatusReport :=
| BaseReport (b : StatusReportBase)
| AutobuildReport (b : StatusReportBase)
    (autobuild_languages : string) (autobuild_failure : option Language)
| InitReport (b : StatusReportBase) (fields : InitStatusFields)
    (config_fields : option InitConfigFields) (dl : InitToolsDownloadFields)
| FinishReport (b : StatusReportBase)
    (ml_powered_javascript_queries : option string)
    (stats : option AnalysisStatusReport)
    (timings : option DatabaseCreationTimings)
    (trap_upload : option TrapUploadFields).

Definition report_base (r : StatusReport) : StatusReportBase :=
  match r with
  | BaseReport b => b
  | AutobuildReport b _ _ => b
  | InitReport b _ _ _ => b
  | FinishReport b _ _ _ _ => b
  end.

Definition report_status (r : StatusReport) : ActionStatus :=
  status (report_base r).

Definition report_cause (r : StatusReport) : option string :=
  cause (report_base r).

(** The telemetry sink, as a stage sees it.
    Modelled from the spec: [sendStatusReport] of [status-report.ts], not
    among the files verified here.  The spec's contract is [send(report) ->
    delivered: boolean]; delivery failures are caught and logged inside
    it and never re-thrown.  The answer to a report is whatever the sink
    decides, so it is a parameter. *)
Definition Sink := StatusReport -> bool.

(** The calls that a stage awaits on its way to the telemetry sink, as
    [run] sees them: [initializeEnvironment] and [checkDiskUsage] of
    [./util], [createStatusReportBase] and [sendStatusReport] of
    [./status-report], and [getTotalCacheSize] of [./trap-caching].  None
    of them is among the files verified here, and the stages await each
    of them without a handler of its own, so a [Reporter] says for each
    whether it resolves or rejects.  What the disk check and the cache
    size are when the call resolves is a matter of the job
    ([checkDiskUsage] of the process, [getTotalCacheSize] of the stage's
    collaborators).

    The base of a report is built by the disk check followed by
    [createStatusReportBase], with nothing observable in between:
    [startingReportBase] says how the two end for the starting report,
    [completedReportBase] how they end for the completed report, and the
    two need not end alike.  [cacheSizeCheck] says how
    [getTotalCacheSize] ends.  [initializeEnvironment] is the call that
    the autobuild stage makes while it sends its completed report and
    that the analyze stage makes right before its [try] block. *)
Record Reporter := mkReporter {
  initializeEnvironment : Result unit;
  startingReportBase : Result unit;
  completedReportBase : Result unit;
  cacheSizeCheck : Result unit;
  send : StatusReport -> Result bool
}.

(** A sink is the reporter on whose path nothing rejects: the contract
    of the Status Reporter.  Wherever a stage is run with a [Sink], this
    is the reporter meant. *)
Definition reliable (sink : Sink) : Reporter :=
  mkReporter (Ok tt) (Ok tt) (Ok tt) (Ok tt) (fun r => Ok (sink r)).

Coercion reliable : Sink >-> Reporter.

(** ** The persisted configuration *)

(** The fields of [Config] that the three stages read. *)
Record Config := mkConfig {
  languages : list Language;
  codeQLCmd : string;
  dbLocation : string;
  trapCaches : list (Language * string);
  trapCacheDownloadTime : Q
}.

(** ** Events *)

(** The collaborators a stage calls.  A call is recorded when it is made,
    whether it then returns or throws. *)
Inductive Call :=
| InitializeEnvironment
| GetRequiredInput (name : string)
| GetRequiredEnvParam (name : string)
| GetGitHubVersion
| CheckGitHubVersionInRange
| ParseRepositoryNwo
| GetConfig
| DetermineAutobuildLanguages
| Chdir (dir : string)
| RunAutobuild (language : Language)
| GetApiDetails
| GetThreadsFlag
| GetMemoryFlag
| SafeWhich (tool : string)
| RunFinalize
| GetAddSnippetsFlag
| RunQueries
| RunCleanup (level : string)
| GetUploadValue
| UploadFromActions
| UploadDatabases
| GetCodeQL
| UploadTrapCaches
| WaitForProcessing (sarif : string)
| DatabaseAnalyze (language : Language)
| GetDefaultCliVersion
| InitCodeQL
| ValidateWorkflow
| InitConfig (trapCachingEnabled debugMode : bool)
| FeatureGetValue (feature : string)
| InstallPythonDeps
| GetFileType
| MkdirSync (path : string)
| WriteFileSync (path : string)
| ChmodSync (path : string)
| GetMemoryFlagValue
| GetThreadsFlagValue
| CodeQlVersionAbove (version : string)
| RunInit
| CheckForTimeout.

(** A value given to [core.setOutput]: a string or an object with string
    properties. *)
Inductive OutputValue :=
| OutString (s : string)
| OutObject (properties : list (string * string)).

Inductive Event :=
| EvCall (c : Call)
| EvSetFailed (msg : string)
| EvSendStatusReport (r : StatusReport)
| EvExportVariable (name value : string)
| EvSetOutput (name : string) (value : OutputValue)
| EvAddPath (path : string)
| EvWarning (msg : string).

Definition Trace := list Event.

Definition isSetFailed (e : Event) : bool :=
  match e with EvSetFailed _ => true | _ => false end.

Definition isStartingReport (e : Event) : bool :=
  match e with
  | EvSendStatusReport r =>
      match report_status r with starting => true | _ => false end
  | _ => false
  end.

Definition isCompletedReport (e : Event) : bool :=
  match e with
  | EvSendStatusReport r =>
      match report_status r with starting => false | _ => true end
  | _ => false
  end.

(** Stage work: everything that is neither a status report nor marking
    the process failed. *)
Definition isWork (e : Event) : bool :=
  match e with
  | EvSendStatusReport _ | EvSetFailed _ => false
  | _ => true
  end.

(** [core.setFailed] sets the exit code of the process to 1; nothing in
    the stages resets it. *)
Definition markedFailed (t : Trace) : bool := existsb isSetFailed t.

Definition exitCode (t : Trace) : Z := if markedFailed t then 1%Z else 0%Z.

Definition count (p : Event -> bool) (t : Trace) : nat :=
  List.length (filter p t).

(** The events that follow the first event satisfying [p]. *)
Fixpoint eventsAfter (p : Event -> bool) (t : Trace) : Trace :=
  match t with
  | [] => []
  | e :: rest => if p e then rest else eventsAfter p rest
  end.

(** ** Completions: the monad of a function body *)

(** A statement of a function body completes normally, throws, or
    executes [return]; the [let] variables that a [try] block shares
    with its handler are threaded as state of type [L], and the events
    are accumulated in order. *)
Inductive Completion (A : Type) :=
| Normal (a : A)
| Throw (e : Error)
| EarlyReturn.
Arguments Normal {A} a.
Arguments Throw {A} e.
Arguments EarlyReturn {A}.

Record Res (L A : Type) := mkRes {
  completion : Completion A;
  locals : L;
  emitted : Trace
}.
Arguments mkRes {L A}.
Arguments completion {L A}.
Arguments locals {L A}.
Arguments emitted {L A}.

Definition M (L A : Type) := L -> Res L A.

Section Monad.
Context {L : Type}.

Definition ret {A} (a : A) : M L A := fun l => mkRes (Normal a) l [].

Definition throw {A} (e : Error) : M L A := fun l => mkRes (Throw e) l [].

(** [return;] *)
Definition return_ {A} : M L A := fun l => mkRes EarlyReturn l [].

Definition emit (e : Event) : M L unit := fun l => mkRes (Normal tt) l [e].

Definition get : M L L := fun l => mkRes (Normal l) l [].

Definition modify (f : L -> L) : M L unit := fun l => mkRes (Normal tt) (f l) [].

Definition bind {A B} (m : M L A) (f : A -> M L B) : M L B :=
  fun l =>
    match m l with
    | mkRes (Normal a) l1 ev1 =>
        match f a l1 with
        | mkRes c l2 ev2 => mkRes c l2 (ev1 ++ ev2)
        end
    | mkRes (Throw e) l1 ev1 => mkRes (Throw e) l1 ev1
    | mkRes EarlyReturn l1 ev1 => mkRes EarlyReturn l1 ev1
    end.

(** [try { m } catch (e) { h e }]: only a throw completion enters the
    handler, with the variables as the [try] block left them. *)
Definition tryCatch {A} (m : M L A) (h : Error -> M L A) : M L A :=
  fun l =>
    match m l with
    | mkRes (Throw e) l1 ev1 =>
        match h e l1 with
        | mkRes c l2 ev2 => mkRes c l2 (ev1 ++ ev2)
        end
    | r => r
    end.

(** A call to a collaborator whose behaviour is [r]. *)
Definition call {A} (c : Call) (r : Result A) : M L A :=
  fun l =>
    match r with
    | Ok a => mkRes (Normal a) l [EvCall c]
    | Raise e => mkRes (Throw e) l [EvCall c]
    end.

(** [for (const x of xs) { body x }] *)
Fixpoint forOf {X} (xs : list X) (body : X -> M L unit) : M L unit :=
  match xs with
  | [] => ret tt
  | x :: rest => bind (body x) (fun _ => forOf rest body)
  end.

End Monad.

Declare Scope js_scope.
Delimit Scope js_scope with js.
Notation "x <- m ;; k" := (bind m (fun x => k))
  (at level 61, m at next level, right associativity) : js_scope.
Notation "m ;; k" := (bind m (fun _ => k))
  (at level 61, right associativity) : js_scope.

(** How an [async] function is seen by its caller: the promise resolves
    (a [return] inside the body resolves it as well) or rejects. *)
Record Outcome := mkOutcome {
  rejected : option Error;
  trace : Trace
}.

Definition asyncFunction {L} (body : M L unit) (l0 : L) : Outcome :=
  match body l0 with
  | mkRes (Throw e) _ ev => mkOutcome (Some e) ev
  | mkRes _ _ ev => mkOutcome None ev
  end.

(** [core.setFailed(msg)] *)
Definition setFailed {L} (msg : string) : M L unit := emit (EvSetFailed msg).

(** An awaited call that is not recorded in the trace. *)
Definition result {L A} (r : Result A) : M L A :=
  match r with
  | Ok a => ret a
  | Raise e => throw e
  end.

(** [await sendStatusReport(report)] of [./status-report]. *)
Definition sendStatusReport {L} (rep : Reporter) (r : StatusReport)
  : M L bool :=
  (emit (EvSendStatusReport r) ;; result (send rep r))%js.

(** What the stages read from the process they run in, and the
    collaborators that more than one stage calls.  [checkDiskUsage] is
    the usage that the disk check measures; whether the check returns is
    said by the [Reporter]. *)
Record Process := mkProcess {
  startedAt : Z;
  checkDiskUsage : DiskUsage;
  getOptionalInput : string -> option string;
  getRequiredInput : string -> Result string;
  getRequiredEnvParam : string -> Result string;
  processEnv : string -> option string;
  isInTestMode : bool;
  getGitHubVersion : Result unit;
  checkGitHubVersionInRange : Result unit;
  getConfig : Result (option Config)
}.

(** [await createStatusReportBase(name, status, startedAt,
    await checkDiskUsage(logger), cause, stack)], where [base] says how
    the two awaited calls end: when they resolve, the base of the report
    is built from the usage that the disk check measured. *)
Definition awaitStatusReportBase {L} (p : Process) (base : Result unit)
    (name : ActionName) (st : ActionStatus) (cause : option string)
  : M L StatusReportBase :=
  (result base ;;
   ret (createStatusReportBase name st (startedAt p) (checkDiskUsage p)
          cause))%js.

Definition CONFIG_NOT_FOUND : string :=
  "Config file could not be found at expected location. Has the 'init' action been called?".

(** The fixed text that tells the user which stage is missing. *)
Definition INIT_HINT : string := "Has the 'init' action been called?".

(** ** The autobuild stage: [src/autobuild-action.ts] *)

Module Autobuild.

Record Locals := mkLocals {
  currentLanguage : option Language;
  languages : option (list Language)
}.

Definition initial : Locals := mkLocals None None.

(** The collaborators of the stage. *)
Record Env := mkEnv {
  determineAutobuildLanguages : Config -> Result (option (list Language));
  chdir : string -> Result unit;
  runAutobuild : Language -> Result unit
}.

Section Stage.
Variable rep : Reporter.
Variable p : Process.
Variable env : Env.

Local Open Scope js_scope.

Definition sendCompletedStatusReport (allLanguages : list Language)
    (failingLanguage : option Language) (cause : option Error)
  : M Locals unit :=
  call InitializeEnvironment (initializeEnvironment rep) ;;
  let status := getActionsStatus cause failingLanguage in
  statusReportBase <-
    awaitStatusReportBase p (completedReportBase rep) autobuild status
      (option_map message cause) ;;
  _ <- sendStatusReport rep
         (AutobuildReport statusReportBase
            (JsString.join "," allLanguages) failingLanguage) ;;
  ret tt.

Definition SET_FAILED_PREFIX : string :=
  "We were unable to automatically build your code. Please replace the call to the autobuild action with your custom build steps. ".

(** The starting report, as [run] sends it when the base of the report
    is built. *)
Definition startingReport : StatusReport :=
  BaseReport (createStatusReportBase autobuild starting
                (startedAt p) (checkDiskUsage p) None).

(** Lines 78-101: the [try] block after the starting report. *)
Definition work : M Locals unit :=
  _ <- call GetGitHubVersion (getGitHubVersion p) ;;
  call CheckGitHubVersionInRange (checkGitHubVersionInRange p) ;;
  config <- call GetConfig (getConfig p) ;;
  match config with
  | None => throw (mkError PlainError CONFIG_NOT_FOUND)
  | Some config =>
      langs <- call DetermineAutobuildLanguages
                 (determineAutobuildLanguages env config) ;;
      modify (fun l => mkLocals (currentLanguage l) langs) ;;
      match langs with
      | None => ret tt
      | Some langs =>
          let workingDirectory := getOptionalInput p "working-directory" in
          match workingDirectory with
          | Some dir =>
              if JsString.truthy workingDirectory
              then call (Chdir dir) (chdir env dir)
              else ret tt
          | None => ret tt
          end ;;
          forOf langs (fun language =>
            modify (fun l => mkLocals (Some language) (languages l)) ;;
            call (RunAutobuild language) (runAutobuild env language))
      end
  end.

Definition tryBlock : M Locals unit :=
  statusReportBase <-
    awaitStatusReportBase p (startingReportBase rep) autobuild starting
      None ;;
  ok <- sendStatusReport rep (BaseReport statusReportBase) ;;
  (if negb ok then return_ else ret tt) ;;
  work.

Definition catchBlock (error : Error) : M Locals unit :=
  setFailed (SET_FAILED_PREFIX ++ message error) ;;
  l <- get ;;
  sendCompletedStatusReport
    (match languages l with Some ls => ls | None => [] end)
    (currentLanguage l) (Some error) ;;
  return_.

Definition runBody : M Locals unit :=
  tryCatch tryBlock catchBlock ;;
  l <- get ;;
  sendCompletedStatusReport
    (match languages l with Some ls => ls | None => [] end) None None.

Definition run : Outcome := asyncFunction runBody initial.

Definition runWrapper : Trace :=
  let o := run in
  match rejected o with
  | Some error =>
      trace o ++ [EvSetFailed ("autobuild action failed. " ++ message error)]
  | None => trace o
  end.

End Stage.

End Autobuild.

(** [EnvVar] of [./environment].  The stages use these only as fixed,
    distinct names; [DID_AUTOBUILD_GOLANG] is spelled out in the comment
    above [runAutobuildIfLegacyGoWorkflow]. *)
Module EnvVar.
Definition DID_AUTOBUILD_GOLANG := "CODEQL_ACTION_DID_AUTOBUILD_GOLANG".
Definition GO_BINARY_LOCATION := "CODEQL_ACTION_GO_BINARY".
Definition ANALYZE_DID_COMPLETE_SUCCESSFULLY :=
  "CODEQL_ACTION_ANALYZE_DID_COMPLETE_SUCCESSFULLY".
Definition JOB_RUN_UUID := "JOB_RUN_UUID".
End EnvVar.

(** ** The finalize-and-query stage: [src/analyze-action.ts] *)

Module Analyze.

Record Locals := mkLocals {
  uploadResult : option UploadResult;
  runStats : option QueriesStatusReport;
  config : option Config;
  trapCacheUploadTime : option Q;
  dbCreationTimings : option DatabaseCreationTimings;
  didUploadTrapCaches : bool
}.

Definition initial : Locals := mkLocals None None None None None false.

Definition set_uploadResult v l :=
  mkLocals v (runStats l) (config l) (trapCacheUploadTime l)
    (dbCreationTimings l) (didUploadTrapCaches l).
Definition set_runStats v l :=
  mkLocals (uploadResult l) v (config l) (trapCacheUploadTime l)
    (dbCreationTimings l) (didUploadTrapCaches l).
Definition set_config v l :=
  mkLocals (uploadResult l) (runStats l) v (trapCacheUploadTime l)
    (dbCreationTimings l) (didUploadTrapCaches l).
Definition set_trapCacheUploadTime v l :=
  mkLocals (uploadResult l) (runStats l) (config l) v
    (dbCreationTimings l) (didUploadTrapCaches l).
Definition set_dbCreationTimings v l :=
  mkLocals (uploadResult l) (runStats l) (config l) (trapCacheUploadTime l)
    v (didUploadTrapCaches l).
Definition set_didUploadTrapCaches v l :=
  mkLocals (uploadResult l) (runStats l) (config l) (trapCacheUploadTime l)
    (dbCreationTimings l) v.

(** The collaborators of the stage.  [dbIsFinalized], [existsSync],
    [readdirSync], [getCodeQLDatabasePath] and [path.resolve] are
    queries of the state of the disk, of which [readdirSync] throws when
    the directory cannot be listed; the two times are the readings of
    [performance.now()] around the upload of the TRAP caches, in
    milliseconds and fractions of one. *)
Record Env := mkEnv {
  getApiDetails : Result unit;
  getThreadsFlag : Result unit;
  parseRepositoryNwo : Result unit;
  getMemoryFlag : Result unit;
  safeWhich : string -> Result string;
  dbIsFinalized : Config -> Language -> bool;
  existsSync : string -> bool;
  readdirSync : string -> Result (list string);
  getCodeQLDatabasePath : Config -> Language -> string;
  pathResolve : string -> string;
  runAutobuild : Language -> Result unit;
  runFinalize : Result DatabaseCreationTimings;
  getAddSnippetsFlag : Result unit;
  runQueries : Result QueriesStatusReport;
  runCleanup : string -> Result unit;
  getUploadValue : option string -> Result string;
  uploadFromActions : Result UploadResult;
  uploadDatabases : Result unit;
  getCodeQL : Result unit;
  uploadTrapCaches : Result bool;
  trapCacheUploadStartTime : Q;
  trapCacheUploadEndTime : Q;
  waitForProcessing : Result unit;
  getTotalCacheSize : list (Language * string) -> Q;
  getMlPoweredJsQueriesStatus : Config -> string
}.

Definition TRAP_EXTENSIONS : list string :=
  [".trap"; ".trap.gz"; ".trap.br"; ".trap.tar.gz"; ".trap.tar.br"; ".trap.tar"].

(** [dbLocations[language] = path] on an object with string keys. *)
Fixpoint object_set (o : list (string * string)) (k v : string)
  : list (string * string) :=
  match o with
  | [] => [(k, v)]
  | (k', v') :: rest =>
      if String.eqb k' k then (k', v) :: rest
      else (k', v') :: object_set rest k v
  end.

Section Stage.
Variable rep : Reporter.
Variable p : Process.
Variable env : Env.

Local Open Scope js_scope.

(** The stage's own [sendStatusReport] (lines 56-97), primed because
    the plain name is the one of [./status-report]. *)
Definition sendStatusReport' (config : option Config)
    (stats : option AnalysisStatusReport) (error : option Error)
    (trapCacheUploadTime : option Q)
    (dbCreationTimings : option DatabaseCreationTimings)
    (didUploadTrapCaches : bool) : M Locals unit :=
  let status :=
    getActionsStatus error
      (match stats with
       | Some s => analyze_failure_language (queries_part s)
       | None => None
       end) in
  statusReportBase <-
    awaitStatusReportBase p (completedReportBase rep) finish status
      (option_map message error) ;;
  let ml := option_map (getMlPoweredJsQueriesStatus env) config in
  match config with
  | Some c =>
      if didUploadTrapCaches then
        result (cacheSizeCheck rep) ;;
        let size := getTotalCacheSize env (trapCaches c) in
        _ <- sendStatusReport rep
               (FinishReport statusReportBase ml stats dbCreationTimings
                  (Some (mkTrapUploadFields
                           (Math_round (number_or_zero trapCacheUploadTime))
                           (Math_round size)))) ;;
        ret tt
      else
        _ <- sendStatusReport rep
               (FinishReport statusReportBase ml stats dbCreationTimings None) ;;
        ret tt
  | None =>
      _ <- sendStatusReport rep
             (FinishReport statusReportBase ml stats dbCreationTimings None) ;;
      ret tt
  end.

Definition hasBadExpectErrorInput : bool :=
  negb (JsString.strict_eq (getOptionalInput p "expect-error") "false")
  && negb (isInTestMode p).

(** Lines 111-129.  [fs.readdirSync] is reached only when the directory
    exists, and what it throws leaves the function. *)
Definition doesGoExtractionOutputExist (config : Config) : Result bool :=
  let golangDbDirectory := getCodeQLDatabasePath env config Language.go in
  let trapDirectory := path_join [golangDbDirectory; "trap"; Language.go] in
  if existsSync env trapDirectory then
    match readdirSync env trapDirectory with
    | Ok fileNames =>
        Ok (existsb
              (fun fileName =>
                 existsb (fun ext => JsString.endsWith fileName ext)
                   TRAP_EXTENSIONS)
              fileNames)
    | Raise e => Raise e
    end
  else Ok false.

Definition GO_TRACING_WARNING : string :=
  "The CODEQL_EXTRACTOR_GO_BUILD_TRACING environment variable has no effect on workflows with manual build steps, so we recommend that you remove it from your workflow.".

Definition runAutobuildIfLegacyGoWorkflow (config : Config)
  : M Locals unit :=
  if negb (JsString.array_includes (languages config) Language.go) then
    ret tt
  else if JsString.strict_eq (processEnv p EnvVar.DID_AUTOBUILD_GOLANG) "true" then
    ret tt
  else if dbIsFinalized env config Language.go then
    ret tt
  else
    match doesGoExtractionOutputExist config with
    | Raise e => throw e
    | Ok true =>
        match processEnv p "CODEQL_EXTRACTOR_GO_BUILD_TRACING" with
        | Some _ => emit (EvWarning GO_TRACING_WARNING)
        | None => ret tt
        end
    | Ok false =>
        call (RunAutobuild Language.go) (runAutobuild env Language.go)
    end.

Definition EXPECT_ERROR_INTERNAL : string :=
  "`expect-error` input parameter is for internal use only. It should only be set by codeql-action or a fork.".

Definition GO_WHICH_WARNING : string :=
  "Unexpected result for `which go`: please ensure that the correct version of Go is installed before the `codeql-action/init` Action is used.".

Definition EXPECT_ERROR_NOT_THROWN : string :=
  "expect-error input was set to true but no error was thrown.".

(** The starting report, as [run] sends it when the base of the report
    is built. *)
Definition startingReport : StatusReport :=
  BaseReport (createStatusReportBase finish starting
                (startedAt p) (checkDiskUsage p) None).

(** From loading the configuration to the point where the stage has its
    inputs: lines 202-251 of [run]. *)
Definition setup : M Locals (Config * string) :=
  c <- call GetConfig (getConfig p) ;;
  modify (set_config c) ;;
  match c with
  | None => throw (mkError PlainError CONFIG_NOT_FOUND)
  | Some config =>
      (if hasBadExpectErrorInput
       then throw (mkError UserError EXPECT_ERROR_INTERNAL)
       else ret tt) ;;
      call GetApiDetails (getApiDetails env) ;;
      outputDir <- call (GetRequiredInput "output") (getRequiredInput p "output") ;;
      call GetThreadsFlag (getThreadsFlag env) ;;
      _ <- call (GetRequiredEnvParam "GITHUB_REPOSITORY")
             (getRequiredEnvParam p "GITHUB_REPOSITORY") ;;
      call ParseRepositoryNwo (parseRepositoryNwo env) ;;
      call GetGitHubVersion (getGitHubVersion p) ;;
      call GetMemoryFlag (getMemoryFlag env) ;;
      match processEnv p EnvVar.GO_BINARY_LOCATION with
      | Some goWrapperPath =>
          goBinaryPath <- call (SafeWhich "go") (safeWhich env "go") ;;
          if String.eqb goWrapperPath goBinaryPath then ret tt
          else emit (EvWarning GO_WHICH_WARNING)
      | None => ret tt
      end ;;
      ret (config, outputDir)
  end.

(** Database finalization, queries, cleanup, outputs and the upload
    of results: lines 253-303. *)
Definition analysis (config : Config) (outputDir : string) : M Locals unit :=
  runAutobuildIfLegacyGoWorkflow config ;;
  timings <- call RunFinalize (runFinalize env) ;;
  modify (set_dbCreationTimings (Some timings)) ;;
  skip <- call (GetRequiredInput "skip-queries") (getRequiredInput p "skip-queries") ;;
  (if negb (String.eqb skip "true") then
     _ <- call (GetRequiredInput "add-snippets") (getRequiredInput p "add-snippets") ;;
     call GetAddSnippetsFlag (getAddSnippetsFlag env) ;;
     stats <- call RunQueries (runQueries env) ;;
     modify (set_runStats (Some stats))
   else ret tt) ;;
  (if negb (JsString.strict_eq (getOptionalInput p "cleanup-level") "none") then
     let level :=
       match JsString.or_else (getOptionalInput p "cleanup-level") (Some "brutal") with
       | Some lvl => lvl
       | None => "brutal"
       end in
     call (RunCleanup level) (runCleanup env level)
   else ret tt) ;;
  let dbLocations :=
    fold_left
      (fun o language =>
         object_set o language (getCodeQLDatabasePath env config language))
      (languages config) [] in
  emit (EvSetOutput "db-locations" (OutObject dbLocations)) ;;
  emit (EvSetOutput "sarif-output" (OutString (pathResolve env outputDir))) ;;
  let uploadInput := getOptionalInput p "upload" in
  l <- get ;;
  match runStats l with
  | Some _ =>
      v <- call GetUploadValue (getUploadValue env uploadInput) ;;
      if String.eqb v "always" then
        _ <- call (GetRequiredInput "checkout_path")
               (getRequiredInput p "checkout_path") ;;
        r <- call UploadFromActions (uploadFromActions env) ;;
        modify (set_uploadResult (Some r)) ;;
        emit (EvSetOutput "sarif-id" (OutString (sarifID r)))
      else ret tt
  | None => ret tt
  end.

(** Upload of the database bundles: lines 305-306. *)
Definition databaseUpload : M Locals unit :=
  call UploadDatabases (uploadDatabases env).

(** Upload of the TRAP caches: lines 308-312. *)
Definition trapCacheUpload : M Locals unit :=
  call GetCodeQL (getCodeQL env) ;;
  did <- call UploadTrapCaches (uploadTrapCaches env) ;;
  modify (set_didUploadTrapCaches did) ;;
  modify (set_trapCacheUploadTime
            (Some (trapCacheUploadEndTime env - trapCacheUploadStartTime env)%Q)).

(** Waiting for processing: lines 314-326. *)
Definition processingWait : M Locals unit :=
  (if isInTestMode p then ret tt
   else
     l <- get ;;
     match uploadResult l with
     | Some r =>
         w <- call (GetRequiredInput "wait-for-processing")
                (getRequiredInput p "wait-for-processing") ;;
         if String.eqb w "true" then
           _ <- call (GetRequiredEnvParam "GITHUB_REPOSITORY")
                  (getRequiredEnvParam p "GITHUB_REPOSITORY") ;;
           call ParseRepositoryNwo (parseRepositoryNwo env) ;;
           call (WaitForProcessing (sarifID r)) (waitForProcessing env)
         else ret tt
     | None => ret tt
     end).

(** The end of the [try] block: lines 327-333. *)
Definition ending : M Locals unit :=
  (if JsString.strict_eq (getOptionalInput p "expect-error") "true"
   then setFailed EXPECT_ERROR_NOT_THROWN
   else ret tt) ;;
  emit (EvExportVariable EnvVar.ANALYZE_DID_COMPLETE_SUCCESSFULLY "true").

(** Lines 202-326: the stage's work, from loading the configuration to
    waiting for processing. *)
Definition work : M Locals unit :=
  co <- setup ;;
  analysis (fst co) (snd co) ;;
  databaseUpload ;;
  trapCacheUpload ;;
  processingWait.

Definition tryBlock : M Locals unit :=
  statusReportBase <-
    awaitStatusReportBase p (startingReportBase rep) finish starting None ;;
  ok <- sendStatusReport rep (BaseReport statusReportBase) ;;
  (if negb ok then return_ else ret tt) ;;
  work ;;
  ending.

Definition catchBlock (error : Error) : M Locals unit :=
  (if negb (JsString.strict_eq (getOptionalInput p "expect-error") "true")
      || hasBadExpectErrorInput
   then setFailed (message error)
   else ret tt) ;;
  l <- get ;;
  match error_class error with
  | CodeQLAnalysisError queriesStatusReport =>
      sendStatusReport' (config l)
        (Some (mkAnalysisStatusReport queriesStatusReport []))
        (Some error) (trapCacheUploadTime l) (dbCreationTimings l)
        (didUploadTrapCaches l)
  | _ =>
      sendStatusReport' (config l) None (Some error)
        (trapCacheUploadTime l) (dbCreationTimings l)
        (didUploadTrapCaches l)
  end ;;
  return_.

Definition afterTry : M Locals unit :=
  l <- get ;;
  match runStats l, uploadResult l with
  | Some stats, Some up =>
      sendStatusReport' (config l)
        (Some (mkAnalysisStatusReport stats (statusReport up)))
        None (trapCacheUploadTime l) (dbCreationTimings l)
        (didUploadTrapCaches l)
  | Some stats, None =>
      sendStatusReport' (config l)
        (Some (mkAnalysisStatusReport stats []))
        None (trapCacheUploadTime l) (dbCreationTimings l)
        (didUploadTrapCaches l)
  | None, _ =>
      sendStatusReport' (config l) None None
        (trapCacheUploadTime l) (dbCreationTimings l)
        (didUploadTrapCaches l)
  end.

Definition runBody : M Locals unit :=
  call InitializeEnvironment (initializeEnvironment rep) ;;
  tryCatch tryBlock catchBlock ;;
  afterTry.

Definition run : Outcome := asyncFunction runBody initial.

Definition runWrapper : Trace :=
  let o := run in
  match rejected o with
  | Some error =>
      trace o ++ [EvSetFailed ("analyze action failed: " ++ message error);
                  EvCall CheckForTimeout]
  | None => trace o ++ [EvCall CheckForTimeout]
  end.

End Stage.

End Analyze.

(** ** The query loop of an earlier build: [lib/analyze-action.js] *)

(** [lib/analyze-action.js] is a build of an earlier revision of the
    analyze stage.  The stage modelled above calls [runQueries] of
    [./analyze]; this build is the one place where a per-language query
    loop of the repository can be read. *)
Module LegacyAnalyze.

Record Env := mkEnv {
  queries : Language -> list string;
  getCodeQL : Result unit;
  getCodeQLDatabasePath : Language -> string;
  writeFileSync : string -> Result unit;
  databaseAnalyze : Language -> Result unit
}.

Section Loop.
Variable env : Env.

Local Open Scope js_scope.

Definition NO_QUERIES (language : Language) : string :=
  ("Unable to analyse " ++ language ++
   " as no queries were selected for this language")%string.

(** The body of [for (let language of config.languages)].  The [return]
    inside the [catch] clause leaves [runQueries] with the failing
    language; the flag [failed] carries that decision out of the
    handler. *)
Fixpoint forLanguages (languages : list Language)
  : M unit QueriesStatusReport :=
  match languages with
  | [] => ret (mkQueriesStatusReport None [])
  | language :: rest =>
      match queries env language with
      | [] => throw (mkError PlainError (NO_QUERIES language))
      | _ :: _ =>
          let querySuite :=
            (getCodeQLDatabasePath env language ++ "-queries.qls")%string in
          failed <-
            tryCatch
              (call (WriteFileSync querySuite) (writeFileSync env querySuite) ;;
               call (DatabaseAnalyze language) (databaseAnalyze env language) ;;
               ret false)
              (fun _ => ret true) ;;
          if failed then ret (mkQueriesStatusReport (Some language) [])
          else forLanguages rest
      end
  end.

Definition runQueries (languages : list Language)
  : M unit QueriesStatusReport :=
  call GetCodeQL (getCodeQL env) ;;
  forLanguages languages.

End Loop.

End LegacyAnalyze.

(** ** The init stage: [src/init-action.ts] *)

Module Init.

Record InitCodeQLResult := mkInitCodeQLResult {
  toolsDownloadDurationMs : option Z;
  toolsVersion : string;
  toolsSource : ToolsSource
}.

(** The [let] variables of [run] that its handlers read.  [codeql]
    carries no data the stage itself inspects, and [config], assigned
    once at the end of the first [try] block, is passed on as the value
    of that block. *)
Record Locals := mkLocals {
  l_toolsDownloadDurationMs : option Z;
  l_toolsFeatureFlagsValid : option bool;
  l_toolsSource : option ToolsSource;
  l_toolsVersion : option string
}.

Definition initial : Locals := mkLocals None None None None.

Definition set_toolsFeatureFlagsValid v l :=
  mkLocals (l_toolsDownloadDurationMs l) v (l_toolsSource l) (l_toolsVersion l).
Definition set_tools (r : InitCodeQLResult) l :=
  mkLocals (toolsDownloadDurationMs r) (l_toolsFeatureFlagsValid l)
    (Some (toolsSource r)) (Some (toolsVersion r)).

(** The collaborators of the stage.  [tempBinPath] is
    [path.resolve(getTemporaryDirectory(), "bin")], and
    [initializeEnvironment] is the first call of the set-up. *)
Record Env := mkEnv {
  initializeEnvironment : Result unit;
  uuidV4 : string;
  isHostedRunner : bool;
  isDebug : bool;
  platformIsLinux : bool;
  getDefaultCliVersion : Result (option bool);
  initCodeQL : Result InitCodeQLResult;
  validateWorkflow : Result unit;
  initConfig : bool -> bool -> Result Config;
  parseRepositoryNwo : Result unit;
  featureGetValue : string -> Result bool;
  installPythonDeps : Result unit;
  safeWhich : string -> Result string;
  getFileType : string -> Result string;
  tempBinPath : string;
  mkdirSync : string -> Result unit;
  writeFileSync : string -> Result unit;
  chmodSync : string -> Result unit;
  getMemoryFlagValue : Result string;
  getThreadsFlagValue : Result string;
  codeQlVersionAbove : string -> Result bool;
  runInit : Result (option (list (string * string)));
  getTotalCacheSize : list (Language * string) -> Q
}.

Section Stage.
Variable rep : Reporter.
Variable p : Process.
Variable env : Env.

Local Open Scope js_scope.

Definition getTrapCachingEnabled : bool :=
  let trapCaching := getOptionalInput p "trap-caching" in
  match trapCaching with
  | Some v => String.eqb v "true"
  | None => if negb (isHostedRunner env) then false else true
  end.

Definition string_or (v : option string) (d : string) : string :=
  match JsString.or_else v (Some d) with
  | Some s => s
  | None => d
  end.

(** The report fields that need the user's original input
    ([disable_default_queries], [paths], [paths_ignore], [queries],
    [ml_powered_javascript_queries]) are not represented. *)
Definition sendCompletedStatusReport (config : option Config)
    (toolsDownloadDurationMs : option Z)
    (toolsFeatureFlagsValid : option bool)
    (toolsSource : option ToolsSource) (toolsVersion : option string)
    (error : option Error) : M Locals unit :=
  statusReportBase <-
    awaitStatusReportBase p (completedReportBase rep) init
      (getActionsStatus error None) (option_map message error) ;;
  let workflowLanguages := getOptionalInput p "languages" in
  let initStatusReport :=
    mkInitStatusFields
      (string_or (getOptionalInput p "tools") EmptyString)
      (match toolsVersion with Some v => v | None => EmptyString end)
      (match toolsSource with Some src => src | None => ToolsUnknown end)
      (string_or workflowLanguages EmptyString) in
  let initToolsDownloadFields :=
    mkInitToolsDownloadFields toolsDownloadDurationMs toolsFeatureFlagsValid in
  match config with
  | Some c =>
      result (cacheSizeCheck rep) ;;
      let size := getTotalCacheSize env (trapCaches c) in
      _ <- sendStatusReport rep
             (InitReport statusReportBase initStatusReport
                (Some (mkInitConfigFields
                         (JsString.join "," (languages c))
                         (JsString.join "," (map fst (trapCaches c)))
                         (Math_round size)
                         (Math_round (trapCacheDownloadTime c))))
                initToolsDownloadFields) ;;
      ret tt
  | None =>
      _ <- sendStatusReport rep
             (InitReport statusReportBase initStatusReport None
                initToolsDownloadFields) ;;
      ret tt
  end.

(** Lines 197-220: what [run] does before its first [try]. *)
Definition preamble : M Locals unit :=
  call InitializeEnvironment (initializeEnvironment env) ;;
  _ <- call (GetRequiredInput "token") (getRequiredInput p "token") ;;
  _ <- call (GetRequiredEnvParam "GITHUB_SERVER_URL")
         (getRequiredEnvParam p "GITHUB_SERVER_URL") ;;
  _ <- call (GetRequiredEnvParam "GITHUB_API_URL")
         (getRequiredEnvParam p "GITHUB_API_URL") ;;
  call GetGitHubVersion (getGitHubVersion p) ;;
  call CheckGitHubVersionInRange (checkGitHubVersionInRange p) ;;
  _ <- call (GetRequiredEnvParam "GITHUB_REPOSITORY")
         (getRequiredEnvParam p "GITHUB_REPOSITORY") ;;
  call ParseRepositoryNwo (parseRepositoryNwo env) ;;
  emit (EvExportVariable EnvVar.JOB_RUN_UUID (uuidV4 env)).

Definition PYTHON_DEPS_HINT : string :=
  " You can call this action with 'setup-python-dependencies: false' to disable this process".

Definition DISABLE_PYTHON_DEPS : string :=
  "DisablePythonDependencyInstallationEnabled".

(** The starting report, as [run] sends it when the base of the report
    is built. *)
Definition startingReport : StatusReport :=
  BaseReport (createStatusReportBase init starting
                (startedAt p) (checkDiskUsage p) None).

(** Lines 236-302: the first [try] block after the starting report. *)
Definition firstWork : M Locals Config :=
  valid <- call GetDefaultCliVersion (getDefaultCliVersion env) ;;
  modify (set_toolsFeatureFlagsValid valid) ;;
  initCodeQLResult <- call InitCodeQL (initCodeQL env) ;;
  modify (set_tools initCodeQLResult) ;;
  call ValidateWorkflow (validateWorkflow env) ;;
  let debugMode :=
    JsString.strict_eq (getOptionalInput p "debug") "true" || isDebug env in
  _ <- call (GetRequiredEnvParam "GITHUB_WORKSPACE")
         (getRequiredEnvParam p "GITHUB_WORKSPACE") ;;
  c <- call (InitConfig getTrapCachingEnabled debugMode)
         (initConfig env getTrapCachingEnabled debugMode) ;;
  (if JsString.array_includes (languages c) Language.python then
     setup <- call (GetRequiredInput "setup-python-dependencies")
                (getRequiredInput p "setup-python-dependencies") ;;
     if String.eqb setup "true" then
       disabled <- call (FeatureGetValue DISABLE_PYTHON_DEPS)
                     (featureGetValue env DISABLE_PYTHON_DEPS) ;;
       if disabled then ret tt
       else
         tryCatch
           (call InstallPythonDeps (installPythonDeps env))
           (fun error => emit (EvWarning (message error ++ PYTHON_DEPS_HINT)))
     else ret tt
   else ret tt) ;;
  ret c.

Definition firstTry : M Locals Config :=
  statusReportBase <-
    awaitStatusReportBase p (startingReportBase rep) init starting None ;;
  ok <- sendStatusReport rep (BaseReport statusReportBase) ;;
  (if negb ok then return_ else ret tt) ;;
  firstWork.

Definition firstCatch (error : Error) : M Locals Config :=
  setFailed (message error) ;;
  statusReportBase <-
    awaitStatusReportBase p (completedReportBase rep) init
      (if isUserError error then user_error else aborted)
      (Some (message error)) ;;
  _ <- sendStatusReport rep (BaseReport statusReportBase) ;;
  return_.

Definition GOFLAGS_WARNING : string :=
  "Passing the GOFLAGS env parameter to the init action is deprecated. Please move this to the analyze action.".

Definition GO_WRAPPER_WARNING : string :=
  "Analyzing Go on Linux, but failed to install wrapper script: ".

Definition JAVA_LOMBOK_VAR : string :=
  "CODEQL_EXTRACTOR_JAVA_RUN_ANNOTATION_PROCESSORS".

(** Lines 334-360: the wrapper script for a statically linked [go]. *)
Definition installGoWrapper : M Locals unit :=
  tryCatch
    (goBinaryPath <- call (SafeWhich "go") (safeWhich env "go") ;;
     fileOutput <- call GetFileType (getFileType env goBinaryPath) ;;
     if JsString.includes fileOutput "statically linked" then
       let tempBinPath := tempBinPath env in
       call (MkdirSync tempBinPath) (mkdirSync env tempBinPath) ;;
       emit (EvAddPath tempBinPath) ;;
       let goWrapperPath := path_join [tempBinPath; "go"] in
       call (WriteFileSync goWrapperPath) (writeFileSync env goWrapperPath) ;;
       call (ChmodSync goWrapperPath) (chmodSync env goWrapperPath) ;;
       emit (EvExportVariable EnvVar.GO_BINARY_LOCATION goWrapperPath)
     else ret tt)
    (fun e => emit (EvWarning (GO_WRAPPER_WARNING ++ Error_toString e))).

(** Lines 320-443: the second [try] block. *)
Definition secondTry (c : Config) : M Locals unit :=
  match processEnv p "GOFLAGS" with
  | Some goFlags =>
      if JsString.truthy (Some goFlags) then
        emit (EvExportVariable "GOFLAGS" goFlags) ;;
        emit (EvWarning GOFLAGS_WARNING)
      else ret tt
  | None => ret tt
  end ;;
  (if JsString.array_includes (languages c) Language.go && platformIsLinux env
   then installGoWrapper else ret tt) ;;
  ram <- (match processEnv p "CODEQL_RAM" with
          | Some v =>
              if JsString.truthy (Some v) then ret v
              else call GetMemoryFlagValue (getMemoryFlagValue env)
          | None => call GetMemoryFlagValue (getMemoryFlagValue env)
          end) ;;
  emit (EvExportVariable "CODEQL_RAM" ram) ;;
  threads <- call GetThreadsFlagValue (getThreadsFlagValue env) ;;
  emit (EvExportVariable "CODEQL_THREADS" threads) ;;
  noKotlin <- call (FeatureGetValue "DisableKotlinAnalysisEnabled")
                (featureGetValue env "DisableKotlinAnalysisEnabled") ;;
  (if noKotlin
   then emit (EvExportVariable "CODEQL_EXTRACTOR_JAVA_AGENT_DISABLE_KOTLIN" "true")
   else ret tt) ;;
  above <- call (CodeQlVersionAbove "2.13.4") (codeQlVersionAbove env "2.13.4") ;;
  limit <- (if above then
              above' <- call (CodeQlVersionAbove "2.14.4")
                          (codeQlVersionAbove env "2.14.4") ;;
              ret (negb above')
            else ret false) ;;
  (if limit
   then emit (EvExportVariable
                "CODEQL_EXTRACTOR_KOTLIN_OVERRIDE_MAXIMUM_VERSION_LIMIT" "1.9.20")
   else ret tt) ;;
  (if JsString.array_includes (languages c) Language.java then
     if JsString.truthy (processEnv p JAVA_LOMBOK_VAR) then ret tt
     else
       lombok <- call (FeatureGetValue "CodeqlJavaLombokEnabled")
                   (featureGetValue env "CodeqlJavaLombokEnabled") ;;
       if lombok then emit (EvExportVariable JAVA_LOMBOK_VAR "true")
       else emit (EvExportVariable JAVA_LOMBOK_VAR "false")
   else ret tt) ;;
  noPython <- call (FeatureGetValue DISABLE_PYTHON_DEPS)
                (featureGetValue env DISABLE_PYTHON_DEPS) ;;
  (if noPython
   then emit (EvExportVariable
                "CODEQL_EXTRACTOR_PYTHON_DISABLE_LIBRARY_EXTRACTION" "true")
   else ret tt) ;;
  _ <- call (GetRequiredEnvParam "GITHUB_WORKSPACE")
         (getRequiredEnvParam p "GITHUB_WORKSPACE") ;;
  tracerConfig <- call RunInit (runInit env) ;;
  match tracerConfig with
  | Some entries =>
      forOf entries (fun kv => emit (EvExportVariable (fst kv) (snd kv)))
  | None => ret tt
  end ;;
  emit (EvSetOutput "codeql-path" (OutString (codeQLCmd c))).

Definition secondCatch (c : Config) (error : Error) : M Locals unit :=
  setFailed (message error) ;;
  l <- get ;;
  sendCompletedStatusReport (Some c) (l_toolsDownloadDurationMs l)
    (l_toolsFeatureFlagsValid l) (l_toolsSource l) (l_toolsVersion l)
    (Some error) ;;
  return_.

Definition runBody : M Locals unit :=
  preamble ;;
  c <- tryCatch firstTry firstCatch ;;
  tryCatch (secondTry c) (secondCatch c) ;;
  l <- get ;;
  sendCompletedStatusReport (Some c) (l_toolsDownloadDurationMs l)
    (l_toolsFeatureFlagsValid l) (l_toolsSource l) (l_toolsVersion l)
    None.

Definition run : Outcome := asyncFunction runBody initial.

Definition runWrapper : Trace :=
  let o := run in
  match rejected o with
  | Some error =>
      trace o ++ [EvSetFailed ("init action failed: " ++ message error);
                  EvCall CheckForTimeout]
  | None => trace o ++ [EvCall CheckForTimeout]
  end.

End Stage.

End Init.


(** ** Predicates and summaries used in the statements *)

(** A block is [plain P] when it emits only events satisfying [P] and
    never executes [return]: the shape of every block of a stage other
    than the check of the starting report. *)
Definition plain {L A} (P : Event -> bool) (m : M L A) : Prop :=
  forall l, forallb P (emitted (m l)) = true /\ completion (m l) <> EarlyReturn.

Definition Call_eq_dec (a b : Call) : {a = b} + {a <> b}.
Proof. decide equality; first [apply string_dec | apply Bool.bool_dec]. Defined.

(** The event is a call to the collaborator [c]. *)
Definition isCall (c : Call) (e : Event) : bool :=
  match e with
  | EvCall c' => if Call_eq_dec c c' then true else false
  | _ => false
  end.

(** [r] is sent at some point of [t] and the process has been marked
    failed before that point. *)
Definition failedBefore (r : StatusReport) (t : Trace) : Prop :=
  exists before after,
    t = before ++ EvSendStatusReport r :: after /\ markedFailed before = true.

Definition isFailureStatus (s : ActionStatus) : bool :=
  match s with
  | failure | user_error | aborted => true
  | _ => false
  end.

(** The sink that answers the starting report as [sink] does and is
    unreachable for every later report. *)
Definition unreachableAfterStart (sink : Sink) : Sink :=
  fun r => match report_status r with starting => sink r | _ => false end.

(** The completed report of the autobuild stage, as a function of the
    variables [languages] and [currentLanguage] at the end of the [try]
    block. *)
Definition autobuild_completedReport (p : Process) (l : Autobuild.Locals)
    (cause : option Error) (failing : option Language) : StatusReport :=
  AutobuildReport
    (createStatusReportBase autobuild (getActionsStatus cause failing)
       (startedAt p) (checkDiskUsage p) (option_map message cause))
    (JsString.join ","
       (match Autobuild.languages l with Some ls => ls | None => [] end))
    failing.

(** What the autobuild stage does once the work of its [try] block has
    completed as [r]. *)
Definition autobuild_afterWork (p : Process) (r : Res Autobuild.Locals unit)
  : Trace :=
  match completion r with
  | Normal _ =>
      [EvCall InitializeEnvironment;
       EvSendStatusReport (autobuild_completedReport p (locals r) None None)]
  | Throw e =>
      [EvSetFailed (Autobuild.SET_FAILED_PREFIX ++ message e)%string;
       EvCall InitializeEnvironment;
       EvSendStatusReport
         (autobuild_completedReport p (locals r) (Some e)
            (Autobuild.currentLanguage (locals r)))]
  | EarlyReturn => []
  end.

(** The object that the analyze stage's own [sendStatusReport] hands to
    the sink. *)
Definition analyze_finishReport (p : Process) (env : Analyze.Env)
    (config : option Config) (stats : option AnalysisStatusReport)
    (error : option Error) (trapCacheUploadTime : option Q)
    (dbCreationTimings : option DatabaseCreationTimings)
    (didUploadTrapCaches : bool) : StatusReport :=
  FinishReport
    (createStatusReportBase finish
       (getActionsStatus error
          (match stats with
           | Some s => analyze_failure_language (queries_part s)
           | None => None
           end))
       (startedAt p) (checkDiskUsage p) (option_map message error))
    (option_map (Analyze.getMlPoweredJsQueriesStatus env) config)
    stats dbCreationTimings
    (match config with
     | Some c =>
         if didUploadTrapCaches then
           Some (mkTrapUploadFields
                   (Math_round (number_or_zero trapCacheUploadTime))
                   (Math_round (Analyze.getTotalCacheSize env (trapCaches c))))
         else None
     | None => None
     end).

(** The statistics that the handler of the analyze stage reports for a
    caught error. *)
Definition analyze_catchStats (e : Error) : option AnalysisStatusReport :=
  match error_class e with
  | CodeQLAnalysisError q => Some (mkAnalysisStatusReport q [])
  | _ => None
  end.

Definition analyze_catchReport (p : Process) (env : Analyze.Env)
    (l : Analyze.Locals) (e : Error) : StatusReport :=
  analyze_finishReport p env (Analyze.config l) (analyze_catchStats e) (Some e)
    (Analyze.trapCacheUploadTime l) (Analyze.dbCreationTimings l)
    (Analyze.didUploadTrapCaches l).

Definition analyze_successStats (l : Analyze.Locals)
  : option AnalysisStatusReport :=
  match Analyze.runStats l, Analyze.uploadResult l with
  | Some stats, Some up => Some (mkAnalysisStatusReport stats (statusReport up))
  | Some stats, None => Some (mkAnalysisStatusReport stats [])
  | None, _ => None
  end.

Definition analyze_successReport (p : Process) (env : Analyze.Env)
    (l : Analyze.Locals) : StatusReport :=
  analyze_finishReport p env (Analyze.config l) (analyze_successStats l) None
    (Analyze.trapCacheUploadTime l) (Analyze.dbCreationTimings l)
    (Analyze.didUploadTrapCaches l).

(** Whether the [expect-error] input is ["true"]. *)
Definition expectsError (p : Process) : bool :=
  JsString.strict_eq (getOptionalInput p "expect-error") "true".

(** The condition under which the handler of the analyze stage marks the
    process failed. *)
Definition analyze_marksFailedOnError (p : Process) : bool :=
  negb (expectsError p) || Analyze.hasBadExpectErrorInput p.

(** What the analyze stage does once the work of its [try] block has
    completed as [r]. *)
Definition analyze_afterWork (p : Process) (env : Analyze.Env)
    (r : Res Analyze.Locals unit) : Trace :=
  match completion r with
  | Normal _ =>
      (if expectsError p
       then [EvSetFailed Analyze.EXPECT_ERROR_NOT_THROWN] else []) ++
      [EvExportVariable EnvVar.ANALYZE_DID_COMPLETE_SUCCESSFULLY "true";
       EvSendStatusReport (analyze_successReport p env (locals r))]
  | Throw e =>
      (if analyze_marksFailedOnError p
       then [EvSetFailed (message e)] else []) ++
      [EvSendStatusReport (analyze_catchReport p env (locals r) e)]
  | EarlyReturn => []
  end.

(** The completed report of the init stage. *)
Definition init_completedReport (p : Process) (env : Init.Env) (c : Config)
    (l : Init.Locals) (error : option Error) : StatusReport :=
  InitReport
    (createStatusReportBase init (getActionsStatus error None)
       (startedAt p) (checkDiskUsage p) (option_map message error))
    (mkInitStatusFields
       (Init.string_or (getOptionalInput p "tools") EmptyString)
       (match Init.l_toolsVersion l with Some v => v | None => EmptyString end)
       (match Init.l_toolsSource l with Some src => src | None => ToolsUnknown end)
       (Init.string_or (getOptionalInput p "languages") EmptyString))
    (Some (mkInitConfigFields
             (JsString.join "," (languages c))
             (JsString.join "," (map fst (trapCaches c)))
             (Math_round (Init.getTotalCacheSize env (trapCaches c)))
             (Math_round (trapCacheDownloadTime c))))
    (mkInitToolsDownloadFields (Init.l_toolsDownloadDurationMs l)
       (Init.l_toolsFeatureFlagsValid l)).

(** The report sent by the handler of the first [try] block of init. *)
Definition init_firstCatchReport (p : Process) (error : Error) : StatusReport :=
  BaseReport
    (createStatusReportBase init
       (if isUserError error then user_error else aborted)
       (startedAt p) (checkDiskUsage p) (Some (message error))).

(** What the init stage does once its second [try] block has completed
    as [r2]. *)
Definition init_afterSecond (p : Process) (env : Init.Env) (c : Config)
    (r2 : Res Init.Locals unit) : Trace :=
  match completion r2 with
  | Normal _ =>
      [EvSendStatusReport (init_completedReport p env c (locals r2) None)]
  | Throw e =>
      [EvSetFailed (message e);
       EvSendStatusReport (init_completedReport p env c (locals r2) (Some e))]
  | EarlyReturn => []
  end.

(** What the init stage does once the work of its first [try] block has
    completed as [r1]. *)
Definition init_afterFirst (p : Process) (env : Init.Env)
    (r1 : Res Init.Locals Config) : Trace :=
  match completion r1 with
  | Normal c =>
      emitted (Init.secondTry p env c (locals r1)) ++
      init_afterSecond p env c (Init.secondTry p env c (locals r1))
  | Throw e =>
      [EvSetFailed (message e); EvSendStatusReport (init_firstCatchReport p e)]
  | EarlyReturn => []
  end.

(** What the init stage does once its preamble has completed as [r0]. *)
Definition init_afterPreamble (sink : Sink) (p : Process) (env : Init.Env)
    (r0 : Res Init.Locals unit) : Trace :=
  match completion r0 with
  | Normal _ =>
      EvSendStatusReport (Init.startingReport p) ::
      if sink (Init.startingReport p) then
        emitted (Init.firstWork p env (locals r0)) ++
        init_afterFirst p env (Init.firstWork p env (locals r0))
      else []
  | _ => []
  end.

(** A block is [fatal c e] when a call to [c], once made, throws [e] and
    is the last thing the block does. *)
Definition fatal {L A} (c : Call) (e : Error) (m : M L A) : Prop :=
  forall l,
    existsb (isCall c) (emitted (m l)) = true ->
    completion (m l) = Throw e /\
    exists before,
      emitted (m l) = before ++ [EvCall c] /\
      existsb (isCall c) before = false.

(** A block [preserves] a property of the variables. *)
Definition preserves {L A} (I : L -> Prop) (m : M L A) : Prop :=
  forall l, I l -> I (locals (m l)).

(** Stage work goes on after the call [c]. *)
Definition continuesAfter (c : Call) (t : Trace) : bool :=
  existsb isWork (eventsAfter (isCall c) t).

(** The sink answered the starting report of the invocation with the
    duplicate-start signal. *)
Definition startRejected (sink : Sink) (t : Trace) : Prop :=
  exists r,
    In (EvSendStatusReport r) t /\ report_status r = starting /\ sink r = false.

(** The process exit code agrees with the terminal state announced by
    every completed report of the trace. *)
Definition exitMatchesState (t : Trace) : Prop :=
  forall r, In (EvSendStatusReport r) t ->
    (isFailureStatus (report_status r) = true -> failedBefore r t) /\
    (report_status r = success -> markedFailed t = false).

Definition report_stats (r : StatusReport) : option AnalysisStatusReport :=
  match r with
  | FinishReport _ _ stats _ _ => stats
  | _ => None
  end.

Definition report_failure_language (r : StatusReport) : option Language :=
  match report_stats r with
  | Some s => analyze_failure_language (queries_part s)
  | None => None
  end.

Definition report_trap_upload (r : StatusReport) : option TrapUploadFields :=
  match r with
  | FinishReport _ _ _ _ trap => trap
  | _ => None
  end.

Definition isAnalysisCall (e : Event) : bool :=
  match e with
  | EvCall RunFinalize | EvCall RunQueries | EvCall (RunAutobuild _) => true
  | _ => false
  end.

(** Every call to [initConfig] in the trace passes [expected] as its
    TRAP caching argument. *)
Definition initConfigWith (expected : bool) (e : Event) : bool :=
  match e with
  | EvCall (InitConfig trapCachingEnabled _) =>
      Bool.eqb trapCachingEnabled expected
  | _ => true
  end.

Definition isTrapFileName (fileName : string) : Prop :=
  exists ext stem,
    In ext Analyze.TRAP_EXTENSIONS /\ fileName = (stem ++ ext)%string.

(** The TRAP directory of the Go database. *)
Definition goTrapDirectory (env : Analyze.Env) (c : Config) : string :=
  path_join
    [Analyze.getCodeQLDatabasePath env c Language.go; "trap"; Language.go].

(** Some file of the Go database's TRAP directory is extraction output. *)
Definition goExtractionOutputExists (env : Analyze.Env) (c : Config) : Prop :=
  let trapDirectory := goTrapDirectory env c in
  Analyze.existsSync env trapDirectory = true /\
  exists fileNames fileName,
    Analyze.readdirSync env trapDirectory = Ok fileNames /\
    In fileName fileNames /\
    isTrapFileName fileName.

(** The TRAP directory of the Go database, when it exists, can be
    listed. *)
Definition goTrapDirectoryListable (env : Analyze.Env) (c : Config) : Prop :=
  Analyze.existsSync env (goTrapDirectory env c) = true ->
  exists fileNames,
    Analyze.readdirSync env (goTrapDirectory env c) = Ok fileNames.

(** The four conditions under which the legacy Go workflow is detected. *)
Definition legacyGoWorkflow (p : Process) (env : Analyze.Env) (c : Config)
  : Prop :=
  In Language.go (languages c) /\
  processEnv p EnvVar.DID_AUTOBUILD_GOLANG <> Some "true"%string /\
  Analyze.dbIsFinalized env c Language.go = false /\
  ~ goExtractionOutputExists env c.

Definition with_uploadTrapCaches (r : Result bool) (env : Analyze.Env)
  : Analyze.Env :=
  Analyze.mkEnv (Analyze.getApiDetails env) (Analyze.getThreadsFlag env)
    (Analyze.parseRepositoryNwo env) (Analyze.getMemoryFlag env)
    (Analyze.safeWhich env) (Analyze.dbIsFinalized env)
    (Analyze.existsSync env) (Analyze.readdirSync env)
    (Analyze.getCodeQLDatabasePath env) (Analyze.pathResolve env)
    (Analyze.runAutobuild env) (Analyze.runFinalize env)
    (Analyze.getAddSnippetsFlag env) (Analyze.runQueries env)
    (Analyze.runCleanup env) (Analyze.getUploadValue env)
    (Analyze.uploadFromActions env) (Analyze.uploadDatabases env)
    (Analyze.getCodeQL env) r
    (Analyze.trapCacheUploadStartTime env) (Analyze.trapCacheUploadEndTime env)
    (Analyze.waitForProcessing env) (Analyze.getTotalCacheSize env)
    (Analyze.getMlPoweredJsQueriesStatus env).

Definition with_runQueries (r : Result QueriesStatusReport) (env : Analyze.Env)
  : Analyze.Env :=
  Analyze.mkEnv (Analyze.getApiDetails env) (Analyze.getThreadsFlag env)
    (Analyze.parseRepositoryNwo env) (Analyze.getMemoryFlag env)
    (Analyze.safeWhich env) (Analyze.dbIsFinalized env)
    (Analyze.existsSync env) (Analyze.readdirSync env)
    (Analyze.getCodeQLDatabasePath env) (Analyze.pathResolve env)
    (Analyze.runAutobuild env) (Analyze.runFinalize env)
    (Analyze.getAddSnippetsFlag env) r
    (Analyze.runCleanup env) (Analyze.getUploadValue env)
    (Analyze.uploadFromActions env) (Analyze.uploadDatabases env)
    (Analyze.getCodeQL env) (Analyze.uploadTrapCaches env)
    (Analyze.trapCacheUploadStartTime env) (Analyze.trapCacheUploadEndTime env)
    (Analyze.waitForProcessing env) (Analyze.getTotalCacheSize env)
    (Analyze.getMlPoweredJsQueriesStatus env).

(** ** What a stage does with any reporter *)

(** The outcome [o], after the events [events]. *)
Definition preceded (events : Trace) (o : Outcome) : Outcome :=
  mkOutcome (rejected o) (events ++ trace o).

(** The outcome [o], which depends on an awaited call: when the call
    rejects, nothing more happens and [run] rejects with its error. *)
Definition awaiting (check : Result unit) (o : Outcome) : Outcome :=
  match check with
  | Ok _ => o
  | Raise e => mkOutcome (Some e) []
  end.

(** [run] hands the report [r] to the sink as the last thing it does, and
    rejects when that call does. *)
Definition sending (rep : Reporter) (r : StatusReport) : Outcome :=
  mkOutcome (match send rep r with Ok _ => None | Raise e => Some e end)
    [EvSendStatusReport r].

Definition resolved : Outcome := mkOutcome None [].

(** The beginning of a [try] block that opens with the starting report
    [start]: building its base and sending it are inside the block, so
    that an error of either enters [handler]; the answer [false] ends
    [run]; the answer [true] leads to [accepted]. *)
Definition startThen (rep : Reporter) (start : StatusReport)
    (handler : Error -> Outcome) (accepted : Outcome) : Outcome :=
  match startingReportBase rep with
  | Raise e => handler e
  | Ok _ =>
      preceded [EvSendStatusReport start]
        (match send rep start with
         | Raise e => handler e
         | Ok false => resolved
         | Ok true => accepted
         end)
  end.

(** The calls that build a completed report return. *)
Definition completedReportBuilt (rep : Reporter) : Prop :=
  initializeEnvironment rep = Ok tt /\
  completedReportBase rep = Ok tt /\
  cacheSizeCheck rep = Ok tt.

(** [sendCompletedStatusReport] of the autobuild stage. *)
Definition autobuild_finish (rep : Reporter) (p : Process)
    (l : Autobuild.Locals) (cause : option Error) (failing : option Language)
  : Outcome :=
  preceded [EvCall InitializeEnvironment]
    (awaiting (initializeEnvironment rep)
       (awaiting (completedReportBase rep)
          (sending rep (autobuild_completedReport p l cause failing)))).

(** The handler of the autobuild stage. *)
Definition autobuild_handler (rep : Reporter) (p : Process)
    (l : Autobuild.Locals) (e : Error) : Outcome :=
  preceded [EvSetFailed (Autobuild.SET_FAILED_PREFIX ++ message e)%string]
    (autobuild_finish rep p l (Some e) (Autobuild.currentLanguage l)).

(** What [run] of the autobuild stage does, in terms of the work of its
    [try] block. *)
Definition autobuild_outcome (rep : Reporter) (p : Process)
    (env : Autobuild.Env) : Outcome :=
  let w := Autobuild.work p env Autobuild.initial in
  startThen rep (Autobuild.startingReport p)
    (autobuild_handler rep p Autobuild.initial)
    (preceded (emitted w)
       (match completion w with
        | Normal _ => autobuild_finish rep p (locals w) None None
        | Throw e => autobuild_handler rep p (locals w) e
        | EarlyReturn => resolved
        end)).

(** The analyze stage's own [sendStatusReport], for the report [r]: the
    size of the TRAP caches is asked for when the report carries the
    TRAP upload fields. *)
Definition analyze_finish (rep : Reporter) (r : StatusReport) : Outcome :=
  awaiting (completedReportBase rep)
    (match report_trap_upload r with
     | Some _ => awaiting (cacheSizeCheck rep) (sending rep r)
     | None => sending rep r
     end).

(** The handler of the analyze stage. *)
Definition analyze_handler (rep : Reporter) (p : Process) (env : Analyze.Env)
    (l : Analyze.Locals) (e : Error) : Outcome :=
  preceded
    (if analyze_marksFailedOnError p then [EvSetFailed (message e)] else [])
    (analyze_finish rep (analyze_catchReport p env l e)).

(** What [run] of the analyze stage does, in terms of the work of its
    [try] block. *)
Definition analyze_outcome (rep : Reporter) (p : Process) (env : Analyze.Env)
  : Outcome :=
  let w := Analyze.work p env Analyze.initial in
  preceded [EvCall InitializeEnvironment]
    (awaiting (initializeEnvironment rep)
       (startThen rep (Analyze.startingReport p)
          (analyze_handler rep p env Analyze.initial)
          (preceded (emitted w)
             (match completion w with
              | Normal _ =>
                  preceded
                    ((if expectsError p
                      then [EvSetFailed Analyze.EXPECT_ERROR_NOT_THROWN]
                      else []) ++
                     [EvExportVariable
                        EnvVar.ANALYZE_DID_COMPLETE_SUCCESSFULLY "true"])
                    (analyze_finish rep
                       (analyze_successReport p env (locals w)))
              | Throw e => analyze_handler rep p env (locals w) e
              | EarlyReturn => resolved
              end)))).

(** [sendCompletedStatusReport] of the init stage, for the report [r] of
    a known configuration. *)
Definition init_finish (rep : Reporter) (r : StatusReport) : Outcome :=
  awaiting (completedReportBase rep)
    (awaiting (cacheSizeCheck rep) (sending rep r)).

(** The handler of the first [try] block of the init stage. *)
Definition init_firstHandler (rep : Reporter) (p : Process) (e : Error)
  : Outcome :=
  preceded [EvSetFailed (message e)]
    (awaiting (completedReportBase rep) (sending rep (init_firstCatchReport p e))).

(** What [run] of the init stage does, in terms of its set-up and of the
    work of its two [try] blocks. *)
Definition init_outcome (rep : Reporter) (p : Process) (env : Init.Env)
  : Outcome :=
  let r0 := Init.preamble p env Init.initial in
  preceded (emitted r0)
    (match completion r0 with
     | Throw e => mkOutcome (Some e) []
     | EarlyReturn => resolved
     | Normal _ =>
         let r1 := Init.firstWork p env (locals r0) in
         startThen rep (Init.startingReport p) (init_firstHandler rep p)
           (preceded (emitted r1)
              (match completion r1 with
               | Throw e => init_firstHandler rep p e
               | EarlyReturn => resolved
               | Normal c =>
                   let r2 := Init.secondTry p env c (locals r1) in
                   preceded (emitted r2)
                     (match completion r2 with
                      | Normal _ =>
                          init_finish rep
                            (init_completedReport p env c (locals r2) None)
                      | Throw e =>
                          preceded [EvSetFailed (message e)]
                            (init_finish rep
                               (init_completedReport p env c (locals r2)
                                  (Some e)))
                      | EarlyReturn => resolved
                      end)
               end))
     end).

(** An outcome [completesOnce] when it holds no starting report and at
    most one completed report, and is a rejection whenever the sending
    of one of its reports rejects. *)
Definition completesOnce (rep : Reporter) (o : Outcome) : Prop :=
  existsb isStartingReport (trace o) = false /\
  count isCompletedReport (trace o) <= 1 /\
  (forall r e,
     In (EvSendStatusReport r) (trace o) -> send rep r = Raise e ->
     rejected o = Some e).

(** The reports of an invocation whose starting report is [start].
    [reached] says whether [run] gets as far as the [try] block that
    opens with the starting report.  The invocation sends at most one
    starting report, and one exactly when it reaches that block and the
    base of the report is built; it sends at most one completed report,
    and no starting report after it; it sends no completed report when
    the starting report is answered [false], and exactly one when the
    starting report is answered [true] and the calls that build the
    completed report return. *)
Definition reportsOnce (rep : Reporter) (start : StatusReport)
    (reached : bool) (t : Trace) : Prop :=
  count isStartingReport t =
    (if reached
     then match startingReportBase rep with Ok _ => 1 | Raise _ => 0 end
     else 0) /\
  count isCompletedReport t <= 1 /\
  count isStartingReport (eventsAfter isCompletedReport t) = 0 /\
  (reached = true -> startingReportBase rep = Ok tt ->
   send rep start = Ok false -> count isCompletedReport t = 0) /\
  (reached = true -> startingReportBase rep = Ok tt ->
   send rep start = Ok true -> completedReportBuilt rep ->
   count isCompletedReport t = 1).

(** ** Sample jobs *)

Module Sample.

Definition disk : DiskUsage := mkDiskUsage 100 500.

Definition config : Config :=
  mkConfig ["java"; "go"; "python"] "/opt/codeql/codeql" "/tmp/codeql_databases"
    [("java", "/tmp/trap/java")] (24007 # 20).

(** A sink that accepts every report, and one that answers every report
    with the duplicate-start signal. *)
Definition accepting : Sink := fun _ => true.
Definition duplicate : Sink := fun _ => false.

Definition networkError : Error := mkError PlainError "connect ETIMEDOUT".

(** A sink that takes the starting report and cannot be reached
    afterwards: the call that sends any later report rejects. *)
Definition unreachable : Reporter :=
  mkReporter (Ok tt) (Ok tt) (Ok tt) (Ok tt)
    (fun r =>
       match report_status r with
       | starting => Ok true
       | _ => Raise networkError
       end).

Definition inputs (expectError : string) (name : string) : option string :=
  if String.eqb name "expect-error" then Some expectError
  else if String.eqb name "upload" then Some "always"%string
  else if String.eqb name "cleanup-level" then Some "brutal"%string
  else None.

Definition requiredInputs (name : string) : Result string :=
  if String.eqb name "skip-queries" then Ok "false"%string
  else if String.eqb name "wait-for-processing" then Ok "true"%string
  else if String.eqb name "setup-python-dependencies" then Ok "true"%string
  else Ok "."%string.

Definition job (expectError : string) (testMode : bool)
    (gitHubVersion : Result unit) (cfg : Result (option Config)) : Process :=
  mkProcess 1700000000 disk (inputs expectError) requiredInputs
    (fun _ => Ok "octocat/HelloWorld"%string) (fun _ => None) testMode
    gitHubVersion (Ok tt) cfg.

(** A workflow run where init has run. *)
Definition process : Process := job "false" false (Ok tt) (Ok (Some config)).

(** A workflow run where init has not run. *)
Definition process_without_init : Process := job "false" false (Ok tt) (Ok None).

(** The PR-check set-up: test mode with [expect-error: true], and no
    configuration on disk. *)
Definition process_expecting_error : Process := job "true" true (Ok tt) (Ok None).

(** [expect-error: true] outside test mode. *)
Definition process_bad_expect_error : Process :=
  job "true" false (Ok tt) (Ok (Some config)).

(** The GitHub API cannot be reached. *)
Definition process_offline : Process :=
  job "false" false (Raise networkError) (Ok (Some config)).

Definition autobuildEnv : Autobuild.Env :=
  Autobuild.mkEnv (fun c => Ok (Some (languages c))) (fun _ => Ok tt)
    (fun _ => Ok tt).

Definition queriesStatus : QueriesStatusReport :=
  mkQueriesStatusReport None [("analyze_builtin_queries_java_duration_ms", 5000%Z)].

Definition analyzeEnv : Analyze.Env :=
  Analyze.mkEnv (Ok tt) (Ok tt) (Ok tt) (Ok tt) (fun _ => Ok "/usr/bin/go"%string)
    (fun _ _ => false) (fun _ => false) (fun _ => Ok [])
    (fun c l => (dbLocation c ++ "/" ++ l)%string) (fun x => x)
    (fun _ => Ok tt) (Ok [("trap_import_duration_ms", 300%Z)]) (Ok tt)
    (Ok queriesStatus) (fun _ => Ok tt) (fun _ => Ok "always"%string)
    (Ok (mkUploadResult "sarif-1" [("raw_upload_size_bytes", 2048%Z)]))
    (Ok tt) (Ok tt) (Ok true) (20481 # 2) (20512 # 1) (Ok tt)
    (fun _ => 4096%Q) (fun _ => "false"%string).

(** The analysis of Go fails while running the queries. *)
Definition goAnalysisError : Error :=
  mkError
    (CodeQLAnalysisError (mkQueriesStatusReport (Some "go"%string) []))
    "Error running analysis for go".

Definition analyzeEnv_go_fails : Analyze.Env :=
  with_runQueries (Raise goAnalysisError) analyzeEnv.

Definition listingError : Error :=
  mkError PlainError "ENOTDIR: not a directory, scandir '/tmp/codeql_databases/go/trap/go'".

(** The TRAP directory of the Go database exists but cannot be
    listed. *)
Definition analyzeEnv_unlistable : Analyze.Env :=
  Analyze.mkEnv (Analyze.getApiDetails analyzeEnv)
    (Analyze.getThreadsFlag analyzeEnv)
    (Analyze.parseRepositoryNwo analyzeEnv)
    (Analyze.getMemoryFlag analyzeEnv)
    (Analyze.safeWhich analyzeEnv)
    (Analyze.dbIsFinalized analyzeEnv)
    (fun _ => true)
    (fun _ => Raise listingError)
    (Analyze.getCodeQLDatabasePath analyzeEnv)
    (Analyze.pathResolve analyzeEnv)
    (Analyze.runAutobuild analyzeEnv)
    (Analyze.runFinalize analyzeEnv)
    (Analyze.getAddSnippetsFlag analyzeEnv)
    (Analyze.runQueries analyzeEnv)
    (Analyze.runCleanup analyzeEnv)
    (Analyze.getUploadValue analyzeEnv)
    (Analyze.uploadFromActions analyzeEnv)
    (Analyze.uploadDatabases analyzeEnv)
    (Analyze.getCodeQL analyzeEnv)
    (Analyze.uploadTrapCaches analyzeEnv)
    (Analyze.trapCacheUploadStartTime analyzeEnv)
    (Analyze.trapCacheUploadEndTime analyzeEnv)
    (Analyze.waitForProcessing analyzeEnv)
    (Analyze.getTotalCacheSize analyzeEnv)
    (Analyze.getMlPoweredJsQueriesStatus analyzeEnv).

Definition cacheError : Error := mkError PlainError "Cache service unavailable".

(** The upload of the TRAP caches fails; and the same job with the upload
    skipped. *)
Definition analyzeEnv_trap_upload_fails : Analyze.Env :=
  with_uploadTrapCaches (Raise cacheError) analyzeEnv.

Definition analyzeEnv_trap_upload_skipped : Analyze.Env :=
  with_uploadTrapCaches (Ok false) analyzeEnv.

Definition initEnv : Init.Env :=
  Init.mkEnv (Ok tt) "3f2c7a" true false true (Ok None)
    (Ok (Init.mkInitCodeQLResult None "2.15.1" (ToolsFrom "TOOLCACHE")))
    (Ok tt) (fun _ _ => Ok config) (Ok tt) (fun _ => Ok false) (Ok tt)
    (fun _ => Ok "/usr/bin/go"%string) (fun _ => Ok "ELF 64-bit, statically linked"%string)
    "/tmp/bin" (fun _ => Ok tt) (fun _ => Ok tt) (fun _ => Ok tt)
    (Ok "6144"%string) (Ok "2"%string) (fun _ => Ok true)
    (Ok (Some [("CODEQL_TRACER", "on"%string)])) (fun _ => 4096%Q).

Definition buildError : Error := mkError PlainError "go build failed".

(** The autobuilder of Go fails; the others succeed. *)
Definition autobuildEnv_go_fails : Autobuild.Env :=
  Autobuild.mkEnv (fun c => Ok (Some (languages c))) (fun _ => Ok tt)
    (fun language =>
       if String.eqb language "go" then Raise buildError else Ok tt).

Definition chdirError : Error :=
  mkError PlainError "ENOENT: no such file or directory, chdir 'src'".

(** The [working-directory] input names a directory that does not
    exist. *)
Definition process_with_working_directory : Process :=
  mkProcess 1700000000 disk
    (fun name =>
       if String.eqb name "working-directory" then Some "src" else None)
    requiredInputs (fun _ => Ok "octocat/HelloWorld") (fun _ => None)
    false (Ok tt) (Ok tt) (Ok (Some config)).

Definition autobuildEnv_chdir_fails : Autobuild.Env :=
  Autobuild.mkEnv (fun c => Ok (Some (languages c)))
    (fun _ => Raise chdirError) (fun _ => Ok tt).

(** The PR-check set-up on a job where nothing fails. *)
Definition process_expecting_error_in_vain : Process :=
  job "true" true (Ok tt) (Ok (Some config)).

(** The job of [process] with the queries skipped. *)
Definition process_skip_queries : Process :=
  mkProcess 1700000000 disk (inputs "false")
    (fun name =>
       if String.eqb name "skip-queries" then Ok "true"
       else requiredInputs name)
    (fun _ => Ok "octocat/HelloWorld") (fun _ => None) false
    (Ok tt) (Ok tt) (Ok (Some config)).

(** The job of [process] after an init stage that installed the
    wrapper script for Go. *)
Definition process_with_go_wrapper : Process :=
  mkProcess 1700000000 disk (inputs "false")
    requiredInputs (fun _ => Ok "octocat/HelloWorld")
    (fun name =>
       if String.eqb name EnvVar.GO_BINARY_LOCATION then Some "/tmp/bin/go"
       else None)
    false (Ok tt) (Ok tt) (Ok (Some config)).



Definition pipError : Error :=
  mkError PlainError "Unable to install Python dependencies.".

(** The installation of the Python dependencies fails. *)
Definition initEnv_python_deps_fail : Init.Env :=
  Init.mkEnv (Init.initializeEnvironment initEnv)
    (Init.uuidV4 initEnv) (Init.isHostedRunner initEnv)
    (Init.isDebug initEnv) (Init.platformIsLinux initEnv)
    (Init.getDefaultCliVersion initEnv) (Init.initCodeQL initEnv)
    (Init.validateWorkflow initEnv) (Init.initConfig initEnv)
    (Init.parseRepositoryNwo initEnv)
    (Init.featureGetValue initEnv) (Raise pipError)
    (Init.safeWhich initEnv) (Init.getFileType initEnv)
    (Init.tempBinPath initEnv) (Init.mkdirSync initEnv)
    (Init.writeFileSync initEnv) (Init.chmodSync initEnv)
    (Init.getMemoryFlagValue initEnv)
    (Init.getThreadsFlagValue initEnv)
    (Init.codeQlVersionAbove initEnv) (Init.runInit initEnv)
    (Init.getTotalCacheSize initEnv).

Definition configError : Error :=
  mkError PlainError "The configuration file is not valid YAML".

(** [initConfig] fails. *)
Definition initEnv_config_fails : Init.Env :=
  Init.mkEnv (Init.initializeEnvironment initEnv)
    (Init.uuidV4 initEnv) (Init.isHostedRunner initEnv)
    (Init.isDebug initEnv) (Init.platformIsLinux initEnv)
    (Init.getDefaultCliVersion initEnv) (Init.initCodeQL initEnv)
    (Init.validateWorkflow initEnv) (fun _ _ => Raise configError)
    (Init.parseRepositoryNwo initEnv)
    (Init.featureGetValue initEnv)
    (Init.installPythonDeps initEnv)
    (Init.safeWhich initEnv) (Init.getFileType initEnv)
    (Init.tempBinPath initEnv) (Init.mkdirSync initEnv)
    (Init.writeFileSync initEnv) (Init.chmodSync initEnv)
    (Init.getMemoryFlagValue initEnv)
    (Init.getThreadsFlagValue initEnv)
    (Init.codeQlVersionAbove initEnv) (Init.runInit initEnv)
    (Init.getTotalCacheSize initEnv).

Definition analysisError : Error := mkError PlainError "codeql exited with 2".

(** An earlier-build job in which the analysis of Go fails. *)
Definition legacyEnv_go_fails : LegacyAnalyze.Env :=
  LegacyAnalyze.mkEnv (fun _ => ["security-extended.qls"]) (Ok tt)
    (fun language => ("/tmp/codeql_databases/" ++ language)%string) (fun _ => Ok tt)
    (fun language =>
       if String.eqb language "go" then Raise analysisError else Ok tt).

(** An earlier-build job in which no queries were selected for
    Python. *)
Definition legacyEnv_no_python_queries : LegacyAnalyze.Env :=
  LegacyAnalyze.mkEnv
    (fun language =>
       if String.eqb language "python" then [] else ["security-extended.qls"])
    (Ok tt) (fun language => ("/tmp/codeql_databases/" ++ language)%string)
    (fun _ => Ok tt) (fun _ => Ok tt).

End Sample.

(** ** Summaries used in the further properties *)

(** The languages whose autobuilder is started, in the order of the
    calls. *)
Fixpoint autobuildCalls (t : Trace) : list Language :=
  match t with
  | [] => []
  | EvCall (RunAutobuild language) :: rest => language :: autobuildCalls rest
  | _ :: rest => autobuildCalls rest
  end.

Definition report_autobuild_languages (r : StatusReport) : option string :=
  match r with
  | AutobuildReport _ autobuild_languages _ => Some autobuild_languages
  | _ => None
  end.

Definition report_autobuild_failure (r : StatusReport) : option Language :=
  match r with
  | AutobuildReport _ _ autobuild_failure => autobuild_failure
  | _ => None
  end.

(** What the loop of lines 97-100 of [autobuild-action.ts] does with the
    languages [langs]: the languages whose autobuilder it starts (every
    language up to and including the first whose autobuilder throws), and
    the error that ends it, if any. *)
Fixpoint autobuild_attempted (runAutobuild : Language -> Result unit)
    (langs : list Language) : list Language :=
  match langs with
  | [] => []
  | language :: rest =>
      match runAutobuild language with
      | Ok _ => language :: autobuild_attempted runAutobuild rest
      | Raise _ => [language]
      end
  end.

Fixpoint autobuild_firstError (runAutobuild : Language -> Result unit)
    (langs : list Language) : option Error :=
  match langs with
  | [] => None
  | language :: rest =>
      match runAutobuild language with
      | Ok _ => autobuild_firstError runAutobuild rest
      | Raise e => Some e
      end
  end.

(** A block keeps an [invariant] that relates the events emitted so far
    to the variables: whatever held before the block holds after it, of
    the longer trace and the new values. *)
Definition invariant {L A} (I : Trace -> L -> Prop) (m : M L A) : Prop :=
  forall t l, I t l -> I (t ++ emitted (m l)) (locals (m l)).

(** The invariant that the variables satisfy [S] and every event so far
    satisfies [Q]. *)
Definition always {L} (S : L -> Prop) (Q : Event -> Prop)
  : Trace -> L -> Prop :=
  fun t l => S l /\ Forall Q t.

(** Whenever a block completes normally, its value satisfies [P]. *)
Definition yields {L A} (m : M L A) (P : A -> Prop) : Prop :=
  forall l a, completion (m l) = Normal a -> P a.

(** The level that [run] passes to [runCleanup]: the [cleanup-level]
    input, or ["brutal"] when the input is absent or empty. *)
Definition cleanupLevel (p : Process) : string :=
  match getOptionalInput p "cleanup-level" with
  | Some level => if String.eqb level EmptyString then "brutal" else level
  | None => "brutal"
  end.

(** The events of querying the databases and of uploading the results
    of the queries. *)
Definition isQueryOrUploadEvent (e : Event) : bool :=
  match e with
  | EvCall RunQueries | EvCall GetAddSnippetsFlag | EvCall GetUploadValue
  | EvCall UploadFromActions | EvCall (WaitForProcessing _) => true
  | EvSetOutput name _ => String.eqb name "sarif-id"
  | _ => false
  end.

Definition isExportVariable (e : Event) : bool :=
  match e with EvExportVariable _ _ => true | _ => false end.

(** [dbLocations[language]] on an object with string keys. *)
Fixpoint object_get (o : list (string * string)) (k : string)
  : option string :=
  match o with
  | [] => None
  | (k', v) :: rest => if String.eqb k' k then Some v else object_get rest k
  end.

Definition isWarning (e : Event) : bool :=
  match e with EvWarning _ => true | _ => false end.

(** Debug mode, as [run] of the init stage computes it for
    [initConfig]. *)
Definition init_debugMode (p : Process) (env : Init.Env) : bool :=
  JsString.strict_eq (getOptionalInput p "debug") "true" || Init.isDebug env.

(** The configuration that [initConfig] returns for the job. *)
Definition init_config (p : Process) (env : Init.Env) : Result Config :=
  Init.initConfig env (Init.getTrapCachingEnabled p env) (init_debugMode p env).

(** The environment variables that the second [try] block of the init
    stage exports, each with the condition under which it does. *)
Inductive init_export (p : Process) (env : Init.Env) (c : Config)
  : string -> string -> Prop :=
| export_goflags value :
    processEnv p "GOFLAGS" = Some value -> value <> EmptyString ->
    init_export p env c "GOFLAGS" value
| export_go_binary :
    In Language.go (languages c) -> Init.platformIsLinux env = true ->
    init_export p env c EnvVar.GO_BINARY_LOCATION
      (path_join [Init.tempBinPath env; "go"])
| export_ram_from_environment value :
    processEnv p "CODEQL_RAM" = Some value -> value <> EmptyString ->
    init_export p env c "CODEQL_RAM" value
| export_ram_from_flag value :
    JsString.truthy (processEnv p "CODEQL_RAM") = false ->
    Init.getMemoryFlagValue env = Ok value ->
    init_export p env c "CODEQL_RAM" value
| export_threads value :
    Init.getThreadsFlagValue env = Ok value ->
    init_export p env c "CODEQL_THREADS" value
| export_disable_kotlin :
    Init.featureGetValue env "DisableKotlinAnalysisEnabled" = Ok true ->
    init_export p env c "CODEQL_EXTRACTOR_JAVA_AGENT_DISABLE_KOTLIN" "true"
| export_kotlin_limit :
    Init.codeQlVersionAbove env "2.13.4" = Ok true ->
    Init.codeQlVersionAbove env "2.14.4" = Ok false ->
    init_export p env c
      "CODEQL_EXTRACTOR_KOTLIN_OVERRIDE_MAXIMUM_VERSION_LIMIT" "1.9.20"
| export_lombok enabled :
    In Language.java (languages c) ->
    JsString.truthy (processEnv p Init.JAVA_LOMBOK_VAR) = false ->
    Init.featureGetValue env "CodeqlJavaLombokEnabled" = Ok enabled ->
    init_export p env c Init.JAVA_LOMBOK_VAR
      (if enabled then "true" else "false")
| export_disable_python_libraries :
    Init.featureGetValue env Init.DISABLE_PYTHON_DEPS = Ok true ->
    init_export p env c
      "CODEQL_EXTRACTOR_PYTHON_DISABLE_LIBRARY_EXTRACTION" "true"
| export_tracer entries name value :
    Init.runInit env = Ok (Some entries) -> In (name, value) entries ->
    init_export p env c name value.

(** A block [finishes] with an event satisfying [P] when such an event
    is emitted exactly when the block completes normally. *)
Definition finishes {L A} (P : Event -> bool) (m : M L A) : Prop :=
  forall l,
    existsb P (emitted (m l)) = true <-> exists a, completion (m l) = Normal a.

Definition isOutput (name : string) (e : Event) : bool :=
  match e with
  | EvSetOutput name' _ => String.eqb name' name
  | _ => false
  end.

Definition report_config_fields (r : StatusReport) : option InitConfigFields :=
  match r with
  | InitReport _ _ config_fields _ => config_fields
  | _ => None
  end.

(** In the earlier build, the analysis of a language succeeds when its
    query suite is written and [databaseAnalyze] returns. *)
Definition legacy_analysisSucceeds (env : LegacyAnalyze.Env)
    (language : Language) : bool :=
  match
    LegacyAnalyze.writeFileSync env
      (LegacyAnalyze.getCodeQLDatabasePath env language ++ "-queries.qls")%string
  with
  | Ok _ =>
      match LegacyAnalyze.databaseAnalyze env language with
      | Ok _ => true
      | Raise _ => false
      end
  | Raise _ => false
  end.

(** A language of the configuration is analysable when queries were
    selected for it and its analysis succeeds. *)
Definition legacy_analysable (env : LegacyAnalyze.Env) (language : Language)
  : Prop :=
  LegacyAnalyze.queries env language <> [] /\
  legacy_analysisSucceeds env language = true.

Definition init_firstWork_calls (p : Process) (env : Init.Env) (e : Event)
  : Prop :=
  e = EvCall InstallPythonDeps ->
  exists c,
    init_config p env = Ok c /\
    In Language.python (languages c) /\
    getRequiredInput p "setup-python-dependencies" = Ok "true" /\
    Init.featureGetValue env Init.DISABLE_PYTHON_DEPS = Ok false.

Definition init_secondTry_calls (p : Process) (env : Init.Env) (c : Config)
    (e : Event) : Prop :=
  (forall tool, e = EvCall (SafeWhich tool) ->
     tool = "go" /\ In Language.go (languages c) /\
     Init.platformIsLinux env = true) /\
  (e = EvCall GetFileType ->
     In Language.go (languages c) /\ Init.platformIsLinux env = true) /\
  (e = EvCall GetMemoryFlagValue ->
     JsString.truthy (processEnv p "CODEQL_RAM") = false) /\
  (forall version, e = EvCall (CodeQlVersionAbove version) ->
     version = "2.13.4" \/
     (version = "2.14.4" /\ Init.codeQlVersionAbove env "2.13.4" = Ok true)) /\
  (forall feature, e = EvCall (FeatureGetValue feature) ->
     feature = "DisableKotlinAnalysisEnabled" \/
     feature = Init.DISABLE_PYTHON_DEPS \/
     (feature = "CodeqlJavaLombokEnabled" /\
      In Language.java (languages c) /\
      JsString.truthy (processEnv p Init.JAVA_LOMBOK_VAR) = false)).

Definition init_conditional_call (p : Process) (env : Init.Env) (e : Event)
  : Prop :=
  (forall tool, e = EvCall (SafeWhich tool) ->
     tool = "go" /\ Init.platformIsLinux env = true /\
     exists c, init_config p env = Ok c /\ In Language.go (languages c)) /\
  (e = EvCall GetMemoryFlagValue ->
     JsString.truthy (processEnv p "CODEQL_RAM") = false) /\
  (e = EvCall (CodeQlVersionAbove "2.14.4") ->
     Init.codeQlVersionAbove env "2.13.4" = Ok true) /\
  (e = EvCall (FeatureGetValue "CodeqlJavaLombokEnabled") ->
     JsString.truthy (processEnv p Init.JAVA_LOMBOK_VAR) = false /\
     exists c, init_config p env = Ok c /\ In Language.java (languages c)).

(** * Facts about completions *)

Section MonadFacts.
Context {L : Type}.


Lemma bind_throw {A B} (m : M L A) (f : A -> M L B) l e :
  completion (m l) = Throw e ->
  bind m f l = mkRes (Throw e) (locals (m l)) (emitted (m l)).
Proof.
  unfold bind. destruct (m l) as [c l1 ev1]; simpl. intros ->. reflexivity.
Qed.


Lemma plain_ret {A} P (a : A) : plain P (ret a : M L A).
Proof. intros l; simpl; split; [reflexivity|discriminate]. Qed.

Lemma plain_throw {A} P e : plain P (throw e : M L A).
Proof. intros l; simpl; split; [reflexivity|discriminate]. Qed.

Lemma plain_get P : plain P (get : M L L).
Proof. intros l; simpl; split; [reflexivity|discriminate]. Qed.

Lemma plain_modify P f : plain P (modify f : M L unit).
Proof. intros l; simpl; split; [reflexivity|discriminate]. Qed.

Lemma plain_emit P ev : P ev = true -> plain P (emit ev : M L unit).
Proof. intros H l; simpl; rewrite H; split; [reflexivity|discriminate]. Qed.

Lemma plain_setFailed P msg :
  P (EvSetFailed msg) = true -> plain P (setFailed msg : M L unit).
Proof. apply plain_emit. Qed.

Lemma plain_call {A} P c (r : Result A) :
  P (EvCall c) = true -> plain P (call c r : M L A).
Proof.
  intros H l; unfold call; destruct r; simpl; rewrite H;
    split; try reflexivity; discriminate.
Qed.

Lemma plain_bind {A B} P (m : M L A) (f : A -> M L B) :
  plain P m -> (forall a, plain P (f a)) -> plain P (bind m f).
Proof.
  intros Hm Hf l. unfold bind. destruct (Hm l) as [Hev Hc].
  destruct (m l) as [[a|e|] l1 ev1]; simpl in *.
  - destruct (Hf a l1) as [Hev' Hc'].
    destruct (f a l1) as [c2 l2 ev2]; simpl in *.
    rewrite forallb_app, Hev, Hev'. auto.
  - split; [assumption|discriminate].
  - contradiction.
Qed.

Lemma plain_tryCatch {A} P (m : M L A) (h : Error -> M L A) :
  plain P m -> (forall e, plain P (h e)) -> plain P (tryCatch m h).
Proof.
  intros Hm Hh l. unfold tryCatch. destruct (Hm l) as [Hev Hc].
  destruct (m l) as [[a|e|] l1 ev1]; simpl in *.
  - auto.
  - destruct (Hh e l1) as [Hev' Hc'].
    destruct (h e l1) as [c2 l2 ev2]; simpl in *.
    rewrite forallb_app, Hev, Hev'. auto.
  - contradiction.
Qed.

Lemma plain_forOf {X} P (xs : list X) (body : X -> M L unit) :
  (forall x, plain P (body x)) -> plain P (forOf xs body).
Proof.
  intros Hb. induction xs as [|x xs IH]; simpl.
  - apply plain_ret.
  - apply plain_bind; auto.
Qed.



End MonadFacts.

Section MoreMonadFacts.
Context {L : Type}.

Lemma fatal_silent {A} c e (m : M L A) :
  (forall l, existsb (isCall c) (emitted (m l)) = false) -> fatal c e m.
Proof. intros H l Hex. rewrite H in Hex. discriminate. Qed.

Lemma fatal_ret {A} c e (a : A) : fatal c e (ret a : M L A).
Proof. apply fatal_silent. reflexivity. Qed.

Lemma fatal_throw {A} c e e' : fatal c e (throw e' : M L A).
Proof. apply fatal_silent. reflexivity. Qed.

Lemma fatal_get c e : fatal c e (get : M L L).
Proof. apply fatal_silent. reflexivity. Qed.

Lemma fatal_modify c e f : fatal c e (modify f : M L unit).
Proof. apply fatal_silent. reflexivity. Qed.

Lemma fatal_emit c e ev : isCall c ev = false -> fatal c e (emit ev : M L unit).
Proof.
  intros H. apply fatal_silent. intros l. cbn [emit emitted existsb].
  rewrite H. reflexivity.
Qed.

Lemma fatal_call_other {A} c e c' (r : Result A) :
  isCall c (EvCall c') = false -> fatal c e (call c' r : M L A).
Proof.
  intros H. apply fatal_silent. intros l. unfold call.
  destruct r; cbn [emitted existsb]; rewrite H; reflexivity.
Qed.

Lemma fatal_call_raise {A} c e :
  fatal c e (call c (Raise e) : M L A).
Proof.
  intros l _. simpl. split; [reflexivity|]. exists []. split; reflexivity.
Qed.

Lemma fatal_bind {A B} c e (m : M L A) (f : A -> M L B) :
  fatal c e m -> (forall a, fatal c e (f a)) -> fatal c e (bind m f).
Proof.
  intros Hm Hf l. unfold bind. specialize (Hm l).
  destruct (m l) as [[a|e'|] l1 ev1]; simpl in *.
  - specialize (Hf a l1). destruct (f a l1) as [c2 l2 ev2]; simpl in *.
    rewrite existsb_app. intros Hex.
    destruct (existsb (isCall c) ev1) eqn:E1.
    + destruct (Hm eq_refl) as [Habs _]. discriminate.
    + simpl in Hex. destruct (Hf Hex) as [Hc [before [-> Hb]]].
      split; [assumption|]. exists (ev1 ++ before). split.
      * rewrite app_assoc. reflexivity.
      * rewrite existsb_app, E1, Hb. reflexivity.
  - intros Hex. destruct (Hm Hex) as [Hc Hb]. split; [congruence|exact Hb].
  - intros Hex. destruct (Hm Hex) as [Hc _]. discriminate.
Qed.

Lemma preserves_ret {A} (I : L -> Prop) (a : A) : preserves I (ret a : M L A).
Proof. intros l H. exact H. Qed.

Lemma preserves_throw {A} (I : L -> Prop) e : preserves I (throw e : M L A).
Proof. intros l H. exact H. Qed.

Lemma preserves_get (I : L -> Prop) : preserves I (get : M L L).
Proof. intros l H. exact H. Qed.

Lemma preserves_emit (I : L -> Prop) ev : preserves I (emit ev : M L unit).
Proof. intros l H. exact H. Qed.

Lemma preserves_call {A} (I : L -> Prop) c (r : Result A) :
  preserves I (call c r : M L A).
Proof. intros l H. unfold call. destruct r; exact H. Qed.

Lemma preserves_modify (I : L -> Prop) f :
  (forall l, I l -> I (f l)) -> preserves I (modify f : M L unit).
Proof. intros Hf l H. apply Hf. exact H. Qed.

Lemma preserves_bind {A B} (I : L -> Prop) (m : M L A) (f : A -> M L B) :
  preserves I m -> (forall a, preserves I (f a)) -> preserves I (bind m f).
Proof.
  intros Hm Hf l H. unfold bind. specialize (Hm l H).
  destruct (m l) as [[a|e|] l1 ev1]; simpl in *; try assumption.
  specialize (Hf a l1 Hm). destruct (f a l1) as [c2 l2 ev2]. exact Hf.
Qed.

(** The continuation of a call runs only when the call has returned. *)
Lemma preserves_bind_call {A B} (I : L -> Prop) c (r : Result A)
    (f : A -> M L B) :
  (forall a, r = Ok a -> preserves I (f a)) -> preserves I (bind (call c r) f).
Proof.
  intros Hf l H. unfold bind, call. destruct r as [a|e]; simpl.
  - specialize (Hf a eq_refl l H). destruct (f a l) as [c2 l2 ev2]. exact Hf.
  - exact H.
Qed.

End MoreMonadFacts.

Ltac fatal_step :=
  match goal with
  | |- fatal _ _ (bind _ _) => apply fatal_bind; [|intro]
  | |- fatal _ _ (ret _) => apply fatal_ret
  | |- fatal _ _ (throw _) => apply fatal_throw
  | |- fatal _ _ get => apply fatal_get
  | |- fatal _ _ (modify _) => apply fatal_modify
  | |- fatal _ _ (emit _) => apply fatal_emit; reflexivity
  | |- fatal _ _ (setFailed _) => apply fatal_emit; reflexivity
  | |- fatal _ _ (call _ _) =>
      first [ apply fatal_call_other; reflexivity
            | match goal with
              | H : _ = Raise _ |- _ => rewrite H; apply fatal_call_raise
              end ]
  | |- fatal _ _ (if ?b then _ else _) => destruct b eqn:?
  | |- fatal _ _ (match ?x with _ => _ end) => destruct x eqn:?
  | |- fatal _ _ _ => progress cbv beta zeta
  end.

Ltac preserves_step solver :=
  match goal with
  | |- preserves _ (bind (call _ _) _) => apply preserves_bind_call; intros ? ?
  | |- preserves _ (bind _ _) => apply preserves_bind; [|intro]
  | |- preserves _ (ret _) => apply preserves_ret
  | |- preserves _ (throw _) => apply preserves_throw
  | |- preserves _ get => apply preserves_get
  | |- preserves _ (emit _) => apply preserves_emit
  | |- preserves _ (setFailed _) => apply preserves_emit
  | |- preserves _ (call _ _) => apply preserves_call
  | |- preserves _ (modify _) => apply preserves_modify; solver
  | |- preserves _ (if ?b then _ else _) => destruct b eqn:?
  | |- preserves _ (match ?x with _ => _ end) => destruct x eqn:?
  | |- preserves _ _ => progress cbv beta zeta
  end.

(** Decomposing a block, statement by statement. *)
Ltac plain_side :=
  try first [reflexivity | apply Bool.eqb_reflx | assumption
            | match goal with H : forall _, _ = true |- _ => apply H end
            | match goal with
              | H : forall e, isWork e = true -> _ |- _ => apply H; reflexivity
              end].

Ltac plain_step :=
  match goal with
  | |- plain _ (bind _ _) => apply plain_bind; [|intro]
  | |- plain _ (ret _) => apply plain_ret
  | |- plain _ (throw _) => apply plain_throw
  | |- plain _ get => apply plain_get
  | |- plain _ (modify _) => apply plain_modify
  | |- plain _ (emit _) => apply plain_emit; plain_side
  | |- plain _ (setFailed _) => apply plain_setFailed; plain_side
  | |- plain _ (call _ _) => apply plain_call; plain_side
  | |- plain _ (tryCatch _ _) => apply plain_tryCatch; [|intro]
  | |- plain _ (forOf _ _) => apply plain_forOf; intro
  | |- plain _ (if ?b then _ else _) => destruct b eqn:?
  | |- plain _ (match ?x with _ => _ end) => destruct x eqn:?
  | |- plain _ _ => progress cbv beta zeta
  end.

Ltac plain_auto := repeat plain_step.

Lemma count_app p (a b : Trace) : count p (a ++ b) = count p a + count p b.
Proof. unfold count. rewrite filter_app, length_app. reflexivity. Qed.

Lemma count_none p (t : Trace) :
  forallb (fun e => negb (p e)) t = true -> count p t = 0.
Proof.
  unfold count. induction t as [|e t IH]; simpl; [reflexivity|].
  destruct (p e); simpl; [discriminate|auto].
Qed.

Lemma markedFailed_app (a b : Trace) :
  markedFailed (a ++ b) = markedFailed a || markedFailed b.
Proof. unfold markedFailed. apply existsb_app. Qed.


Lemma forallb_weaken (P Q : Event -> bool) (t : Trace) :
  (forall e, P e = true -> Q e = true) ->
  forallb P t = true -> forallb Q t = true.
Proof. intros H; rewrite !forallb_forall; auto. Qed.


(** * The autobuild stage *)

Lemma autobuild_work_plain P p env :
  (forall c, P (EvCall c) = true) -> plain P (Autobuild.work p env).
Proof. intros HP. unfold Autobuild.work. plain_auto. Qed.

Ltac unfold_monad :=
  unfold sendStatusReport, awaitStatusReportBase, result, setFailed;
  unfold tryCatch, bind, emit, ret, get, modify, call, throw, return_.

(** With a sink as reporter, every call on the way to the sink
    resolves. *)
Ltac reliable_reporter :=
  cbn [reliable send startingReportBase completedReportBase cacheSizeCheck
       initializeEnvironment].

Lemma autobuild_run_eq (sink : Sink) p env :
  Autobuild.run sink p env =
    mkOutcome None
      (EvSendStatusReport (Autobuild.startingReport p) ::
       if sink (Autobuild.startingReport p) then
         emitted (Autobuild.work p env Autobuild.initial) ++
         autobuild_afterWork p (Autobuild.work p env Autobuild.initial)
       else []).
Proof.
  destruct (autobuild_work_plain (fun _ => true) p env (fun _ => eq_refl)
              Autobuild.initial) as [_ Hret].
  unfold Autobuild.run, asyncFunction, Autobuild.runBody, Autobuild.tryBlock,
    Autobuild.catchBlock, Autobuild.sendCompletedStatusReport,
    autobuild_afterWork.
  unfold_monad. reliable_reporter.
  change (BaseReport
            (createStatusReportBase autobuild starting (startedAt p)
               (checkDiskUsage p) None))
    with (Autobuild.startingReport p).
  destruct (sink (Autobuild.startingReport p)); cbn [negb]; [|reflexivity].
  destruct (Autobuild.work p env Autobuild.initial) as [[[]|e|] l ev];
    cbn [completion locals emitted] in *.
  - reflexivity.
  - reflexivity.
  - exfalso; apply Hret; reflexivity.
Qed.

(** * The analyze stage *)

Lemma analyze_sendStatusReport_eq (sink : Sink) p env c stats error t d did l :
  Analyze.sendStatusReport' sink p env c stats error t d did l =
    mkRes (Normal tt) l
      [EvSendStatusReport (analyze_finishReport p env c stats error t d did)].
Proof.
  unfold Analyze.sendStatusReport', analyze_finishReport.
  unfold_monad. reliable_reporter.
  destruct c as [c|]; [destruct did|]; reflexivity.
Qed.

Ltac unfold_analyze :=
  unfold Analyze.work, Analyze.setup, Analyze.analysis, Analyze.databaseUpload,
    Analyze.trapCacheUpload, Analyze.processingWait,
    Analyze.runAutobuildIfLegacyGoWorkflow.

Lemma analyze_work_plain P p env :
  (forall e, isWork e = true -> P e = true) -> plain P (Analyze.work p env).
Proof. intros HP. unfold_analyze. plain_auto. Qed.

Lemma analyze_work_isWork p env l :
  forallb isWork (emitted (Analyze.work p env l)) = true.
Proof. apply (analyze_work_plain isWork p env (fun e H => H) l). Qed.

Lemma analyze_work_never_returns p env l :
  completion (Analyze.work p env l) <> EarlyReturn.
Proof. apply (analyze_work_plain isWork p env (fun e H => H) l). Qed.

Lemma analyze_run_eq (sink : Sink) p env :
  Analyze.run sink p env =
    mkOutcome None
      (EvCall InitializeEnvironment ::
       EvSendStatusReport (Analyze.startingReport p) ::
       if sink (Analyze.startingReport p) then
         emitted (Analyze.work p env Analyze.initial) ++
         analyze_afterWork p env (Analyze.work p env Analyze.initial)
       else []).
Proof.
  pose proof (analyze_work_never_returns p env Analyze.initial) as Hret.
  unfold Analyze.run, asyncFunction, Analyze.runBody, Analyze.tryBlock,
    Analyze.catchBlock, Analyze.afterTry, Analyze.ending, analyze_afterWork.
  unfold_monad. reliable_reporter.
  change (BaseReport
            (createStatusReportBase finish starting (startedAt p)
               (checkDiskUsage p) None))
    with (Analyze.startingReport p).
  destruct (sink (Analyze.startingReport p)); cbn [negb]; [|reflexivity].
  destruct (Analyze.work p env Analyze.initial) as [[[]|e|] l ev];
    cbn [completion locals emitted] in *.
  - unfold analyze_successReport, analyze_successStats, expectsError.
    destruct (JsString.strict_eq (getOptionalInput p "expect-error") "true");
      destruct (Analyze.runStats l); destruct (Analyze.uploadResult l);
      rewrite ?analyze_sendStatusReport_eq; cbn [app];
      rewrite ?app_nil_r, <- ?app_assoc; reflexivity.
  - unfold analyze_catchReport, analyze_catchStats,
      analyze_marksFailedOnError, expectsError.
    destruct (negb (JsString.strict_eq (getOptionalInput p "expect-error") "true")
              || Analyze.hasBadExpectErrorInput p);
      destruct (error_class e);
      rewrite ?analyze_sendStatusReport_eq; cbn [app];
      rewrite ?app_nil_r, <- ?app_assoc; reflexivity.
  - exfalso; apply Hret; reflexivity.
Qed.

(** * The init stage *)

Ltac unfold_init :=
  unfold Init.preamble, Init.firstWork, Init.secondTry, Init.installGoWrapper.

Lemma init_preamble_plain P p env :
  (forall e, isWork e = true -> P e = true) -> plain P (Init.preamble p env).
Proof. intros HP. unfold_init. plain_auto. Qed.

Lemma init_firstWork_plain P p env :
  (forall e, isWork e = true -> P e = true) -> plain P (Init.firstWork p env).
Proof. intros HP. unfold_init. plain_auto. Qed.

Lemma init_secondTry_plain P p env c :
  (forall e, isWork e = true -> P e = true) -> plain P (Init.secondTry p env c).
Proof. intros HP. unfold_init. plain_auto. Qed.

Lemma init_sendCompletedStatusReport_eq (sink : Sink) p env c l error l' :
  Init.sendCompletedStatusReport sink p env (Some c)
    (Init.l_toolsDownloadDurationMs l) (Init.l_toolsFeatureFlagsValid l)
    (Init.l_toolsSource l) (Init.l_toolsVersion l) error l' =
  mkRes (Normal tt) l'
    [EvSendStatusReport (init_completedReport p env c l error)].
Proof. reflexivity. Qed.

Lemma init_run_eq (sink : Sink) p env :
  Init.run sink p env =
    mkOutcome
      (match completion (Init.preamble p env Init.initial) with
       | Throw e => Some e
       | _ => None
       end)
      (emitted (Init.preamble p env Init.initial) ++
       init_afterPreamble sink p env (Init.preamble p env Init.initial)).
Proof.
  pose proof (proj2 (init_preamble_plain isWork p env (fun e H => H) Init.initial))
    as Hret0.
  unfold Init.run, asyncFunction, Init.runBody, Init.firstTry, Init.firstCatch,
    Init.secondCatch, init_afterPreamble.
  unfold_monad. reliable_reporter.
  change (BaseReport
            (createStatusReportBase init starting (startedAt p)
               (checkDiskUsage p) None))
    with (Init.startingReport p).
  destruct (Init.preamble p env Init.initial) as [[[]|e|] l0 ev0];
    cbn [completion locals emitted] in *.
  2: rewrite app_nil_r; reflexivity.
  2: exfalso; apply Hret0; reflexivity.
  destruct (sink (Init.startingReport p)); cbn [negb];
    [|reflexivity].
  pose proof (proj2 (init_firstWork_plain isWork p env (fun e H => H) l0))
    as Hret1.
  unfold init_afterFirst.
  destruct (Init.firstWork p env l0) as [[c|e|] l1 ev1];
    cbn [completion locals emitted] in *.
  3: exfalso; apply Hret1; reflexivity.
  2: cbn [app]; rewrite ?app_nil_r; reflexivity.
  pose proof (proj2 (init_secondTry_plain isWork p env c (fun e H => H) l1))
    as Hret2.
  unfold init_afterSecond.
  destruct (Init.secondTry p env c l1) as [[[]|e|] l2 ev2];
    cbn [completion locals emitted] in *.
  3: exfalso; apply Hret2; reflexivity.
  - rewrite ?init_sendCompletedStatusReport_eq. cbn [app].
    rewrite ?app_nil_r, <- ?app_assoc. reflexivity.
  - rewrite ?init_sendCompletedStatusReport_eq. cbn [app].
    rewrite ?app_nil_r, <- ?app_assoc. reflexivity.
Qed.

(** * JavaScript string facts *)

Lemma endsWith_spec s suffix :
  JsString.endsWith s suffix = true <-> exists stem, s = (stem ++ suffix)%string.
Proof.
  induction s as [|a s IH]; cbn [JsString.endsWith].
  - rewrite orb_false_r, String.eqb_eq. split.
    + intros <-. exists EmptyString. reflexivity.
    + intros [[|b stem] H]; simpl in H; [assumption|discriminate].
  - rewrite orb_true_iff, String.eqb_eq, IH. split.
    + intros [<-|[stem ->]].
      * exists EmptyString. reflexivity.
      * exists (String a stem). reflexivity.
    + intros [[|b stem] H]; simpl in H.
      * left. assumption.
      * right. exists stem. congruence.
Qed.

Lemma array_includes_spec xs x :
  JsString.array_includes xs x = true <-> In x xs.
Proof.
  unfold JsString.array_includes. rewrite existsb_exists. split.
  - intros [y [Hin Heq]]. apply String.eqb_eq in Heq. subst. assumption.
  - intros Hin. exists x. split; [assumption|apply String.eqb_refl].
Qed.

Lemma strict_eq_spec v lit :
  JsString.strict_eq v lit = true <-> v = Some lit.
Proof.
  destruct v as [s|]; simpl.
  - rewrite String.eqb_eq. split; congruence.
  - split; discriminate.
Qed.

Lemma hasTrapExtension_spec fileNames :
  existsb
    (fun fileName =>
       existsb (fun ext => JsString.endsWith fileName ext)
         Analyze.TRAP_EXTENSIONS)
    fileNames = true <->
  exists fileName, In fileName fileNames /\ isTrapFileName fileName.
Proof.
  unfold isTrapFileName. rewrite existsb_exists.
  split; intros [f [Hf Hext]]; exists f; (split; [assumption|]).
  - apply existsb_exists in Hext. destruct Hext as [ext [Hin Hends]].
    apply endsWith_spec in Hends. destruct Hends as [stem ->].
    exists ext, stem. auto.
  - destruct Hext as [ext [stem [Hin ->]]]. apply existsb_exists.
    exists ext. split; [assumption|]. apply endsWith_spec. exists stem.
    reflexivity.
Qed.

Lemma doesGoExtractionOutputExist_spec env c :
  Analyze.doesGoExtractionOutputExist env c = Ok true <->
  goExtractionOutputExists env c.
Proof.
  unfold Analyze.doesGoExtractionOutputExist, goExtractionOutputExists,
    goTrapDirectory.
  cbv zeta.
  destruct (Analyze.existsSync env _).
  2: { split; [discriminate|]. intros [H _]. discriminate. }
  destruct (Analyze.readdirSync env _) as [fileNames|e].
  2: { split; [discriminate|]. intros [_ [fs [f [H _]]]]. discriminate. }
  split.
  - intros H. inversion H as [Hex]. split; [reflexivity|].
    apply hasTrapExtension_spec in Hex. destruct Hex as [f [Hin Htrap]].
    exists fileNames, f. auto.
  - intros [_ [fs [f [Heq [Hin Htrap]]]]]. inversion Heq. subst fs.
    f_equal. apply hasTrapExtension_spec. exists f. auto.
Qed.

(** The helper answers [false] when the directory is absent, or is
    listed and holds no extraction output. *)
Lemma doesGoExtractionOutputExist_false env c :
  Analyze.doesGoExtractionOutputExist env c = Ok false <->
  ~ goExtractionOutputExists env c /\ goTrapDirectoryListable env c.
Proof.
  rewrite <- doesGoExtractionOutputExist_spec.
  unfold Analyze.doesGoExtractionOutputExist, goTrapDirectoryListable,
    goTrapDirectory.
  cbv zeta.
  destruct (Analyze.existsSync env _).
  2: { split; [|reflexivity]. intros _. split; discriminate. }
  destruct (Analyze.readdirSync env _) as [fileNames|e].
  - destruct (existsb _ fileNames).
    + split; [discriminate|]. intros [H _]. exfalso. apply H. reflexivity.
    + split; [|reflexivity]. intros _. split; [discriminate|].
      intros _. exists fileNames. reflexivity.
  - split; [discriminate|]. intros [_ H].
    destruct (H eq_refl) as [fs Hfs]. discriminate.
Qed.

(** The helper throws exactly when the directory exists and cannot be
    listed. *)
Lemma doesGoExtractionOutputExist_throws env c e :
  Analyze.doesGoExtractionOutputExist env c = Raise e <->
  Analyze.existsSync env (goTrapDirectory env c) = true /\
  Analyze.readdirSync env (goTrapDirectory env c) = Raise e.
Proof.
  unfold Analyze.doesGoExtractionOutputExist, goTrapDirectory. cbv zeta.
  destruct (Analyze.existsSync env _).
  2: { split; [discriminate|]. intros [H _]. discriminate. }
  destruct (Analyze.readdirSync env _) as [fileNames|e'].
  - split; [discriminate|]. intros [_ H]. discriminate.
  - split.
    + intros H. inversion H. auto.
    + intros [_ H]. inversion H. reflexivity.
Qed.

(** * Reports in a trace *)

Lemma getActionsStatus_not_starting e f : getActionsStatus e f <> starting.
Proof.
  destruct e as [e|], f as [f|]; simpl; try discriminate;
    destruct (isUserError e); discriminate.
Qed.

Lemma getActionsStatus_error e f :
  getActionsStatus (Some e) f = if isUserError e then user_error else failure.
Proof. destruct f; reflexivity. Qed.

Lemma isStartingReport_false r :
  report_status r <> starting -> isStartingReport (EvSendStatusReport r) = false.
Proof.
  unfold isStartingReport. destruct (report_status r); congruence.
Qed.

Lemma isCompletedReport_true r :
  report_status r <> starting -> isCompletedReport (EvSendStatusReport r) = true.
Proof.
  unfold isCompletedReport. destruct (report_status r); congruence.
Qed.

Lemma eventsAfter_app_none p (a b : Trace) :
  existsb p a = false -> eventsAfter p (a ++ b) = eventsAfter p b.
Proof.
  induction a as [|e a IH]; simpl; [reflexivity|].
  destruct (p e); simpl; [discriminate|exact IH].
Qed.

Lemma existsb_isWork_false p (t : Trace) :
  (forall e, isWork e = true -> p e = false) ->
  forallb isWork t = true -> existsb p t = false.
Proof.
  intros H. induction t as [|e t IH]; simpl; [reflexivity|].
  rewrite andb_true_iff. intros [He Ht]. rewrite (H e He). auto.
Qed.

Lemma isWork_not_starting e : isWork e = true -> isStartingReport e = false.
Proof. destruct e; simpl; congruence. Qed.

Lemma isWork_not_completed e : isWork e = true -> isCompletedReport e = false.
Proof. destruct e; simpl; congruence. Qed.

Lemma isWork_not_setFailed e : isWork e = true -> isSetFailed e = false.
Proof. destruct e; simpl; congruence. Qed.

Lemma isWork_not_report r (t : Trace) :
  forallb isWork t = true -> ~ In (EvSendStatusReport r) t.
Proof.
  intros H Hin. rewrite forallb_forall in H. apply H in Hin. discriminate.
Qed.

Lemma count_isWork p (t : Trace) :
  (forall e, isWork e = true -> p e = false) ->
  forallb isWork t = true -> count p t = 0.
Proof.
  intros H Ht. apply count_none. revert Ht. apply forallb_weaken.
  intros e He. rewrite (H e He). reflexivity.
Qed.

Lemma markedFailed_isWork (t : Trace) :
  forallb isWork t = true -> markedFailed t = false.
Proof. apply existsb_isWork_false. exact isWork_not_setFailed. Qed.

Lemma autobuild_work_isWork p env l :
  forallb isWork (emitted (Autobuild.work p env l)) = true.
Proof. apply (autobuild_work_plain isWork p env (fun c => eq_refl) l). Qed.

Lemma autobuild_completedReport_status p l cause failing :
  report_status (autobuild_completedReport p l cause failing) =
    getActionsStatus cause failing.
Proof. reflexivity. Qed.

Lemma analyze_finishReport_status p env c stats error t d did :
  report_status (analyze_finishReport p env c stats error t d did) =
    getActionsStatus error
      (match stats with
       | Some s => analyze_failure_language (queries_part s)
       | None => None
       end).
Proof. reflexivity. Qed.

Lemma init_completedReport_status p env c l error :
  report_status (init_completedReport p env c l error) =
    getActionsStatus error None.
Proof. reflexivity. Qed.

Lemma init_firstCatchReport_status p e :
  report_status (init_firstCatchReport p e) =
    if isUserError e then user_error else aborted.
Proof. reflexivity. Qed.

Lemma In_starting_report r (t : Trace) :
  In (EvSendStatusReport r) t -> report_status r = starting ->
  existsb isStartingReport t = true.
Proof.
  intros Hin Hst. apply existsb_exists. exists (EvSendStatusReport r).
  split; [assumption|]. unfold isStartingReport. rewrite Hst. reflexivity.
Qed.

Lemma existsb_isWork_starting (t : Trace) :
  forallb isWork t = true -> existsb isStartingReport t = false.
Proof. apply existsb_isWork_false. exact isWork_not_starting. Qed.

Ltac status_facts :=
  rewrite ?isStartingReport_false, ?isCompletedReport_true
    by (first [ apply getActionsStatus_not_starting
              | rewrite init_firstCatchReport_status;
                match goal with |- context [isUserError ?e] =>
                  destruct (isUserError e); discriminate end ]).

(** After the work of its [try] block a stage sends no starting report
    and exactly one completed report. *)
Lemma autobuild_afterWork_no_starting p r :
  existsb isStartingReport (autobuild_afterWork p r) = false.
Proof.
  unfold autobuild_afterWork. destruct (completion r) as [[]|e|];
    cbn [existsb]; status_facts; reflexivity.
Qed.

Lemma autobuild_afterWork_completed p r :
  completion r <> EarlyReturn ->
  count isCompletedReport (autobuild_afterWork p r) = 1.
Proof.
  unfold autobuild_afterWork, count. destruct (completion r) as [[]|e|];
    intros H; cbn [filter]; status_facts;
    [reflexivity|reflexivity|congruence].
Qed.

Lemma analyze_afterWork_no_starting p env r :
  existsb isStartingReport (analyze_afterWork p env r) = false.
Proof.
  unfold analyze_afterWork, analyze_successReport, analyze_catchReport.
  destruct (completion r) as [[]|e|];
    [destruct (expectsError p)|destruct (analyze_marksFailedOnError p)|];
    cbn [app existsb]; status_facts; reflexivity.
Qed.

Lemma analyze_afterWork_completed p env r :
  completion r <> EarlyReturn ->
  count isCompletedReport (analyze_afterWork p env r) = 1.
Proof.
  unfold analyze_afterWork, analyze_successReport, analyze_catchReport, count.
  destruct (completion r) as [[]|e|]; intros H;
    [destruct (expectsError p)|destruct (analyze_marksFailedOnError p)|];
    cbn [app filter]; status_facts;
    try reflexivity; congruence.
Qed.

Lemma init_afterSecond_no_starting p env c r :
  existsb isStartingReport (init_afterSecond p env c r) = false.
Proof.
  unfold init_afterSecond. destruct (completion r) as [[]|e|];
    cbn [existsb]; status_facts; reflexivity.
Qed.

Lemma init_afterSecond_completed p env c r :
  completion r <> EarlyReturn ->
  count isCompletedReport (init_afterSecond p env c r) = 1.
Proof.
  unfold init_afterSecond, count. destruct (completion r) as [[]|e|];
    intros H; cbn [filter]; status_facts;
    [reflexivity|reflexivity|congruence].
Qed.

Lemma init_secondTry_isWork p env c l :
  forallb isWork (emitted (Init.secondTry p env c l)) = true.
Proof. apply (init_secondTry_plain isWork p env c (fun e H => H) l). Qed.

Lemma init_firstWork_isWork p env l :
  forallb isWork (emitted (Init.firstWork p env l)) = true.
Proof. apply (init_firstWork_plain isWork p env (fun e H => H) l). Qed.

Lemma init_preamble_isWork p env l :
  forallb isWork (emitted (Init.preamble p env l)) = true.
Proof. apply (init_preamble_plain isWork p env (fun e H => H) l). Qed.

Lemma init_afterFirst_no_starting p env r :
  existsb isStartingReport (init_afterFirst p env r) = false.
Proof.
  unfold init_afterFirst. destruct (completion r) as [c|e|].
  - rewrite existsb_app, init_afterSecond_no_starting,
      (existsb_isWork_starting _ (init_secondTry_isWork p env c (locals r))).
    reflexivity.
  - cbn [existsb]; status_facts; reflexivity.
  - reflexivity.
Qed.

Lemma init_afterFirst_completed p env r :
  completion r <> EarlyReturn ->
  count isCompletedReport (init_afterFirst p env r) = 1.
Proof.
  unfold init_afterFirst. destruct (completion r) as [c|e|]; intros H.
  - rewrite count_app, init_afterSecond_completed,
      (count_isWork _ _ isWork_not_completed
         (init_secondTry_isWork p env c (locals r))).
    + reflexivity.
    + apply (init_secondTry_plain isWork p env c (fun e H => H)).
  - unfold count. cbn [filter]; status_facts; reflexivity.
  - congruence.
Qed.

Lemma count_cons p e (t : Trace) :
  count p (e :: t) = (if p e then 1 else 0) + count p t.
Proof. unfold count. simpl. destruct (p e); reflexivity. Qed.

Lemma count_existsb_false p (t : Trace) :
  existsb p t = false -> count p t = 0.
Proof.
  unfold count. induction t as [|e t IH]; simpl; [reflexivity|].
  destruct (p e); simpl; [discriminate|exact IH].
Qed.

Lemma markedFailed_cons e (t : Trace) :
  markedFailed (e :: t) = isSetFailed e || markedFailed t.
Proof. reflexivity. Qed.

Lemma failedBefore_here r (before after : Trace) :
  markedFailed before = true ->
  failedBefore r (before ++ EvSendStatusReport r :: after).
Proof. intros H. exists before, after. split; [reflexivity|exact H]. Qed.

Lemma failedBefore_app r (t1 t2 : Trace) :
  failedBefore r t2 -> failedBefore r (t1 ++ t2).
Proof.
  intros [before [after [-> H]]]. exists (t1 ++ before), after. split.
  - rewrite app_assoc. reflexivity.
  - rewrite markedFailed_app, H. apply orb_true_r.
Qed.

Lemma failedBefore_cons r e (t : Trace) :
  failedBefore r t -> failedBefore r (e :: t).
Proof. apply (failedBefore_app r [e] t). Qed.

Lemma failedBefore_markedFailed r (t : Trace) :
  failedBefore r t -> markedFailed t = true.
Proof.
  intros [before [after [-> H]]]. rewrite markedFailed_app, H. reflexivity.
Qed.

Lemma analyze_successReport_status p env l :
  (forall q, Analyze.runStats l = Some q -> analyze_failure_language q = None) ->
  report_status (analyze_successReport p env l) = success.
Proof.
  intros H. unfold analyze_successReport.
  rewrite analyze_finishReport_status. unfold analyze_successStats.
  destruct (Analyze.runStats l) as [q|]; [|reflexivity].
  destruct (Analyze.uploadResult l); cbn; rewrite (H q eq_refl); reflexivity.
Qed.

Ltac no_setFailed Hw :=
  rewrite ?markedFailed_cons, ?markedFailed_app, ?(markedFailed_isWork _ Hw);
  reflexivity.

(** * The query loop of the earlier build *)

Lemma bind_ext {L A B} (m : M L A) (f g : A -> M L B) l :
  (forall a l', f a l' = g a l') -> bind m f l = bind m g l.
Proof.
  intros H. unfold bind. destruct (m l) as [[a|e|] l1 ev1]; try reflexivity.
  rewrite H. reflexivity.
Qed.

Lemma legacy_forLanguages_stops env failing e before after l :
  LegacyAnalyze.databaseAnalyze env failing = Raise e ->
  LegacyAnalyze.forLanguages env (before ++ failing :: after) l =
  LegacyAnalyze.forLanguages env (before ++ [failing]) l.
Proof.
  intros Hfail. revert l.
  induction before as [|language before IH]; intros l;
    cbn [app LegacyAnalyze.forLanguages].
  - destruct (LegacyAnalyze.queries env failing); [reflexivity|].
    cbv zeta. unfold_monad. rewrite Hfail.
    destruct (LegacyAnalyze.writeFileSync env _); reflexivity.
  - destruct (LegacyAnalyze.queries env language); [reflexivity|].
    cbv zeta. apply bind_ext. intros [|] l'; [reflexivity|apply IH].
Qed.

(** In the earlier build, the languages that come after the first one
    whose analysis throws are not analysed: [runQueries] returns with
    that language as [analyze_failure_language], whatever follows it in
    the list. *)
Lemma legacy_runQueries_stops_at_first_failure env failing e before after l :
  LegacyAnalyze.databaseAnalyze env failing = Raise e ->
  LegacyAnalyze.runQueries env (before ++ failing :: after) l =
  LegacyAnalyze.runQueries env (before ++ [failing]) l.
Proof.
  intros Hfail. unfold LegacyAnalyze.runQueries. apply bind_ext.
  intros _ l'. apply (legacy_forLanguages_stops env failing e). exact Hfail.
Qed.

(** * Facts used by the claims *)

Lemma init_trace_initConfigWith (sink : Sink) p env :
  forallb (initConfigWith (Init.getTrapCachingEnabled p env))
    (trace (Init.run sink p env)) = true.
Proof.
  set (P := initConfigWith (Init.getTrapCachingEnabled p env)).
  assert (H0 : plain P (Init.preamble p env)).
  { unfold_init. plain_auto. }
  assert (H1 : plain P (Init.firstWork p env)).
  { unfold_init. plain_auto. }
  assert (H2 : forall c, plain P (Init.secondTry p env c)).
  { intros c. unfold_init. plain_auto. }
  rewrite init_run_eq. cbn [trace]. rewrite forallb_app.
  rewrite (proj1 (H0 Init.initial)). unfold init_afterPreamble.
  destruct (completion (Init.preamble p env Init.initial)) as [u|e|];
    try reflexivity.
  destruct (sink (Init.startingReport p)); [|reflexivity].
  cbn [forallb andb]. rewrite forallb_app, (proj1 (H1 _)).
  unfold init_afterFirst.
  destruct (completion (Init.firstWork p env _)) as [c|e|]; try reflexivity.
  rewrite forallb_app, (proj1 (H2 c _)). unfold init_afterSecond.
  destruct (completion (Init.secondTry p env c _)) as [[]|e|]; reflexivity.
Qed.

Lemma autobuild_start_rejected (sink : Sink) p env :
  startRejected sink (trace (Autobuild.run sink p env)) ->
  sink (Autobuild.startingReport p) = false.
Proof.
  intros [r [Hin [Hst Hs]]]. rewrite autobuild_run_eq in Hin.
  cbn [trace] in Hin. destruct Hin as [H|H].
  - inversion H. subst. exact Hs.
  - destruct (sink (Autobuild.startingReport p)) eqn:E; [|reflexivity].
    exfalso. apply In_starting_report in H; [|assumption].
    rewrite existsb_app, autobuild_afterWork_no_starting,
      (existsb_isWork_starting _ (autobuild_work_isWork p env _)) in H.
    discriminate.
Qed.

Lemma analyze_start_rejected (sink : Sink) p env :
  startRejected sink (trace (Analyze.run sink p env)) ->
  sink (Analyze.startingReport p) = false.
Proof.
  intros [r [Hin [Hst Hs]]]. rewrite analyze_run_eq in Hin.
  cbn [trace] in Hin. destruct Hin as [H|[H|H]].
  - discriminate.
  - inversion H. subst. exact Hs.
  - destruct (sink (Analyze.startingReport p)) eqn:E; [|reflexivity].
    exfalso. apply In_starting_report in H; [|assumption].
    rewrite existsb_app, analyze_afterWork_no_starting,
      (existsb_isWork_starting _ (analyze_work_isWork p env _)) in H.
    discriminate.
Qed.

Lemma init_start_rejected (sink : Sink) p env :
  startRejected sink (trace (Init.run sink p env)) ->
  sink (Init.startingReport p) = false /\
  exists u, completion (Init.preamble p env Init.initial) = Normal u.
Proof.
  intros [r [Hin [Hst Hs]]]. rewrite init_run_eq in Hin.
  cbn [trace] in Hin. apply in_app_or in Hin. destruct Hin as [H|H].
  - exfalso. eapply isWork_not_report; [apply init_preamble_isWork|exact H].
  - unfold init_afterPreamble in H.
    destruct (completion (Init.preamble p env Init.initial)) as [u|e|];
      [|contradiction|contradiction].
    split; [|exists u; reflexivity].
    destruct H as [H|H].
    + inversion H. subst. exact Hs.
    + destruct (sink (Init.startingReport p)) eqn:E; [|reflexivity].
      exfalso. apply In_starting_report in H; [|assumption].
      rewrite existsb_app, init_afterFirst_no_starting,
        (existsb_isWork_starting _ (init_firstWork_isWork p env _)) in H.
      discriminate.
Qed.

Lemma analyze_work_fatal_RunQueries p env e :
  Analyze.runQueries env = Raise e -> fatal RunQueries e (Analyze.work p env).
Proof. intros H. unfold_analyze. repeat fatal_step. Qed.

Lemma analyze_work_fatal_RunFinalize p env e :
  Analyze.runFinalize env = Raise e -> fatal RunFinalize e (Analyze.work p env).
Proof. intros H. unfold_analyze. repeat fatal_step. Qed.

Lemma analyze_work_fatal_UploadTrapCaches p env e :
  Analyze.uploadTrapCaches env = Raise e ->
  fatal UploadTrapCaches e (Analyze.work p env).
Proof. intros H. unfold_analyze. repeat fatal_step. Qed.

(** [runStats] holds what [runQueries] returned. *)
Lemma analyze_work_runStats p env :
  preserves
    (fun l => forall q, Analyze.runStats l = Some q -> Analyze.runQueries env = Ok q)
    (Analyze.work p env).
Proof.
  unfold_analyze.
  repeat preserves_step
    ltac:(let l := fresh in let Hl := fresh in
          intros l Hl; cbn; intros; first [apply Hl; assumption | congruence]).
Qed.

(** [didUploadTrapCaches] holds what [uploadTrapCaches] returned. *)
Lemma analyze_work_didUploadTrapCaches p env :
  preserves
    (fun l => Analyze.didUploadTrapCaches l = true ->
              Analyze.uploadTrapCaches env = Ok true)
    (Analyze.work p env).
Proof.
  unfold_analyze.
  repeat preserves_step
    ltac:(let l := fresh in let Hl := fresh in
          intros l Hl; cbn; intros; first [apply Hl; assumption | congruence]).
Qed.

Lemma autobuild_work_without_config p env l :
  getConfig p = Ok None ->
  Autobuild.work p env l =
    match getGitHubVersion p with
    | Raise e => mkRes (Throw e) l [EvCall GetGitHubVersion]
    | Ok _ =>
        match checkGitHubVersionInRange p with
        | Raise e =>
            mkRes (Throw e) l
              [EvCall GetGitHubVersion; EvCall CheckGitHubVersionInRange]
        | Ok _ =>
            mkRes (Throw (mkError PlainError CONFIG_NOT_FOUND)) l
              [EvCall GetGitHubVersion; EvCall CheckGitHubVersionInRange;
               EvCall GetConfig]
        end
    end.
Proof.
  intros H. unfold Autobuild.work. unfold_monad. rewrite H.
  destruct (getGitHubVersion p); [|reflexivity].
  destruct (checkGitHubVersionInRange p); reflexivity.
Qed.

Lemma analyze_setup_without_config p env l :
  getConfig p = Ok None ->
  Analyze.setup p env l =
    mkRes (Throw (mkError PlainError CONFIG_NOT_FOUND))
      (Analyze.set_config None l) [EvCall GetConfig].
Proof.
  intros H. unfold Analyze.setup. unfold_monad. rewrite H. reflexivity.
Qed.

Lemma analyze_work_without_config p env l :
  getConfig p = Ok None ->
  Analyze.work p env l =
    mkRes (Throw (mkError PlainError CONFIG_NOT_FOUND))
      (Analyze.set_config None l) [EvCall GetConfig].
Proof.
  intros H. unfold Analyze.work. unfold bind at 1.
  rewrite (analyze_setup_without_config p env l H). reflexivity.
Qed.

Lemma analyze_setup_bad_expect_error p env l :
  Analyze.hasBadExpectErrorInput p = true ->
  emitted (Analyze.setup p env l) = [EvCall GetConfig] /\
  exists e,
    completion (Analyze.setup p env l) = Throw e /\
    forall c, getConfig p = Ok (Some c) ->
      e = mkError UserError Analyze.EXPECT_ERROR_INTERNAL /\
      locals (Analyze.setup p env l) = Analyze.set_config (Some c) l.
Proof.
  intros H. unfold Analyze.setup. unfold_monad. rewrite H.
  destruct (getConfig p) as [[c|]|e]; cbn [completion locals emitted app].
  - split; [reflexivity|]. eexists. split; [reflexivity|].
    intros c' Hc. inversion Hc. subst. split; reflexivity.
  - split; [reflexivity|]. eexists. split; [reflexivity|]. discriminate.
  - split; [reflexivity|]. eexists. split; [reflexivity|]. discriminate.
Qed.

Lemma analyze_work_bad_expect_error p env l :
  Analyze.hasBadExpectErrorInput p = true ->
  emitted (Analyze.work p env l) = [EvCall GetConfig] /\
  exists e,
    completion (Analyze.work p env l) = Throw e /\
    forall c, getConfig p = Ok (Some c) ->
      e = mkError UserError Analyze.EXPECT_ERROR_INTERNAL /\
      locals (Analyze.work p env l) = Analyze.set_config (Some c) l.
Proof.
  intros H. destruct (analyze_setup_bad_expect_error p env l H)
    as [Hev [e [Hc Hcfg]]].
  unfold Analyze.work. rewrite (bind_throw _ _ _ _ Hc).
  cbn [completion locals emitted]. split; [exact Hev|].
  exists e. split; [reflexivity|exact Hcfg].
Qed.

Lemma autobuild_exitMatchesState (sink : Sink) p env :
  exitMatchesState (trace (Autobuild.run sink p env)).
Proof.
  pose proof (autobuild_work_isWork p env Autobuild.initial) as Hw.
  rewrite autobuild_run_eq. cbn [trace]. intros r [H|H].
  { inversion H. split; intros Hs; discriminate. }
  destruct (sink (Autobuild.startingReport p)); [|contradiction].
  apply in_app_or in H. destruct H as [H|H].
  { exfalso. exact (isWork_not_report _ _ Hw H). }
  unfold autobuild_afterWork in *.
  destruct (completion (Autobuild.work p env Autobuild.initial)) as [[]|e|].
  - destruct H as [H|[H|[]]]; [discriminate|]. inversion H. split.
    + intros Hs. discriminate.
    + intros _. no_setFailed Hw.
  - destruct H as [H|[H|[H|[]]]]; try discriminate. inversion H. split.
    + intros _. apply failedBefore_cons, failedBefore_app.
      apply (failedBefore_here _ [_; _] []). reflexivity.
    + rewrite autobuild_completedReport_status, getActionsStatus_error.
      destruct (isUserError e); discriminate.
  - contradiction.
Qed.

Lemma init_exitMatchesState (sink : Sink) p env :
  exitMatchesState (trace (Init.run sink p env)).
Proof.
  pose proof (init_preamble_isWork p env Init.initial) as Hw0.
  rewrite init_run_eq. cbn [trace]. intros r H.
  apply in_app_or in H. destruct H as [H|H].
  { exfalso. exact (isWork_not_report _ _ Hw0 H). }
  unfold init_afterPreamble in *.
  destruct (completion (Init.preamble p env Init.initial)) as [[]|e0|];
    [|contradiction|contradiction].
  destruct H as [H|H].
  { inversion H. split; intros Hs; discriminate. }
  destruct (sink (Init.startingReport p)); [|contradiction].
  pose proof (init_firstWork_isWork p env
                (locals (Init.preamble p env Init.initial))) as Hw1.
  apply in_app_or in H. destruct H as [H|H].
  { exfalso. exact (isWork_not_report _ _ Hw1 H). }
  unfold init_afterFirst in *.
  destruct (completion (Init.firstWork p env
                          (locals (Init.preamble p env Init.initial))))
    as [c|e1|]; [| |contradiction].
  - pose proof (init_secondTry_isWork p env c
                  (locals (Init.firstWork p env
                             (locals (Init.preamble p env Init.initial)))))
      as Hw2.
    apply in_app_or in H. destruct H as [H|H].
    { exfalso. exact (isWork_not_report _ _ Hw2 H). }
    unfold init_afterSecond in *.
    destruct (completion (Init.secondTry p env c _)) as [[]|e2|].
    + destruct H as [H|[]]. inversion H. split.
      * intros Hs. discriminate.
      * intros _.
        rewrite !markedFailed_app, (markedFailed_isWork _ Hw0),
          markedFailed_cons, !markedFailed_app, (markedFailed_isWork _ Hw1),
          (markedFailed_isWork _ Hw2).
        reflexivity.
    + destruct H as [H|[H|[]]]; [discriminate|]. inversion H. split.
      * intros _. apply failedBefore_app, failedBefore_cons.
        do 2 apply failedBefore_app.
        apply (failedBefore_here _ [_] []). reflexivity.
      * rewrite init_completedReport_status, getActionsStatus_error.
        destruct (isUserError e2); discriminate.
    + contradiction.
  - destruct H as [H|[H|[]]]; [discriminate|]. inversion H. split.
    + intros _. apply failedBefore_app, failedBefore_cons, failedBefore_app.
      apply (failedBefore_here _ [_] []). reflexivity.
    + rewrite init_firstCatchReport_status.
      destruct (isUserError e1); discriminate.
Qed.

Lemma expectsError_hasBad p :
  expectsError p = true -> isInTestMode p = false ->
  Analyze.hasBadExpectErrorInput p = true.
Proof.
  unfold expectsError, Analyze.hasBadExpectErrorInput. intros H ->.
  apply strict_eq_spec in H. rewrite H. reflexivity.
Qed.

Lemma analyze_marksFailed_outside_pr_checks p :
  expectsError p && isInTestMode p = false ->
  analyze_marksFailedOnError p = true.
Proof.
  unfold analyze_marksFailedOnError. intros H.
  destruct (expectsError p) eqn:He; [|reflexivity].
  destruct (isInTestMode p) eqn:Ht; [discriminate|].
  rewrite (expectsError_hasBad p He Ht). reflexivity.
Qed.

Lemma analyze_exitMatchesState (sink : Sink) p env :
  expectsError p && isInTestMode p = false ->
  (forall q, Analyze.runQueries env = Ok q -> analyze_failure_language q = None) ->
  exitMatchesState (trace (Analyze.run sink p env)).
Proof.
  intros Hexp Hq.
  pose proof (analyze_work_isWork p env Analyze.initial) as Hw.
  assert (Hstats : forall q,
             Analyze.runStats (locals (Analyze.work p env Analyze.initial)) = Some q ->
             analyze_failure_language q = None).
  { intros q Hs. apply Hq.
    apply (analyze_work_runStats p env Analyze.initial); [|exact Hs].
    intros q' Hq'. discriminate. }
  pose proof (analyze_marksFailed_outside_pr_checks p Hexp) as Hmark.
  assert (Hnormal : forall u,
             completion (Analyze.work p env Analyze.initial) = Normal u ->
             expectsError p = false).
  { intros u Hu. destruct (expectsError p) eqn:He; [|reflexivity].
    destruct (isInTestMode p) eqn:Ht; [discriminate|].
    destruct (analyze_work_bad_expect_error p env Analyze.initial
                (expectsError_hasBad p He Ht)) as [_ [e [Hc _]]].
    congruence. }
  rewrite analyze_run_eq. cbn [trace]. intros r [H|[H|H]].
  { discriminate. }
  { inversion H. split; intros Hs; discriminate. }
  destruct (sink (Analyze.startingReport p)); [|contradiction].
  apply in_app_or in H. destruct H as [H|H].
  { exfalso. exact (isWork_not_report _ _ Hw H). }
  unfold analyze_afterWork in *. rewrite Hmark in *.
  destruct (completion (Analyze.work p env Analyze.initial)) as [[]|e|].
  - rewrite (Hnormal tt eq_refl) in *.
    destruct H as [H|[H|[]]]; [discriminate|]. inversion H.
    rewrite (analyze_successReport_status p env _ Hstats). split.
    + intros Hs. discriminate.
    + intros _. no_setFailed Hw.
  - destruct H as [H|[H|[]]]; [discriminate|]. inversion H. split.
    + intros _. do 2 apply failedBefore_cons. apply failedBefore_app.
      apply (failedBefore_here _ [_] []). reflexivity.
    + unfold analyze_catchReport.
      rewrite analyze_finishReport_status, getActionsStatus_error.
      destruct (isUserError e); discriminate.
  - contradiction.
Qed.

Lemma exitMatchesState_app_work (t w : Trace) :
  exitMatchesState t -> forallb isWork w = true -> exitMatchesState (t ++ w).
Proof.
  intros Ht Hw r Hin. apply in_app_or in Hin. destruct Hin as [Hin|Hin].
  - destruct (Ht r Hin) as [Hfail Hok]. split.
    + intros Hs. destruct (Hfail Hs) as [before [after [-> Hm]]].
      exists before, (after ++ w). split; [|exact Hm].
      rewrite <- app_assoc. reflexivity.
    + intros Hs. rewrite markedFailed_app, (Hok Hs), (markedFailed_isWork _ Hw).
      reflexivity.
  - exfalso. exact (isWork_not_report _ _ Hw Hin).
Qed.

Lemma exitMatchesState_no_reports (t : Trace) :
  (forall r, ~ In (EvSendStatusReport r) t) -> exitMatchesState t.
Proof. intros H r Hin. exfalso. exact (H r Hin). Qed.

Lemma autobuild_runWrapper_exitMatchesState (sink : Sink) p env :
  exitMatchesState (Autobuild.runWrapper sink p env).
Proof.
  pose proof (autobuild_exitMatchesState sink p env) as H.
  unfold Autobuild.runWrapper. rewrite autobuild_run_eq in *. exact H.
Qed.

Lemma analyze_runWrapper_exitMatchesState (sink : Sink) p env :
  exitMatchesState (trace (Analyze.run sink p env)) ->
  exitMatchesState (Analyze.runWrapper sink p env).
Proof.
  intros H. unfold Analyze.runWrapper. rewrite analyze_run_eq in *.
  cbn [rejected trace] in *. apply exitMatchesState_app_work; [exact H|].
  reflexivity.
Qed.

Lemma init_runWrapper_exitMatchesState (sink : Sink) p env :
  exitMatchesState (Init.runWrapper sink p env).
Proof.
  pose proof (init_exitMatchesState sink p env) as H.
  pose proof (init_preamble_isWork p env Init.initial) as Hw.
  unfold Init.runWrapper. rewrite init_run_eq in *.
  cbn [rejected trace] in *. unfold init_afterPreamble in *.
  destruct (completion (Init.preamble p env Init.initial)) as [u|e|].
  - apply exitMatchesState_app_work; [exact H|reflexivity].
  - apply exitMatchesState_no_reports. intros r Hin.
    rewrite app_nil_r in Hin. apply in_app_or in Hin.
    destruct Hin as [Hin|[Hin|[Hin|[]]]]; try discriminate.
    exact (isWork_not_report _ _ Hw Hin).
  - apply exitMatchesState_app_work; [exact H|reflexivity].
Qed.

Lemma analyze_afterWork_no_call p env r c :
  existsb (isCall c) (analyze_afterWork p env r) = false.
Proof.
  unfold analyze_afterWork. destruct (completion r) as [[]|e|];
    [destruct (expectsError p)|destruct (analyze_marksFailedOnError p)|];
    reflexivity.
Qed.

(** When a call made by the work of the [try] block throws and ends the
    block, the handler is all that follows it. *)
Lemma analyze_fatal_call (sink : Sink) p env c e :
  fatal c e (Analyze.work p env) ->
  isCall c (EvCall c) = true ->
  isCall c (EvCall InitializeEnvironment) = false ->
  existsb (isCall c) (trace (Analyze.run sink p env)) = true ->
  completion (Analyze.work p env Analyze.initial) = Throw e /\
  eventsAfter (isCall c) (trace (Analyze.run sink p env)) =
    (if analyze_marksFailedOnError p then [EvSetFailed (message e)] else []) ++
    [EvSendStatusReport
       (analyze_catchReport p env
          (locals (Analyze.work p env Analyze.initial)) e)].
Proof.
  intros Hfatal Hc Hinit. rewrite analyze_run_eq. cbn [trace].
  cbn [existsb eventsAfter]. rewrite Hinit. cbn [orb isCall].
  destruct (sink (Analyze.startingReport p)); [|discriminate].
  rewrite existsb_app, analyze_afterWork_no_call, orb_false_r.
  intros Hex. destruct (Hfatal Analyze.initial Hex) as [Hthrow [before [Hev Hb]]].
  split; [exact Hthrow|].
  unfold analyze_afterWork. rewrite Hthrow, Hev, <- app_assoc.
  rewrite (eventsAfter_app_none _ _ _ Hb). cbn [app eventsAfter].
  rewrite Hc. reflexivity.
Qed.

Lemma analyze_reports_without_trap_upload (sink : Sink) p env r :
  Analyze.uploadTrapCaches env <> Ok true ->
  In (EvSendStatusReport r) (trace (Analyze.run sink p env)) ->
  report_trap_upload r = None.
Proof.
  intros Hup.
  assert (Hdid : Analyze.didUploadTrapCaches
                   (locals (Analyze.work p env Analyze.initial)) = false).
  { destruct (Analyze.didUploadTrapCaches
                (locals (Analyze.work p env Analyze.initial))) eqn:E;
      [|reflexivity].
    exfalso. apply Hup.
    apply (analyze_work_didUploadTrapCaches p env Analyze.initial);
      [discriminate|exact E]. }
  pose proof (analyze_work_isWork p env Analyze.initial) as Hw.
  rewrite analyze_run_eq. cbn [trace]. intros [H|[H|H]].
  { discriminate. }
  { inversion H. reflexivity. }
  destruct (sink (Analyze.startingReport p)); [|contradiction].
  apply in_app_or in H. destruct H as [H|H].
  { exfalso. exact (isWork_not_report _ _ Hw H). }
  unfold analyze_afterWork in H.
  destruct (completion (Analyze.work p env Analyze.initial)) as [[]|e|].
  - apply in_app_or in H. destruct H as [H|H].
    + destruct (expectsError p); [destruct H as [H|[]]; discriminate|contradiction].
    + destruct H as [H|[H|[]]]; [discriminate|]. inversion H.
      unfold analyze_successReport, analyze_finishReport. rewrite Hdid.
      cbn. destruct (Analyze.config _); reflexivity.
  - apply in_app_or in H. destruct H as [H|H].
    + destruct (analyze_marksFailedOnError p);
        [destruct H as [H|[]]; discriminate|contradiction].
    + destruct H as [H|[]]. inversion H.
      unfold analyze_catchReport, analyze_finishReport. rewrite Hdid.
      cbn. destruct (Analyze.config _); reflexivity.
  - contradiction.
Qed.

(** * The stages with any reporter *)

Ltac unfold_outcome :=
  unfold startThen, preceded, awaiting, sending, resolved;
  cbn [rejected trace].

(** Case analysis on the answer to a report, wherever the report
    occurs in the goal. *)
Ltac destruct_send rep :=
  match goal with
  | |- context [send rep ?r] =>
      repeat match goal with
             | |- context [send rep ?r'] =>
                 lazymatch r' with
                 | r => fail
                 | _ => change r' with r
                 end
             end;
      destruct (send rep r) as [[|]|?]
  end.

Lemma autobuild_run_general (rep : Reporter) p env :
  Autobuild.run rep p env = autobuild_outcome rep p env.
Proof.
  destruct (autobuild_work_plain (fun _ => true) p env (fun _ => eq_refl)
              Autobuild.initial) as [_ Hret].
  unfold autobuild_outcome, autobuild_handler, autobuild_finish,
    autobuild_completedReport, Autobuild.startingReport.
  unfold Autobuild.run, asyncFunction, Autobuild.runBody, Autobuild.tryBlock,
    Autobuild.catchBlock, Autobuild.sendCompletedStatusReport.
  unfold_monad. unfold_outcome. cbv zeta.
  destruct (startingReportBase rep) as [[]|e0];
    [destruct_send rep; cbn [negb]|];
    try (destruct (Autobuild.work p env Autobuild.initial) as [[[]|e|] l ev];
         cbn [completion locals emitted] in * );
    try (exfalso; apply Hret; reflexivity);
    destruct (initializeEnvironment rep) as [[]|e2];
    destruct (completedReportBase rep) as [[]|e3];
    cbn [rejected trace app];
    repeat destruct_send rep;
    cbn [app]; rewrite ?app_nil_r, <- ?app_assoc; try reflexivity.
Qed.

(** The stage's own [sendStatusReport] ends as [analyze_finish] says. *)
Lemma analyze_sendStatusReport_general (rep : Reporter) p env c stats error
    t d did l :
  Analyze.sendStatusReport' rep p env c stats error t d did l =
    let o := analyze_finish rep
               (analyze_finishReport p env c stats error t d did) in
    mkRes (match rejected o with Some e => Throw e | None => Normal tt end)
      l (trace o).
Proof.
  unfold Analyze.sendStatusReport', analyze_finish, analyze_finishReport.
  unfold_monad. unfold_outcome. cbv zeta.
  destruct (completedReportBase rep) as [[]|e1];
    destruct c as [c|]; try destruct did;
    cbn [report_trap_upload];
    try destruct (cacheSizeCheck rep) as [[]|e2];
    repeat destruct_send rep; reflexivity.
Qed.

Lemma analyze_run_general (rep : Reporter) p env :
  Analyze.run rep p env = analyze_outcome rep p env.
Proof.
  pose proof (analyze_work_never_returns p env Analyze.initial) as Hret.
  unfold analyze_outcome, analyze_handler, Analyze.startingReport.
  unfold Analyze.run, asyncFunction, Analyze.runBody, Analyze.tryBlock,
    Analyze.catchBlock, Analyze.afterTry, Analyze.ending.
  unfold_monad. unfold_outcome. cbv zeta.
  unfold analyze_successReport, analyze_successStats, analyze_catchReport,
    analyze_catchStats, analyze_marksFailedOnError, expectsError.
  destruct (initializeEnvironment rep) as [[]|e0]; [|reflexivity].
  destruct (startingReportBase rep) as [[]|e1];
    [destruct_send rep; cbn [negb]|];
    try (destruct (Analyze.work p env Analyze.initial) as [[[]|e|] l ev];
         cbn [completion locals emitted] in * );
    try (exfalso; apply Hret; reflexivity);
    try reflexivity;
    try destruct (JsString.strict_eq (getOptionalInput p "expect-error")
                    "true");
    cbn [negb orb];
    try destruct (Analyze.hasBadExpectErrorInput p);
    try destruct (Analyze.runStats l); try destruct (Analyze.uploadResult l);
    try match goal with
        | |- context [error_class ?e] => destruct (error_class e)
        end;
    cbn [rejected trace app Analyze.runStats Analyze.uploadResult
         Analyze.initial];
    rewrite ?analyze_sendStatusReport_general; cbv zeta;
    try match goal with
        | |- context [analyze_finish rep ?r] =>
            destruct (analyze_finish rep r) as [[?|] ?]
        end;
    cbn [rejected trace app]; rewrite ?app_nil_r, <- ?app_assoc;
    try reflexivity.
Qed.

(** [sendCompletedStatusReport] of the init stage ends as [init_finish]
    says. *)
Lemma init_sendCompletedStatusReport_general (rep : Reporter) p env c l
    error l' :
  Init.sendCompletedStatusReport rep p env (Some c)
    (Init.l_toolsDownloadDurationMs l) (Init.l_toolsFeatureFlagsValid l)
    (Init.l_toolsSource l) (Init.l_toolsVersion l) error l' =
    let o := init_finish rep (init_completedReport p env c l error) in
    mkRes (match rejected o with Some e => Throw e | None => Normal tt end)
      l' (trace o).
Proof.
  unfold Init.sendCompletedStatusReport, init_finish, init_completedReport.
  unfold_monad. unfold_outcome. cbv zeta.
  destruct (completedReportBase rep) as [[]|e1];
    try destruct (cacheSizeCheck rep) as [[]|e2];
    repeat destruct_send rep; reflexivity.
Qed.

Lemma init_run_general (rep : Reporter) p env :
  Init.run rep p env = init_outcome rep p env.
Proof.
  pose proof (proj2 (init_preamble_plain isWork p env (fun e H => H)
                       Init.initial)) as Hret0.
  unfold init_outcome, init_firstHandler, Init.startingReport,
    init_firstCatchReport.
  unfold Init.run, asyncFunction, Init.runBody, Init.firstTry,
    Init.firstCatch, Init.secondCatch.
  unfold_monad. unfold_outcome. cbv zeta.
  destruct (Init.preamble p env Init.initial) as [[[]|e|] l0 ev0];
    cbn [completion locals emitted] in *.
  2: cbn [rejected trace]; rewrite app_nil_r; reflexivity.
  2: exfalso; apply Hret0; reflexivity.
  pose proof (proj2 (init_firstWork_plain isWork p env (fun e H => H) l0))
    as Hret1.
  destruct (startingReportBase rep) as [[]|e1];
    [destruct_send rep; cbn [negb]|].
  1: { destruct (Init.firstWork p env l0) as [[c|e|] l1 ev1];
         cbn [completion locals emitted] in *.
       3: exfalso; apply Hret1; reflexivity.
       - pose proof (proj2 (init_secondTry_plain isWork p env c
                              (fun e H => H) l1)) as Hret2.
         destruct (Init.secondTry p env c l1) as [[[]|e|] l2 ev2];
           cbn [completion locals emitted] in *.
         3: exfalso; apply Hret2; reflexivity.
         + rewrite ?init_sendCompletedStatusReport_general. cbv zeta.
           destruct (init_finish rep _) as [[?|] ?];
             cbn [rejected trace app]; rewrite ?app_nil_r, <- ?app_assoc;
             reflexivity.
         + rewrite ?init_sendCompletedStatusReport_general. cbv zeta.
           destruct (init_finish rep _) as [[?|] ?];
             cbn [rejected trace app]; rewrite ?app_nil_r, <- ?app_assoc;
             reflexivity.
       - destruct (completedReportBase rep) as [[]|e2];
           repeat destruct_send rep;
           cbn [rejected trace app]; rewrite ?app_nil_r, <- ?app_assoc;
           reflexivity. }
  all: destruct (completedReportBase rep) as [[]|e2];
    repeat destruct_send rep;
    cbn [rejected trace app]; rewrite ?app_nil_r, <- ?app_assoc;
    reflexivity.
Qed.

(** ** Reports of an outcome *)

Lemma existsb_eventsAfter p q (t : Trace) :
  existsb p t = false -> existsb p (eventsAfter q t) = false.
Proof.
  induction t as [|e t IH]; simpl; [reflexivity|].
  destruct (p e); simpl; [discriminate|]. intros H.
  destruct (q e); auto.
Qed.

Lemma completesOnce_resolved rep : completesOnce rep resolved.
Proof.
  split; [reflexivity|]. split; [apply le_0_n|]. intros r e [].
Qed.

Lemma completesOnce_rejection rep e :
  completesOnce rep (mkOutcome (Some e) []).
Proof.
  split; [reflexivity|]. split; [apply le_0_n|]. intros r e' [].
Qed.

Lemma completesOnce_sending rep r :
  report_status r <> starting -> completesOnce rep (sending rep r).
Proof.
  intros Hst. unfold sending. split; [|split]; cbn [trace rejected].
  - cbn [existsb]. rewrite (isStartingReport_false _ Hst). reflexivity.
  - rewrite count_cons.
    destruct (isCompletedReport (EvSendStatusReport r)); cbn; auto.
  - intros r' e [H|[]]. inversion H. subst r'. intros ->. reflexivity.
Qed.

Lemma completesOnce_awaiting rep check o :
  completesOnce rep o -> completesOnce rep (awaiting check o).
Proof.
  intros H. destruct check as [[]|e]; [exact H|].
  apply completesOnce_rejection.
Qed.

Lemma completesOnce_preceded rep events o :
  (forall r, ~ In (EvSendStatusReport r) events) ->
  completesOnce rep o -> completesOnce rep (preceded events o).
Proof.
  intros Hev [Hs [Hc Hr]].
  assert (Hno : forall q : Event -> bool,
            (forall e, q e = true -> exists r, e = EvSendStatusReport r) ->
            existsb q events = false).
  { intros q Hq. destruct (existsb q events) eqn:E; [|reflexivity].
    apply existsb_exists in E. destruct E as [e [Hin He]].
    destruct (Hq e He) as [r ->]. exfalso. exact (Hev r Hin). }
  assert (Hstart : existsb isStartingReport events = false).
  { apply Hno. intros [| |r| | | |] H; try discriminate. exists r.
    reflexivity. }
  assert (Hcompl : existsb isCompletedReport events = false).
  { apply Hno. intros [| |r| | | |] H; try discriminate. exists r.
    reflexivity. }
  unfold preceded. split; [|split]; cbn [trace rejected].
  - rewrite existsb_app, Hstart, Hs. reflexivity.
  - rewrite count_app, (count_existsb_false _ _ Hcompl). exact Hc.
  - intros r e Hin. apply in_app_or in Hin.
    destruct Hin as [Hin|Hin]; [destruct (Hev r Hin)|]. apply Hr. exact Hin.
Qed.

Lemma isWork_no_report (t : Trace) :
  forallb isWork t = true -> forall r, ~ In (EvSendStatusReport r) t.
Proof. intros H r. apply isWork_not_report. exact H. Qed.

Ltac no_report :=
  let r := fresh in let H := fresh in
  intros r H; cbn [In app] in H;
  repeat match type of H with
         | _ \/ _ => destruct H as [H|H]
         | _ = _ => discriminate H
         | False => exact H
         end.

(** The count of completed reports of an outcome whose report is
    built. *)
Lemma awaiting_sending_count rep check r :
  check = Ok tt -> report_status r <> starting ->
  count isCompletedReport (trace (awaiting check (sending rep r))) = 1.
Proof.
  intros -> Hst. cbn [awaiting sending trace]. rewrite count_cons.
  rewrite (isCompletedReport_true _ Hst). reflexivity.
Qed.

Lemma count_preceded q events o :
  count q (trace (preceded events o)) = count q events + count q (trace o).
Proof. unfold preceded. cbn [trace]. apply count_app. Qed.

(** The beginning of a [try] block. *)
Lemma startThen_reports rep start handler accepted :
  report_status start = starting ->
  (forall e, completesOnce rep (handler e)) ->
  completesOnce rep accepted ->
  let o := startThen rep start handler accepted in
  count isStartingReport (trace o) =
    match startingReportBase rep with Ok _ => 1 | Raise _ => 0 end /\
  count isCompletedReport (trace o) <= 1 /\
  count isStartingReport (eventsAfter isCompletedReport (trace o)) = 0 /\
  (startingReportBase rep = Ok tt -> send rep start = Ok false ->
   count isCompletedReport (trace o) = 0) /\
  (startingReportBase rep = Ok tt -> send rep start = Ok true ->
   count isCompletedReport (trace o) =
     count isCompletedReport (trace accepted)) /\
  (forall r e,
     report_status r <> starting -> In (EvSendStatusReport r) (trace o) ->
     send rep r = Raise e -> rejected o = Some e).
Proof.
  intros Hst Hh Ha. cbv zeta. unfold startThen.
  assert (Hs1 : isStartingReport (EvSendStatusReport start) = true).
  { unfold isStartingReport. rewrite Hst. reflexivity. }
  assert (Hc1 : isCompletedReport (EvSendStatusReport start) = false).
  { unfold isCompletedReport. rewrite Hst. reflexivity. }
  assert (Htail : forall o, completesOnce rep o ->
            count isStartingReport (trace o) = 0 /\
            count isCompletedReport (trace o) <= 1 /\
            count isStartingReport (eventsAfter isCompletedReport (trace o))
              = 0 /\
            (forall r e, In (EvSendStatusReport r) (trace o) ->
                         send rep r = Raise e -> rejected o = Some e)).
  { intros o [Hs [Hc Hr]]. split; [|split; [|split]].
    - apply count_existsb_false. exact Hs.
    - exact Hc.
    - apply count_existsb_false. apply existsb_eventsAfter. exact Hs.
    - exact Hr. }
  destruct (startingReportBase rep) as [[]|e0].
  - assert (Hin : forall (o : Outcome) r,
              report_status r <> starting ->
              In (EvSendStatusReport r)
                 (trace (preceded [EvSendStatusReport start] o)) ->
              In (EvSendStatusReport r) (trace o)).
    { intros o r Hr [H|H]; [|exact H]. inversion H. congruence. }
    destruct (send rep start) as [[|]|e1] eqn:Hsend;
      match goal with
      | |- context [preceded _ ?o] =>
          assert (Ho : completesOnce rep o)
            by first [exact Ha | apply Hh | apply completesOnce_resolved];
          destruct (Htail o Ho) as [T1 [T2 [T3 T4]]];
          pose proof (Hin o) as Hin'
      end;
      unfold preceded in *; cbn [trace rejected app eventsAfter] in *;
      rewrite ?count_cons, ?Hs1, ?Hc1, ?T1, ?T3;
      (split; [reflexivity|]); (split; [exact T2|]);
      (split; [reflexivity|]);
      (split; [intros _ H; first [discriminate H | reflexivity]|]);
      (split; [intros _ H; first [discriminate H | reflexivity]|]);
      intros r e Hr Hin0 Hraise; exact (T4 r e (Hin' r Hr Hin0) Hraise).
  - destruct (Htail _ (Hh e0)) as [T1 [T2 [T3 T4]]].
    split; [exact T1|]. split; [exact T2|]. split; [exact T3|].
    split; [discriminate|]. split; [discriminate|].
    intros r e _. apply T4.
Qed.

(** ** The three stages *)

Lemma autobuild_finish_once rep p l cause failing :
  completesOnce rep (autobuild_finish rep p l cause failing) /\
  (completedReportBuilt rep ->
   count isCompletedReport
     (trace (autobuild_finish rep p l cause failing)) = 1).
Proof.
  assert (Hst : report_status (autobuild_completedReport p l cause failing)
                <> starting) by apply getActionsStatus_not_starting.
  unfold autobuild_finish. split.
  - apply completesOnce_preceded; [no_report|].
    repeat apply completesOnce_awaiting. apply completesOnce_sending.
    exact Hst.
  - intros [-> [Hd _]]. rewrite count_preceded. cbn [awaiting].
    rewrite (awaiting_sending_count _ _ _ Hd Hst). reflexivity.
Qed.

Lemma autobuild_handler_once rep p l e :
  completesOnce rep (autobuild_handler rep p l e) /\
  (completedReportBuilt rep ->
   count isCompletedReport (trace (autobuild_handler rep p l e)) = 1).
Proof.
  destruct (autobuild_finish_once rep p l (Some e)
              (Autobuild.currentLanguage l)) as [H1 H2].
  unfold autobuild_handler. split.
  - apply completesOnce_preceded; [no_report|exact H1].
  - intros Hb. rewrite count_preceded, (H2 Hb). reflexivity.
Qed.

Lemma autobuild_accepted_once rep p env :
  let w := Autobuild.work p env Autobuild.initial in
  let o :=
    preceded (emitted w)
      (match completion w with
       | Normal _ => autobuild_finish rep p (locals w) None None
       | Throw e => autobuild_handler rep p (locals w) e
       | EarlyReturn => resolved
       end) in
  completesOnce rep o /\
  (completedReportBuilt rep -> count isCompletedReport (trace o) = 1).
Proof.
  cbv zeta.
  pose proof (autobuild_work_isWork p env Autobuild.initial) as Hw.
  destruct (autobuild_work_plain (fun _ => true) p env (fun _ => eq_refl)
              Autobuild.initial) as [_ Hret].
  split.
  - apply completesOnce_preceded; [apply isWork_no_report; exact Hw|].
    destruct (completion (Autobuild.work p env Autobuild.initial)).
    + apply autobuild_finish_once.
    + apply autobuild_handler_once.
    + apply completesOnce_resolved.
  - intros Hb. rewrite count_preceded,
      (count_isWork _ _ isWork_not_completed Hw).
    destruct (completion (Autobuild.work p env Autobuild.initial)).
    + apply autobuild_finish_once. exact Hb.
    + apply autobuild_handler_once. exact Hb.
    + congruence.
Qed.

Lemma autobuild_reportsOnce rep p env :
  reportsOnce rep (Autobuild.startingReport p) true
    (trace (Autobuild.run rep p env)) /\
  (forall r e,
     report_status r <> starting ->
     In (EvSendStatusReport r) (trace (Autobuild.run rep p env)) ->
     send rep r = Raise e -> rejected (Autobuild.run rep p env) = Some e).
Proof.
  rewrite autobuild_run_general. unfold autobuild_outcome. cbv zeta.
  destruct (autobuild_accepted_once rep p env) as [Ha Hb].
  destruct (startThen_reports rep (Autobuild.startingReport p)
              (autobuild_handler rep p Autobuild.initial) _ eq_refl
              (fun e => proj1 (autobuild_handler_once rep p _ e)) Ha)
    as [H1 [H2 [H3 [H4 [H5 H6]]]]].
  split; [|exact H6].
  split; [exact H1|]. split; [exact H2|]. split; [exact H3|].
  split; [intros _; exact H4|].
  intros _ Hd Hs Hbuilt. rewrite (H5 Hd Hs). apply Hb. exact Hbuilt.
Qed.

Lemma analyze_finish_once rep r :
  report_status r <> starting ->
  completesOnce rep (analyze_finish rep r) /\
  (completedReportBuilt rep ->
   count isCompletedReport (trace (analyze_finish rep r)) = 1).
Proof.
  intros Hst. unfold analyze_finish. split.
  - apply completesOnce_awaiting.
    destruct (report_trap_upload r);
      [apply completesOnce_awaiting|]; apply completesOnce_sending; exact Hst.
  - intros [_ [-> Hc]]. cbn [awaiting].
    destruct (report_trap_upload r).
    + apply awaiting_sending_count; assumption.
    + apply (awaiting_sending_count rep (Ok tt)); [reflexivity|exact Hst].
Qed.

Lemma analyze_handler_once rep p env l e :
  completesOnce rep (analyze_handler rep p env l e) /\
  (completedReportBuilt rep ->
   count isCompletedReport (trace (analyze_handler rep p env l e)) = 1).
Proof.
  assert (Hst : report_status (analyze_catchReport p env l e) <> starting).
  { unfold analyze_catchReport. rewrite analyze_finishReport_status.
    apply getActionsStatus_not_starting. }
  destruct (analyze_finish_once rep _ Hst) as [H1 H2].
  unfold analyze_handler. split.
  - apply completesOnce_preceded; [|exact H1].
    destruct (analyze_marksFailedOnError p); no_report.
  - intros Hb. rewrite count_preceded, (H2 Hb).
    destruct (analyze_marksFailedOnError p); reflexivity.
Qed.

Lemma analyze_reportsOnce rep p env :
  reportsOnce rep (Analyze.startingReport p)
    (match initializeEnvironment rep with Ok _ => true | Raise _ => false end)
    (trace (Analyze.run rep p env)) /\
  (forall r e,
     report_status r <> starting ->
     In (EvSendStatusReport r) (trace (Analyze.run rep p env)) ->
     send rep r = Raise e -> rejected (Analyze.run rep p env) = Some e).
Proof.
  rewrite analyze_run_general. unfold analyze_outcome. cbv zeta.
  pose proof (analyze_work_isWork p env Analyze.initial) as Hw.
  pose proof (analyze_work_never_returns p env Analyze.initial) as Hret.
  assert (Hst : report_status
                  (analyze_successReport p env
                     (locals (Analyze.work p env Analyze.initial)))
                <> starting).
  { unfold analyze_successReport. rewrite analyze_finishReport_status.
    apply getActionsStatus_not_starting. }
  destruct (analyze_finish_once rep _ Hst) as [F1 F2].
  match goal with
  | |- context [startThen rep ?s ?h ?a] =>
      assert (Ha : completesOnce rep a /\
                   (completedReportBuilt rep ->
                    count isCompletedReport (trace a) = 1))
  end.
  { split.
    - apply completesOnce_preceded; [apply isWork_no_report; exact Hw|].
      destruct (completion (Analyze.work p env Analyze.initial)).
      + apply completesOnce_preceded; [|exact F1].
        destruct (expectsError p); no_report.
      + apply analyze_handler_once.
      + apply completesOnce_resolved.
    - intros Hb. rewrite count_preceded,
        (count_isWork _ _ isWork_not_completed Hw).
      destruct (completion (Analyze.work p env Analyze.initial)).
      + rewrite count_preceded, (F2 Hb).
        destruct (expectsError p); reflexivity.
      + apply analyze_handler_once. exact Hb.
      + congruence. }
  destruct Ha as [Ha Hb].
  destruct (startThen_reports rep (Analyze.startingReport p)
              (analyze_handler rep p env Analyze.initial) _ eq_refl
              (fun e => proj1 (analyze_handler_once rep p env _ e)) Ha)
    as [H1 [H2 [H3 [H4 [H5 H6]]]]].
  cbv zeta in *.
  match goal with
  | |- context [startThen rep ?s ?h ?a] =>
      set (inner := startThen rep s h a) in *
  end.
  destruct (initializeEnvironment rep) as [[]|e0];
    unfold reportsOnce, preceded, awaiting;
    cbn [trace rejected app eventsAfter isCompletedReport].
  - rewrite !count_cons. cbn [isStartingReport isCompletedReport plus].
    split.
    + split; [exact H1|]. split; [exact H2|]. split; [exact H3|].
      split; [intros _; exact H4|].
      intros _ Hd Hs Hbuilt. rewrite (H5 Hd Hs). apply Hb. exact Hbuilt.
    + intros r e Hr [Hin|Hin]; [discriminate Hin|]. apply H6; assumption.
  - split.
    + split; [reflexivity|]. split; [apply le_0_n|]. split; [reflexivity|].
      split; discriminate.
    + intros r e _ [Hin|[]]. discriminate Hin.
Qed.

Lemma init_finish_once rep r :
  report_status r <> starting ->
  completesOnce rep (init_finish rep r) /\
  (completedReportBuilt rep ->
   count isCompletedReport (trace (init_finish rep r)) = 1).
Proof.
  intros Hst. unfold init_finish. split.
  - repeat apply completesOnce_awaiting. apply completesOnce_sending.
    exact Hst.
  - intros [_ [-> Hc]]. cbn [awaiting].
    apply awaiting_sending_count; assumption.
Qed.

Lemma init_firstHandler_once rep p e :
  completesOnce rep (init_firstHandler rep p e) /\
  (completedReportBuilt rep ->
   count isCompletedReport (trace (init_firstHandler rep p e)) = 1).
Proof.
  assert (Hst : report_status (init_firstCatchReport p e) <> starting).
  { rewrite init_firstCatchReport_status.
    destruct (isUserError e); discriminate. }
  unfold init_firstHandler. split.
  - apply completesOnce_preceded; [no_report|].
    apply completesOnce_awaiting. apply completesOnce_sending. exact Hst.
  - intros [_ [Hd _]]. rewrite count_preceded.
    rewrite (awaiting_sending_count _ _ _ Hd Hst). reflexivity.
Qed.

Lemma init_reportsOnce rep p env :
  reportsOnce rep (Init.startingReport p)
    (match completion (Init.preamble p env Init.initial) with
     | Normal _ => true
     | _ => false
     end)
    (trace (Init.run rep p env)) /\
  (forall r e,
     report_status r <> starting ->
     In (EvSendStatusReport r) (trace (Init.run rep p env)) ->
     send rep r = Raise e -> rejected (Init.run rep p env) = Some e).
Proof.
  rewrite init_run_general. unfold init_outcome. cbv zeta.
  pose proof (init_preamble_isWork p env Init.initial) as Hw0.
  set (r0 := Init.preamble p env Init.initial) in *.
  pose proof (init_firstWork_isWork p env (locals r0)) as Hw1.
  pose proof (proj2 (init_firstWork_plain isWork p env (fun e H => H)
                       (locals r0))) as Hret1.
  set (r1 := Init.firstWork p env (locals r0)) in *.
  match goal with
  | |- context [startThen rep ?s ?h ?a] =>
      assert (Ha : completesOnce rep a /\
                   (completedReportBuilt rep ->
                    count isCompletedReport (trace a) = 1))
  end.
  { destruct (completion r1) as [c|e|].
    - pose proof (init_secondTry_isWork p env c (locals r1)) as Hw2.
      pose proof (proj2 (init_secondTry_plain isWork p env c (fun e H => H)
                           (locals r1))) as Hret2.
      set (r2 := Init.secondTry p env c (locals r1)) in *.
      assert (Hst : forall error,
                report_status (init_completedReport p env c (locals r2) error)
                <> starting).
      { intros error. rewrite init_completedReport_status.
        apply getActionsStatus_not_starting. }
      split.
      + apply completesOnce_preceded; [apply isWork_no_report; exact Hw1|].
        apply completesOnce_preceded; [apply isWork_no_report; exact Hw2|].
        destruct (completion r2).
        * apply init_finish_once. apply Hst.
        * apply completesOnce_preceded; [no_report|].
          apply init_finish_once. apply Hst.
        * apply completesOnce_resolved.
      + intros Hb. rewrite !count_preceded,
          (count_isWork _ _ isWork_not_completed Hw1),
          (count_isWork _ _ isWork_not_completed Hw2).
        destruct (completion r2).
        * apply init_finish_once; [apply Hst|exact Hb].
        * rewrite count_preceded.
          rewrite (proj2 (init_finish_once rep _ (Hst (Some e))) Hb).
          reflexivity.
        * congruence.
    - split.
      + apply completesOnce_preceded; [apply isWork_no_report; exact Hw1|].
        apply init_firstHandler_once.
      + intros Hb. rewrite count_preceded,
          (count_isWork _ _ isWork_not_completed Hw1).
        apply init_firstHandler_once. exact Hb.
    - congruence. }
  destruct Ha as [Ha Hb].
  destruct (startThen_reports rep (Init.startingReport p)
              (init_firstHandler rep p) _ eq_refl
              (fun e => proj1 (init_firstHandler_once rep p e)) Ha)
    as [H1 [H2 [H3 [H4 [H5 H6]]]]].
  cbv zeta in *.
  match goal with
  | |- context [startThen rep ?s ?h ?a] =>
      set (inner := startThen rep s h a) in *
  end.
  assert (Hstart0 : existsb isStartingReport (emitted r0) = false)
    by (apply existsb_isWork_starting; exact Hw0).
  assert (Hcompl0 : existsb isCompletedReport (emitted r0) = false)
    by (apply existsb_isWork_false; [exact isWork_not_completed|exact Hw0]).
  unfold reportsOnce, preceded. cbn [trace rejected].
  rewrite (eventsAfter_app_none _ _ _ Hcompl0), !count_app,
    (count_existsb_false _ _ Hstart0), (count_existsb_false _ _ Hcompl0).
  cbn [plus].
  destruct (completion r0) as [u|e0|].
  - split.
    + split; [exact H1|]. split; [exact H2|]. split; [exact H3|].
      split; [intros _; exact H4|].
      intros _ Hd Hs Hbuilt. rewrite (H5 Hd Hs). apply Hb. exact Hbuilt.
    + intros r e Hr Hin. apply in_app_or in Hin.
      destruct Hin as [Hin|Hin];
        [destruct (isWork_not_report _ _ Hw0 Hin)|]. apply H6; assumption.
  - cbn [trace]. split.
    + split; [reflexivity|]. split; [apply le_0_n|]. split; [reflexivity|].
      split; discriminate.
    + intros r e _ Hin. rewrite app_nil_r in Hin.
      destruct (isWork_not_report _ _ Hw0 Hin).
  - cbn [trace resolved]. split.
    + split; [reflexivity|]. split; [apply le_0_n|]. split; [reflexivity|].
      split; discriminate.
    + intros r e _ Hin. rewrite app_nil_r in Hin.
      destruct (isWork_not_report _ _ Hw0 Hin).
Qed.

(** * Claims *)

(** C1.  When [getConfig] is called and returns [undefined], the [try]
    block of the autobuild stage and of the analyze stage throws an
    [Error] whose message contains "Has the 'init' action been called?".
    The stage ends in the failure state: the completed report has status
    [failure] and that message as its cause, and the message handed to
    [core.setFailed] contains the same text (in the analyze stage
    [core.setFailed] is called whenever the handler marks the process
    failed at all). *)
Theorem C1_missing_config_message (sink : Sink) (p : Process) :
  getConfig p = Ok None ->
  JsString.includes CONFIG_NOT_FOUND INIT_HINT = true /\
  (forall env,
     In (EvCall GetConfig) (trace (Autobuild.run sink p env)) ->
     completion (Autobuild.work p env Autobuild.initial) =
       Throw (mkError PlainError CONFIG_NOT_FOUND) /\
     (exists msg,
        In (EvSetFailed msg) (trace (Autobuild.run sink p env)) /\
        JsString.includes msg INIT_HINT = true) /\
     (exists r,
        In (EvSendStatusReport r) (trace (Autobuild.run sink p env)) /\
        report_status r = failure /\
        report_cause r = Some CONFIG_NOT_FOUND)) /\
  (forall env,
     In (EvCall GetConfig) (trace (Analyze.run sink p env)) ->
     completion (Analyze.work p env Analyze.initial) =
       Throw (mkError PlainError CONFIG_NOT_FOUND) /\
     (analyze_marksFailedOnError p = true ->
      In (EvSetFailed CONFIG_NOT_FOUND) (trace (Analyze.run sink p env))) /\
     (exists r,
        In (EvSendStatusReport r) (trace (Analyze.run sink p env)) /\
        report_status r = failure /\
        report_cause r = Some CONFIG_NOT_FOUND)).
Proof.
  intros Hcfg. split; [vm_compute; reflexivity|]. split; intros env.
  - rewrite autobuild_run_eq, (autobuild_work_without_config p env _ Hcfg).
    cbn [trace]. unfold autobuild_afterWork.
    destruct (sink (Autobuild.startingReport p)).
    2: { intros [H|[]]. discriminate. }
    destruct (getGitHubVersion p).
    2: { cbn. intros H. exfalso.
         repeat (destruct H as [H|H]; [discriminate|]). exact H. }
    destruct (checkGitHubVersionInRange p).
    2: { cbn. intros H. exfalso.
         repeat (destruct H as [H|H]; [discriminate|]). exact H. }
    intros _. cbn [completion locals emitted app]. split; [reflexivity|]. split.
    + exists (Autobuild.SET_FAILED_PREFIX ++ CONFIG_NOT_FOUND)%string. split.
      * do 4 right. left. reflexivity.
      * vm_compute. reflexivity.
    + eexists. split.
      * do 6 right. left. reflexivity.
      * split; reflexivity.
  - rewrite analyze_run_eq, (analyze_work_without_config p env _ Hcfg).
    cbn [trace]. unfold analyze_afterWork.
    destruct (sink (Analyze.startingReport p)).
    2: { intros H. exfalso.
         repeat (destruct H as [H|H]; [discriminate|]). exact H. }
    intros _. cbn [completion locals emitted app]. split; [reflexivity|]. split.
    + intros ->. do 3 right. left. reflexivity.
    + eexists. split.
      * do 3 right. apply in_or_app. right. left. reflexivity.
      * split; reflexivity.
Qed.

Lemma C1_witness :
  (exists msg,
     In (EvSetFailed msg)
        (trace (Autobuild.run Sample.accepting Sample.process_without_init
                  Sample.autobuildEnv)) /\
     JsString.includes msg INIT_HINT = true) /\
  In (EvSetFailed CONFIG_NOT_FOUND)
     (trace (Analyze.run Sample.accepting Sample.process_without_init
               Sample.analyzeEnv)).
Proof.
  split.
  - apply (proj1 (proj2 (C1_missing_config_message Sample.accepting
                           Sample.process_without_init eq_refl))
             Sample.autobuildEnv).
    vm_compute. do 3 right. left. reflexivity.
  - apply (proj2 (proj2 (C1_missing_config_message Sample.accepting
                           Sample.process_without_init eq_refl))
             Sample.analyzeEnv).
    + vm_compute. do 2 right. left. reflexivity.
    + reflexivity.
Defined.

(** C2.  In each of the three stages, when the sink answers the starting
    report with [false], [run] returns at once: its promise resolves,
    nothing at all follows the starting report in the trace (no stage
    work, no completed report), and the process is not marked failed, by
    [run] or by [runWrapper]. *)
Theorem C2_duplicate_start_returns_immediately (sink : Sink) (p : Process) :
  (forall env,
     startRejected sink (trace (Autobuild.run sink p env)) ->
     rejected (Autobuild.run sink p env) = None /\
     eventsAfter isStartingReport (trace (Autobuild.run sink p env)) = [] /\
     count isCompletedReport (trace (Autobuild.run sink p env)) = 0 /\
     markedFailed (Autobuild.runWrapper sink p env) = false) /\
  (forall env,
     startRejected sink (trace (Analyze.run sink p env)) ->
     rejected (Analyze.run sink p env) = None /\
     eventsAfter isStartingReport (trace (Analyze.run sink p env)) = [] /\
     count isCompletedReport (trace (Analyze.run sink p env)) = 0 /\
     markedFailed (Analyze.runWrapper sink p env) = false) /\
  (forall env,
     startRejected sink (trace (Init.run sink p env)) ->
     rejected (Init.run sink p env) = None /\
     eventsAfter isStartingReport (trace (Init.run sink p env)) = [] /\
     count isCompletedReport (trace (Init.run sink p env)) = 0 /\
     markedFailed (Init.runWrapper sink p env) = false).
Proof.
  split; [|split]; intros env Hrej.
  - apply autobuild_start_rejected in Hrej.
    unfold Autobuild.runWrapper. rewrite autobuild_run_eq, Hrej.
    repeat split; reflexivity.
  - apply analyze_start_rejected in Hrej.
    unfold Analyze.runWrapper. rewrite analyze_run_eq, Hrej.
    repeat split; reflexivity.
  - apply init_start_rejected in Hrej. destruct Hrej as [Hs [u Hu]].
    pose proof (init_preamble_isWork p env Init.initial) as Hw.
    unfold Init.runWrapper. rewrite init_run_eq. unfold init_afterPreamble.
    rewrite Hu, Hs. cbn [rejected trace].
    repeat split.
    + rewrite eventsAfter_app_none; [reflexivity|].
      apply existsb_isWork_starting. exact Hw.
    + rewrite count_app, (count_isWork _ _ isWork_not_completed Hw).
      reflexivity.
    + rewrite !markedFailed_app, (markedFailed_isWork _ Hw). reflexivity.
Qed.

Lemma C2_witness :
  startRejected Sample.duplicate
    (trace (Init.run Sample.duplicate Sample.process Sample.initEnv)) /\
  markedFailed (Init.runWrapper Sample.duplicate Sample.process Sample.initEnv)
    = false.
Proof.
  assert (H : startRejected Sample.duplicate
                (trace (Init.run Sample.duplicate Sample.process Sample.initEnv))).
  { exists (Init.startingReport Sample.process). split; [|split].
    - vm_compute. do 9 right. left. reflexivity.
    - reflexivity.
    - reflexivity. }
  split; [exact H|].
  apply (proj2 (proj2 (C2_duplicate_start_returns_immediately
                         Sample.duplicate Sample.process))
           Sample.initEnv H).
Defined.

(** C3, as stated, fails for the analyze stage: in the PR-check set-up
    (test mode, [expect-error: true]) a missing configuration ends the
    stage with a [failure] report although the process is never marked
    failed. *)
Lemma C3_counterexample :
  ~ exitMatchesState
      (trace (Analyze.run Sample.accepting Sample.process_expecting_error
                Sample.analyzeEnv)).
Proof.
  intros H.
  destruct (H (analyze_catchReport Sample.process_expecting_error
                 Sample.analyzeEnv (Analyze.set_config None Analyze.initial)
                 (mkError PlainError CONFIG_NOT_FOUND))) as [Hfail _].
  - vm_compute. do 3 right. left. reflexivity.
  - apply failedBefore_markedFailed in Hfail; [|reflexivity].
    vm_compute in Hfail. discriminate.
Qed.

(** C3, amended.  In the init and autobuild stages, on every execution
    of [run], a completed report with status [failure], [user-error] or
    [aborted] is sent only after [core.setFailed] has marked the process
    failed, and when the completed report has status [success] the
    process is not marked failed, by [run] or by [runWrapper]; this
    holds whatever the sink answers.  In the analyze stage the same holds
    unless [expect-error] is ["true"] in test mode, provided that
    [runQueries], when it returns, names no failing language. *)
Theorem C3_exit_code_matches_terminal_state (sink : Sink) (p : Process) :
  (forall env,
     exitMatchesState (trace (Init.run sink p env)) /\
     exitMatchesState (Init.runWrapper sink p env)) /\
  (forall env,
     exitMatchesState (trace (Autobuild.run sink p env)) /\
     exitMatchesState (Autobuild.runWrapper sink p env)) /\
  (forall env,
     expectsError p && isInTestMode p = false ->
     (forall q, Analyze.runQueries env = Ok q ->
                analyze_failure_language q = None) ->
     exitMatchesState (trace (Analyze.run sink p env)) /\
     exitMatchesState (Analyze.runWrapper sink p env)).
Proof.
  split; [|split]; intros env.
  - split; [apply init_exitMatchesState|apply init_runWrapper_exitMatchesState].
  - split; [apply autobuild_exitMatchesState
           |apply autobuild_runWrapper_exitMatchesState].
  - intros Hexp Hq.
    pose proof (analyze_exitMatchesState sink p env Hexp Hq) as H.
    split; [exact H|apply analyze_runWrapper_exitMatchesState; exact H].
Qed.

Lemma C3_witness :
  exitMatchesState
    (trace (Analyze.run Sample.accepting Sample.process Sample.analyzeEnv)) /\
  exitMatchesState
    (Analyze.runWrapper Sample.accepting Sample.process Sample.analyzeEnv).
Proof.
  apply (proj2 (proj2 (C3_exit_code_matches_terminal_state Sample.accepting
                         Sample.process)) Sample.analyzeEnv).
  - reflexivity.
  - intros q H. inversion H. reflexivity.
Defined.

(** C4, as stated, fails: when the analysis of Go throws a
    [CodeQLAnalysisError] out of [runQueries], the stage does nothing
    more for the other languages -- no cleanup, no [db-locations] output,
    no upload: only the handler runs. *)
Lemma C4_counterexample :
  ~ (continuesAfter RunQueries
       (trace (Analyze.run Sample.accepting Sample.process
                 Sample.analyzeEnv_go_fails)) = true /\
     exists r,
       In (EvSendStatusReport r)
          (trace (Analyze.run Sample.accepting Sample.process
                    Sample.analyzeEnv_go_fails)) /\
       report_failure_language r = Some "go"%string /\
       report_status r = failure).
Proof. intros [H _]. vm_compute in H. discriminate. Qed.

(** C4, amended.  In the analyze stage, when [runQueries] or
    [runFinalize] is called and throws a [CodeQLAnalysisError] carrying
    statistics, the stage does no further work: what follows the call is
    the handler alone, which marks the process failed (unless
    [expect-error] is ["true"] in test mode) and sends the completed
    report.  That report has status [failure], the error's message as
    cause, and the error's statistics, [analyze_failure_language]
    included. *)
Theorem C4_analysis_error_is_reported (sink : Sink) (p : Process)
    (env : Analyze.Env) (c : Call) (e : Error) (q : QueriesStatusReport) :
  (c = RunQueries /\ Analyze.runQueries env = Raise e) \/
  (c = RunFinalize /\ Analyze.runFinalize env = Raise e) ->
  error_class e = CodeQLAnalysisError q ->
  existsb (isCall c) (trace (Analyze.run sink p env)) = true ->
  continuesAfter c (trace (Analyze.run sink p env)) = false /\
  exists r,
    eventsAfter (isCall c) (trace (Analyze.run sink p env)) =
      (if analyze_marksFailedOnError p then [EvSetFailed (message e)] else []) ++
      [EvSendStatusReport r] /\
    report_status r = failure /\
    report_cause r = Some (message e) /\
    report_stats r = Some (mkAnalysisStatusReport q []) /\
    report_failure_language r = analyze_failure_language q.
Proof.
  intros Hc Hclass Hcalled.
  assert (Hafter :
    eventsAfter (isCall c) (trace (Analyze.run sink p env)) =
      (if analyze_marksFailedOnError p then [EvSetFailed (message e)] else []) ++
      [EvSendStatusReport
         (analyze_catchReport p env
            (locals (Analyze.work p env Analyze.initial)) e)]).
  { destruct Hc as [[-> Hr]|[-> Hr]].
    - apply (analyze_fatal_call sink p env RunQueries e); try reflexivity.
      + apply analyze_work_fatal_RunQueries. exact Hr.
      + exact Hcalled.
    - apply (analyze_fatal_call sink p env RunFinalize e); try reflexivity.
      + apply analyze_work_fatal_RunFinalize. exact Hr.
      + exact Hcalled. }
  unfold continuesAfter. rewrite Hafter. split.
  - destruct (analyze_marksFailedOnError p); reflexivity.
  - eexists. split; [reflexivity|].
    unfold analyze_catchReport, analyze_catchStats. rewrite Hclass.
    split; [|split; [|split]]; try reflexivity.
    rewrite analyze_finishReport_status, getActionsStatus_error.
    unfold isUserError. rewrite Hclass. reflexivity.
Qed.

Lemma C4_witness :
  continuesAfter RunQueries
    (trace (Analyze.run Sample.accepting Sample.process
              Sample.analyzeEnv_go_fails)) = false.
Proof.
  apply (C4_analysis_error_is_reported Sample.accepting Sample.process
           Sample.analyzeEnv_go_fails RunQueries Sample.goAnalysisError
           (mkQueriesStatusReport (Some "go"%string) [])).
  - left. split; reflexivity.
  - reflexivity.
  - vm_compute. reflexivity.
Defined.

(** C5, as stated, fails when the sink is unreachable in the sense that
    the call sending the completed report rejects: the analyze stage
    awaits that call outside any [try] block, so the job in which
    everything else succeeds exits with code 1. *)
Lemma C5_counterexample :
  ~ (completion
       (Analyze.work Sample.process Sample.analyzeEnv Analyze.initial) =
     Normal tt ->
     exitCode (Analyze.runWrapper Sample.unreachable Sample.process
                 Sample.analyzeEnv) = 0%Z).
Proof. intros H. specialize (H eq_refl). vm_compute in H. discriminate. Qed.

(** C5, amended.  In each of the three stages the boolean with which
    the sink answers a completed report is discarded: with a sink that
    delivers no report after the starting one, [runWrapper] produces the
    same trace, and so the same exit code, as with a sink that answers
    those reports in any other way.  An error of the call that sends a
    completed report is not discarded: when that call rejects, [run]
    rejects with its error and the exit code is 1. *)
Theorem C5_completed_report_answer_ignored_rejection_propagates
    (sink : Sink) (p : Process) :
  (forall env,
     Autobuild.runWrapper (unreachableAfterStart sink) p env =
       Autobuild.runWrapper sink p env /\
     exitCode (Autobuild.runWrapper (unreachableAfterStart sink) p env) =
       exitCode (Autobuild.runWrapper sink p env)) /\
  (forall env,
     Analyze.runWrapper (unreachableAfterStart sink) p env =
       Analyze.runWrapper sink p env /\
     exitCode (Analyze.runWrapper (unreachableAfterStart sink) p env) =
       exitCode (Analyze.runWrapper sink p env)) /\
  (forall env,
     Init.runWrapper (unreachableAfterStart sink) p env =
       Init.runWrapper sink p env /\
     exitCode (Init.runWrapper (unreachableAfterStart sink) p env) =
       exitCode (Init.runWrapper sink p env)) /\
  (forall (rep : Reporter) (r : StatusReport) (e : Error),
     report_status r <> starting ->
     send rep r = Raise e ->
     (forall env,
        In (EvSendStatusReport r) (trace (Autobuild.run rep p env)) ->
        rejected (Autobuild.run rep p env) = Some e /\
        exitCode (Autobuild.runWrapper rep p env) = 1%Z) /\
     (forall env,
        In (EvSendStatusReport r) (trace (Analyze.run rep p env)) ->
        rejected (Analyze.run rep p env) = Some e /\
        exitCode (Analyze.runWrapper rep p env) = 1%Z) /\
     (forall env,
        In (EvSendStatusReport r) (trace (Init.run rep p env)) ->
        rejected (Init.run rep p env) = Some e /\
        exitCode (Init.runWrapper rep p env) = 1%Z)).
Proof.
  assert (Ha : forall env,
            Autobuild.runWrapper (unreachableAfterStart sink) p env =
              Autobuild.runWrapper sink p env).
  { intros env. unfold Autobuild.runWrapper. rewrite !autobuild_run_eq.
    reflexivity. }
  assert (Hz : forall env,
            Analyze.runWrapper (unreachableAfterStart sink) p env =
              Analyze.runWrapper sink p env).
  { intros env. unfold Analyze.runWrapper. rewrite !analyze_run_eq.
    reflexivity. }
  assert (Hi : forall env,
            Init.runWrapper (unreachableAfterStart sink) p env =
              Init.runWrapper sink p env).
  { intros env. unfold Init.runWrapper. rewrite !init_run_eq.
    reflexivity. }
  split; [|split; [|split]];
    try (intros env; split; rewrite ?Ha, ?Hz, ?Hi; reflexivity).
  intros rep r e Hst Hsend.
  split; [|split]; intros env Hin.
  - pose proof (proj2 (autobuild_reportsOnce rep p env) r e Hst Hin Hsend)
      as Hrej.
    split; [exact Hrej|]. unfold Autobuild.runWrapper, exitCode.
    cbv zeta. rewrite Hrej, markedFailed_app. cbn.
    rewrite orb_true_r. reflexivity.
  - pose proof (proj2 (analyze_reportsOnce rep p env) r e Hst Hin Hsend)
      as Hrej.
    split; [exact Hrej|]. unfold Analyze.runWrapper, exitCode.
    cbv zeta. rewrite Hrej, markedFailed_app. cbn.
    rewrite orb_true_r. reflexivity.
  - pose proof (proj2 (init_reportsOnce rep p env) r e Hst Hin Hsend)
      as Hrej.
    split; [exact Hrej|]. unfold Init.runWrapper, exitCode.
    cbv zeta. rewrite Hrej, markedFailed_app. cbn.
    rewrite orb_true_r. reflexivity.
Qed.

Lemma C5_witness :
  rejected (Init.run Sample.unreachable Sample.process Sample.initEnv) =
    Some Sample.networkError /\
  exitCode (Init.runWrapper Sample.unreachable Sample.process Sample.initEnv) =
    1%Z.
Proof.
  assert (Hst : report_status
                  (init_completedReport Sample.process Sample.initEnv
                     Sample.config
                     (Init.mkLocals None None
                        (Some (ToolsFrom "TOOLCACHE")) (Some "2.15.1"))
                     None) <> starting) by discriminate.
  apply (proj2 (proj2
           (proj2 (proj2 (proj2
              (C5_completed_report_answer_ignored_rejection_propagates
                 Sample.accepting Sample.process)))
              Sample.unreachable _ Sample.networkError Hst eq_refl))
           Sample.initEnv).
  vm_compute. repeat (first [left; reflexivity | right]).
Defined.

(** C6, as stated, fails for init: when the lookup of the GitHub version
    that precedes the first [try] block throws, [run] rejects before any
    report is sent, so the invocation has no starting report. *)
Lemma C6_counterexample :
  ~ (count isStartingReport
       (trace (Init.run Sample.accepting Sample.process_offline Sample.initEnv)) = 1
     /\
     count isCompletedReport
       (trace (Init.run Sample.accepting Sample.process_offline Sample.initEnv)) <= 1).
Proof. vm_compute. intros [H _]. discriminate. Qed.

(** C6, amended.  Whatever the calls on the way to the sink do, an
    invocation of [run] sends at most one starting report and at most
    one completed report, and never a starting report after a completed
    one.  It sends the starting report exactly when it reaches the [try]
    block that opens with it and the base of the report is built:
    autobuild always reaches that block, analyze reaches it when
    [initializeEnvironment] returns, and init when its set-up completes.
    It sends no completed report when the starting report is answered
    [false], and exactly one when the starting report is answered [true]
    and the calls that build the completed report return. *)
Theorem C6_one_starting_at_most_one_completed (rep : Reporter)
    (p : Process) :
  (forall env,
     reportsOnce rep (Autobuild.startingReport p) true
       (trace (Autobuild.run rep p env))) /\
  (forall env,
     reportsOnce rep (Analyze.startingReport p)
       (match initializeEnvironment rep with
        | Ok _ => true
        | Raise _ => false
        end)
       (trace (Analyze.run rep p env))) /\
  (forall env,
     reportsOnce rep (Init.startingReport p)
       (match completion (Init.preamble p env Init.initial) with
        | Normal _ => true
        | _ => false
        end)
       (trace (Init.run rep p env))).
Proof.
  split; [|split]; intros env.
  - apply autobuild_reportsOnce.
  - apply analyze_reportsOnce.
  - apply init_reportsOnce.
Qed.

Lemma C6_witness :
  count isStartingReport
    (trace (Analyze.run Sample.unreachable Sample.process Sample.analyzeEnv)) =
    1 /\
  count isCompletedReport
    (trace (Analyze.run Sample.unreachable Sample.process Sample.analyzeEnv)) =
    1.
Proof.
  destruct (proj1 (proj2 (C6_one_starting_at_most_one_completed
                            Sample.unreachable Sample.process))
              Sample.analyzeEnv) as [H1 [_ [_ [_ H5]]]].
  split; [exact H1|]. apply H5; try reflexivity.
  repeat split.
Defined.

(** C7, as stated, fails: with everything else succeeding, the job whose
    TRAP cache upload throws exits with code 1, and the same job with the
    upload skipped exits with code 0. *)
Lemma C7_counterexample :
  ~ (exitCode (Analyze.runWrapper Sample.accepting Sample.process
                 Sample.analyzeEnv_trap_upload_fails) =
     exitCode (Analyze.runWrapper Sample.accepting Sample.process
                 Sample.analyzeEnv_trap_upload_skipped)).
Proof. vm_compute. discriminate. Qed.

(** C7, amended.  In the analyze stage [uploadTrapCaches] is awaited in
    the [try] block without a handler of its own.  When it is called and
    throws, the error ends the [try] block and the stage fails with it:
    the handler marks the process failed (unless [expect-error] is
    ["true"] in test mode) and sends a completed report with status
    [failure] ([user-error] for a [UserError]) and the error's message as
    cause.  Whenever [uploadTrapCaches] does not return [true], no report
    of the stage carries the TRAP upload size and duration. *)
Theorem C7_trap_upload_failure_fails_stage (sink : Sink) (p : Process)
    (env : Analyze.Env) (e : Error) :
  Analyze.uploadTrapCaches env = Raise e ->
  existsb (isCall UploadTrapCaches) (trace (Analyze.run sink p env)) = true ->
  completion (Analyze.work p env Analyze.initial) = Throw e /\
  markedFailed (trace (Analyze.run sink p env)) = analyze_marksFailedOnError p /\
  (exists r,
     eventsAfter (isCall UploadTrapCaches) (trace (Analyze.run sink p env)) =
       (if analyze_marksFailedOnError p then [EvSetFailed (message e)] else []) ++
       [EvSendStatusReport r] /\
     report_status r = (if isUserError e then user_error else failure) /\
     report_cause r = Some (message e)) /\
  (forall r,
     In (EvSendStatusReport r) (trace (Analyze.run sink p env)) ->
     report_trap_upload r = None).
Proof.
  intros Hup Hcalled.
  destruct (analyze_fatal_call sink p env UploadTrapCaches e
              (analyze_work_fatal_UploadTrapCaches p env e Hup)
              eq_refl eq_refl Hcalled) as [Hthrow Hafter].
  split; [exact Hthrow|]. split; [|split].
  - pose proof (analyze_work_isWork p env Analyze.initial) as Hw.
    rewrite analyze_run_eq in *. cbn [trace existsb isCall orb] in *.
    destruct (sink (Analyze.startingReport p)); [|discriminate].
    unfold analyze_afterWork. rewrite Hthrow.
    rewrite !markedFailed_cons, !markedFailed_app, (markedFailed_isWork _ Hw).
    destruct (analyze_marksFailedOnError p); reflexivity.
  - eexists. split; [exact Hafter|]. split; [|reflexivity].
    unfold analyze_catchReport.
    rewrite analyze_finishReport_status, getActionsStatus_error. reflexivity.
  - intros r. apply analyze_reports_without_trap_upload.
    rewrite Hup. discriminate.
Qed.

Lemma C7_witness :
  markedFailed
    (trace (Analyze.run Sample.accepting Sample.process
              Sample.analyzeEnv_trap_upload_fails)) = true.
Proof.
  apply (C7_trap_upload_failure_fails_stage Sample.accepting Sample.process
           Sample.analyzeEnv_trap_upload_fails Sample.cacheError eq_refl).
  vm_compute. reflexivity.
Defined.

(** C8, as stated, fails: when the TRAP directory of the Go database
    exists but cannot be listed, the four conditions hold -- Go is
    configured, no autobuild of Go is recorded, the database is not
    finalized and no extraction output is to be found -- and yet the Go
    autobuilder is not invoked: [fs.readdirSync] throws, and the error
    leaves [runAutobuildIfLegacyGoWorkflow]. *)
Lemma C8_counterexample :
  ~ (In (EvCall (RunAutobuild Language.go))
        (emitted (Analyze.runAutobuildIfLegacyGoWorkflow Sample.process
                    Sample.analyzeEnv_unlistable Sample.config
                    Analyze.initial)) <->
     Language.go = Language.go /\
     legacyGoWorkflow Sample.process Sample.analyzeEnv_unlistable
       Sample.config).
Proof.
  intros [_ H].
  assert (Hin : In (EvCall (RunAutobuild Language.go))
                  (emitted (Analyze.runAutobuildIfLegacyGoWorkflow
                              Sample.process Sample.analyzeEnv_unlistable
                              Sample.config Analyze.initial))).
  { apply H. split; [reflexivity|]. unfold legacyGoWorkflow.
    split; [simpl; auto|]. split; [discriminate|]. split; [reflexivity|].
    intros [_ [fileNames [fileName [Hlist _]]]]. discriminate. }
  vm_compute in Hin. exact Hin.
Qed.

(** C8, amended.  In the analyze stage the Go autobuilder, and no other
    autobuilder, is invoked by [runAutobuildIfLegacyGoWorkflow] if and
    only if Go is among the configured languages, the
    [CODEQL_ACTION_DID_AUTOBUILD_GOLANG] variable is not ["true"], the Go
    database is not finalized, no file of the Go database's TRAP
    directory has one of the TRAP extensions, and that directory, when
    it exists, can be listed.  When the first three conditions hold and
    the directory exists but listing it throws, the function throws
    that error and does nothing else. *)
Theorem C8_go_autobuild_iff (p : Process) (env : Analyze.Env) (c : Config)
    (l : Analyze.Locals) (language : Language) :
  (In (EvCall (RunAutobuild language))
      (emitted (Analyze.runAutobuildIfLegacyGoWorkflow p env c l)) <->
   language = Language.go /\ legacyGoWorkflow p env c /\
   goTrapDirectoryListable env c) /\
  (forall e,
     In Language.go (languages c) ->
     processEnv p EnvVar.DID_AUTOBUILD_GOLANG <> Some "true"%string ->
     Analyze.dbIsFinalized env c Language.go = false ->
     Analyze.existsSync env (goTrapDirectory env c) = true ->
     Analyze.readdirSync env (goTrapDirectory env c) = Raise e ->
     Analyze.runAutobuildIfLegacyGoWorkflow p env c l = mkRes (Throw e) l []).
Proof.
  unfold Analyze.runAutobuildIfLegacyGoWorkflow, legacyGoWorkflow.
  rewrite <- array_includes_spec. split.
  - destruct (JsString.array_includes (languages c) Language.go) eqn:Hgo;
      cbn [negb].
    2: { simpl. split; [tauto|]. intros [_ [[H _] _]]. discriminate. }
    destruct (JsString.strict_eq (processEnv p EnvVar.DID_AUTOBUILD_GOLANG)
                "true") eqn:Hdid.
    { apply strict_eq_spec in Hdid. simpl. split; [tauto|].
      intros [_ [[_ [H _]] _]]. contradiction. }
    assert (Hdid' :
      processEnv p EnvVar.DID_AUTOBUILD_GOLANG <> Some "true"%string).
    { intros H. apply strict_eq_spec in H. congruence. }
    destruct (Analyze.dbIsFinalized env c Language.go) eqn:Hfin.
    { simpl. split; [tauto|]. intros [_ [[_ [_ [H _]]] _]]. discriminate. }
    destruct (Analyze.doesGoExtractionOutputExist env c) as [[|]|e] eqn:Hout.
    + apply doesGoExtractionOutputExist_spec in Hout. split.
      * destruct (processEnv p "CODEQL_EXTRACTOR_GO_BUILD_TRACING"); simpl;
          intros H; [destruct H as [H|[]]; discriminate|contradiction].
      * intros [_ [[_ [_ [_ H]]] _]]. contradiction.
    + apply doesGoExtractionOutputExist_false in Hout.
      destruct Hout as [Hnone Hlist].
      unfold call. destruct (Analyze.runAutobuild env Language.go); simpl.
      * split.
        -- intros [H|[]]. inversion H. repeat split; auto.
        -- intros [-> _]. left. reflexivity.
      * split.
        -- intros [H|[]]. inversion H. repeat split; auto.
        -- intros [-> _]. left. reflexivity.
    + apply doesGoExtractionOutputExist_throws in Hout.
      destruct Hout as [Hdir Hlist]. simpl. split; [tauto|].
      intros [_ [_ H]]. destruct (H Hdir) as [fileNames Hfs]. congruence.
  - intros e Hgo Hdid Hfin Hdir Hlist.
    apply array_includes_spec in Hgo. rewrite Hgo. cbn [negb].
    destruct (JsString.strict_eq (processEnv p EnvVar.DID_AUTOBUILD_GOLANG)
                "true") eqn:E.
    { apply strict_eq_spec in E. contradiction. }
    rewrite Hfin.
    rewrite (proj2 (doesGoExtractionOutputExist_throws env c e)
               (conj Hdir Hlist)).
    reflexivity.
Qed.

Lemma C8_witness :
  In (EvCall (RunAutobuild Language.go))
     (emitted (Analyze.runAutobuildIfLegacyGoWorkflow Sample.process
                 Sample.analyzeEnv Sample.config Analyze.initial)).
Proof.
  apply (proj2 (proj1 (C8_go_autobuild_iff Sample.process Sample.analyzeEnv
                         Sample.config Analyze.initial Language.go))).
  split; [reflexivity|]. split.
  - unfold legacyGoWorkflow. repeat split.
    + simpl. auto.
    + discriminate.
    + intros [H _]. discriminate.
  - intros H. discriminate.
Defined.

(** C9.  In the analyze stage, when [expect-error] is anything but
    ["false"] outside test mode, no database is finalized, no query is
    run and no autobuilder is started; once the configuration is loaded
    the stage throws a [UserError] straight away, which marks the
    process failed and is reported with status [user-error].
    Conversely, with [expect-error] set to ["true"] in test mode, an error
    thrown by the [try] block does not mark the process failed (the exit
    code is 0), and the completed report that carries the error's
    message is the last thing [run] does. *)
Theorem C9_expect_error_input (sink : Sink) (p : Process) (env : Analyze.Env) :
  (getOptionalInput p "expect-error" <> Some "false"%string ->
   isInTestMode p = false ->
   forallb (fun e => negb (isAnalysisCall e))
     (trace (Analyze.run sink p env)) = true /\
   forall c,
     sink (Analyze.startingReport p) = true ->
     getConfig p = Ok (Some c) ->
     completion (Analyze.work p env Analyze.initial) =
       Throw (mkError UserError Analyze.EXPECT_ERROR_INTERNAL) /\
     exists r,
       trace (Analyze.run sink p env) =
         [EvCall InitializeEnvironment;
          EvSendStatusReport (Analyze.startingReport p);
          EvCall GetConfig;
          EvSetFailed Analyze.EXPECT_ERROR_INTERNAL;
          EvSendStatusReport r] /\
       report_status r = user_error /\
       report_cause r = Some Analyze.EXPECT_ERROR_INTERNAL) /\
  (getOptionalInput p "expect-error" = Some "true"%string ->
   isInTestMode p = true ->
   forall e,
     sink (Analyze.startingReport p) = true ->
     completion (Analyze.work p env Analyze.initial) = Throw e ->
     markedFailed (Analyze.runWrapper sink p env) = false /\
     exitCode (Analyze.runWrapper sink p env) = 0%Z /\
     exists r before,
       trace (Analyze.run sink p env) = before ++ [EvSendStatusReport r] /\
       isCompletedReport (EvSendStatusReport r) = true /\
       report_cause r = Some (message e)).
Proof.
  split.
  - intros Hinput Htest.
    assert (Hbad : Analyze.hasBadExpectErrorInput p = true).
    { unfold Analyze.hasBadExpectErrorInput. rewrite Htest.
      destruct (JsString.strict_eq (getOptionalInput p "expect-error") "false")
        eqn:E; [|reflexivity].
      apply strict_eq_spec in E. contradiction. }
    destruct (analyze_work_bad_expect_error p env Analyze.initial Hbad)
      as [Hev [e [Hc Hcfg]]].
    assert (Hmark : analyze_marksFailedOnError p = true).
    { unfold analyze_marksFailedOnError. rewrite Hbad. apply orb_true_r. }
    rewrite analyze_run_eq. cbn [trace]. unfold analyze_afterWork.
    rewrite Hev, Hc, Hmark. split.
    + destruct (sink (Analyze.startingReport p)); reflexivity.
    + intros c Hs Hsome. destruct (Hcfg c Hsome) as [-> Hl].
      split; [reflexivity|]. rewrite Hs. eexists. split; [reflexivity|].
      split; reflexivity.
  - intros Hinput Htest e Hs Hc.
    assert (Hexp : expectsError p = true).
    { unfold expectsError. rewrite Hinput. reflexivity. }
    assert (Hmark : analyze_marksFailedOnError p = false).
    { unfold analyze_marksFailedOnError, Analyze.hasBadExpectErrorInput.
      rewrite Hexp, Htest. cbn. apply andb_false_r. }
    assert (Hnot : markedFailed (Analyze.runWrapper sink p env) = false).
    { unfold Analyze.runWrapper. rewrite analyze_run_eq.
      cbn [rejected trace]. unfold analyze_afterWork. rewrite Hs, Hc, Hmark.
      cbn [app]. rewrite <- app_assoc.
      change (?a :: ?b :: ?t) with ([a; b] ++ t).
      rewrite !markedFailed_app,
        (markedFailed_isWork _ (analyze_work_isWork p env Analyze.initial)).
      reflexivity. }
    split; [exact Hnot|]. split; [unfold exitCode; rewrite Hnot; reflexivity|].
    rewrite analyze_run_eq. cbn [trace]. unfold analyze_afterWork.
    rewrite Hs, Hc, Hmark. cbn [app].
    exists (analyze_catchReport p env
              (locals (Analyze.work p env Analyze.initial)) e).
    exists ([EvCall InitializeEnvironment;
             EvSendStatusReport (Analyze.startingReport p)] ++
            emitted (Analyze.work p env Analyze.initial)).
    split; [rewrite <- app_assoc; reflexivity|]. split; [|reflexivity].
    apply isCompletedReport_true. apply getActionsStatus_not_starting.
Qed.

Lemma C9_witness :
  forallb (fun e => negb (isAnalysisCall e))
    (trace (Analyze.run Sample.accepting Sample.process_bad_expect_error
              Sample.analyzeEnv)) = true /\
  markedFailed (Analyze.runWrapper Sample.accepting
                  Sample.process_expecting_error Sample.analyzeEnv) = false.
Proof.
  split.
  - apply (proj1 (C9_expect_error_input Sample.accepting
                    Sample.process_bad_expect_error Sample.analyzeEnv)).
    + discriminate.
    + reflexivity.
  - apply (proj2 (C9_expect_error_input Sample.accepting
                    Sample.process_expecting_error Sample.analyzeEnv)
             eq_refl eq_refl (mkError PlainError CONFIG_NOT_FOUND)
             eq_refl eq_refl).
Defined.

(** C10.  Init decides whether TRAP caching is enabled by this
    precedence: when the [trap-caching] input is supplied, caching is
    enabled exactly when the input is ["true"]; otherwise it is enabled
    exactly when the runner is a hosted runner.  This is the value that
    every call of [initConfig] made by the stage receives. *)
Theorem C10_trap_caching_precedence (sink : Sink) (p : Process)
    (env : Init.Env) :
  Init.getTrapCachingEnabled p env =
    match getOptionalInput p "trap-caching" with
    | Some v => String.eqb v "true"
    | None => Init.isHostedRunner env
    end /\
  forallb
    (initConfigWith
       (match getOptionalInput p "trap-caching" with
        | Some v => String.eqb v "true"
        | None => Init.isHostedRunner env
        end))
    (trace (Init.run sink p env)) = true.
Proof.
  assert (H : Init.getTrapCachingEnabled p env =
              match getOptionalInput p "trap-caching" with
              | Some v => String.eqb v "true"
              | None => Init.isHostedRunner env
              end).
  { unfold Init.getTrapCachingEnabled.
    destruct (getOptionalInput p "trap-caching"); [reflexivity|].
    destruct (Init.isHostedRunner env); reflexivity. }
  split; [exact H|]. rewrite <- H. apply init_trace_initConfigWith.
Qed.

(** * The loop of the autobuild stage *)

Lemma autobuildCalls_app (a b : Trace) :
  autobuildCalls (a ++ b) = autobuildCalls a ++ autobuildCalls b.
Proof.
  induction a as [|e a IH]; [reflexivity|].
  destruct e as [c| | | | | |]; try exact IH.
  destruct c; try exact IH. cbn [app autobuildCalls]. rewrite IH. reflexivity.
Qed.

Lemma autobuildCalls_In (t : Trace) language :
  In (EvCall (RunAutobuild language)) t <-> In language (autobuildCalls t).
Proof.
  induction t as [|e t IH]; [reflexivity|].
  destruct e as [c| | | | | |];
    try (cbn [autobuildCalls In]; rewrite <- IH; split;
         [intros [H|H]; [discriminate|exact H] | auto]).
  destruct c;
    try (cbn [autobuildCalls In]; rewrite <- IH; split;
         [intros [H|H]; [discriminate|exact H] | auto]).
  cbn [autobuildCalls In]. rewrite <- IH. split.
  - intros [H|H]; [left; congruence|right; exact H].
  - intros [H|H]; [left; congruence|right; exact H].
Qed.

Lemma autobuildCalls_map (langs : list Language) :
  autobuildCalls (map (fun x => EvCall (RunAutobuild x)) langs) = langs.
Proof.
  induction langs as [|x langs IH]; [reflexivity|].
  cbn [map autobuildCalls]. rewrite IH. reflexivity.
Qed.

Lemma autobuild_afterWork_autobuildCalls p r :
  autobuildCalls (autobuild_afterWork p r) = [].
Proof.
  unfold autobuild_afterWork. destruct (completion r); reflexivity.
Qed.

Lemma last_nonempty_default {X} (xs : list X) (x d d' : X) :
  last (x :: xs) d = last (x :: xs) d'.
Proof.
  revert x. induction xs as [|y xs IH]; intros x; [reflexivity|].
  change (last (y :: xs) d = last (y :: xs) d'). apply IH.
Qed.

(** The loop starts the autobuilders in the order of the list, assigns
    [currentLanguage] before each call and stops at the first call that
    throws. *)
Lemma autobuild_loop env langs l :
  forOf langs
    (fun language =>
       bind (modify (fun l => Autobuild.mkLocals (Some language)
                                (Autobuild.languages l)))
         (fun _ => call (RunAutobuild language)
                     (Autobuild.runAutobuild env language))) l =
  mkRes
    (match autobuild_firstError (Autobuild.runAutobuild env) langs with
     | Some e => Throw e
     | None => Normal tt
     end)
    (Autobuild.mkLocals
       (last (map Some (autobuild_attempted (Autobuild.runAutobuild env) langs))
          (Autobuild.currentLanguage l))
       (Autobuild.languages l))
    (map (fun x => EvCall (RunAutobuild x))
       (autobuild_attempted (Autobuild.runAutobuild env) langs)).
Proof.
  revert l. induction langs as [|x langs IH]; intros l.
  - destruct l. reflexivity.
  - cbn [forOf autobuild_firstError autobuild_attempted].
    unfold bind at 1. unfold bind at 1. unfold modify, call.
    destruct (Autobuild.runAutobuild env x) as [[]|e].
    + rewrite IH. cbn [Autobuild.currentLanguage Autobuild.languages map app].
      destruct (autobuild_attempted (Autobuild.runAutobuild env) langs)
        as [|y ys]; [reflexivity|].
      cbn [map]. rewrite (last_nonempty_default _ _ (Some x)
                            (Autobuild.currentLanguage l)).
      reflexivity.
    + reflexivity.
Qed.

Lemma autobuild_attempted_all runAutobuild langs :
  autobuild_firstError runAutobuild langs = None ->
  autobuild_attempted runAutobuild langs = langs /\
  forall x, In x langs -> runAutobuild x = Ok tt.
Proof.
  induction langs as [|x langs IH]; cbn [autobuild_firstError autobuild_attempted].
  - intros _. split; [reflexivity|]. intros x [].
  - destruct (runAutobuild x) as [[]|e] eqn:E; [|discriminate].
    intros H. destruct (IH H) as [Heq Hall]. split; [rewrite Heq; reflexivity|].
    intros y [<-|Hy]; [exact E|apply Hall; exact Hy].
Qed.

Lemma autobuild_attempted_error runAutobuild langs e :
  autobuild_firstError runAutobuild langs = Some e ->
  exists before failing after,
    langs = before ++ failing :: after /\
    autobuild_attempted runAutobuild langs = before ++ [failing] /\
    runAutobuild failing = Raise e /\
    forall x, In x before -> runAutobuild x = Ok tt.
Proof.
  induction langs as [|x langs IH]; cbn [autobuild_firstError autobuild_attempted].
  - discriminate.
  - destruct (runAutobuild x) as [[]|e'] eqn:E.
    + intros H. destruct (IH H) as [before [failing [after [H1 [H2 [H3 H4]]]]]].
      exists (x :: before), failing, after.
      split; [rewrite H1; reflexivity|]. split; [rewrite H2; reflexivity|].
      split; [exact H3|].
      intros y [<-|Hy]; [exact E|apply H4; exact Hy].
    + intros H. inversion H. subst e'.
      exists [], x, langs. repeat split; try assumption. intros y [].
Qed.

Lemma autobuild_attempted_raises runAutobuild langs failing e :
  In failing (autobuild_attempted runAutobuild langs) ->
  runAutobuild failing = Raise e ->
  autobuild_firstError runAutobuild langs = Some e.
Proof.
  intros Hin Hfail.
  induction langs as [|x langs IH];
    cbn [autobuild_firstError autobuild_attempted] in *; [contradiction|].
  destruct (runAutobuild x) as [[]|e'] eqn:E.
  - destruct Hin as [->|Hin]; [congruence|apply IH; exact Hin].
  - destruct Hin as [->|[]]. congruence.
Qed.

Lemma last_map_Some_app {X} (before : list X) (x : X) (d : option X) :
  last (map Some (before ++ [x])) d = Some x.
Proof. rewrite map_app. apply last_last. Qed.

Ltac next_call H := unfold bind at 1 in H; unfold call at 1 in H.

(** How the [try] block of the autobuild stage ends: before the loop,
    with nothing to build, or in the loop. *)
Lemma autobuild_work_spec p env l :
  (autobuildCalls (emitted (Autobuild.work p env l)) = [] /\
   Autobuild.currentLanguage (locals (Autobuild.work p env l)) =
     Autobuild.currentLanguage l /\
   ((exists e, completion (Autobuild.work p env l) = Throw e) \/
    (completion (Autobuild.work p env l) = Normal tt /\
     Autobuild.languages (locals (Autobuild.work p env l)) = None /\
     exists c,
       getConfig p = Ok (Some c) /\
       Autobuild.determineAutobuildLanguages env c = Ok None))) \/
  (exists c langs,
     getConfig p = Ok (Some c) /\
     Autobuild.determineAutobuildLanguages env c = Ok (Some langs) /\
     Autobuild.languages (locals (Autobuild.work p env l)) = Some langs /\
     autobuildCalls (emitted (Autobuild.work p env l)) =
       autobuild_attempted (Autobuild.runAutobuild env) langs /\
     Autobuild.currentLanguage (locals (Autobuild.work p env l)) =
       last (map Some (autobuild_attempted (Autobuild.runAutobuild env) langs))
         (Autobuild.currentLanguage l) /\
     completion (Autobuild.work p env l) =
       match autobuild_firstError (Autobuild.runAutobuild env) langs with
       | Some e => Throw e
       | None => Normal tt
       end).
Proof.
  remember (Autobuild.work p env l) as r eqn:Hr. unfold Autobuild.work in Hr.
  assert (Hstop : forall e evs,
            r = mkRes (Throw e) l evs -> autobuildCalls evs = [] ->
            autobuildCalls (emitted r) = [] /\
            Autobuild.currentLanguage (locals r) = Autobuild.currentLanguage l /\
            ((exists e, completion r = Throw e) \/
             (completion r = Normal tt /\
              Autobuild.languages (locals r) = None /\
              exists c,
                getConfig p = Ok (Some c) /\
                Autobuild.determineAutobuildLanguages env c = Ok None))).
  { intros e evs -> Hevs. split; [exact Hevs|]. split; [reflexivity|].
    left. exists e. reflexivity. }
  next_call Hr. destruct (getGitHubVersion p) as [[]|e]; cbv beta iota in Hr.
  2: { left. apply (Hstop _ _ Hr). reflexivity. }
  next_call Hr. destruct (checkGitHubVersionInRange p) as [[]|e];
    cbv beta iota in Hr.
  2: { left. apply (Hstop _ _ Hr). reflexivity. }
  next_call Hr. destruct (getConfig p) as [[c|]|e]; cbv beta iota in Hr.
  2: { left. apply (Hstop _ _ Hr). reflexivity. }
  2: { left. apply (Hstop _ _ Hr). reflexivity. }
  next_call Hr.
  destruct (Autobuild.determineAutobuildLanguages env c) as [[langs|]|e] eqn:Hd;
    cbv beta iota in Hr.
  3: { left. apply (Hstop _ _ Hr). reflexivity. }
  2: { left. subst r. split; [reflexivity|]. split; [reflexivity|].
       right. split; [reflexivity|]. split; [reflexivity|].
       exists c. split; [reflexivity|exact Hd]. }
  clear Hstop.
  unfold bind at 1 in Hr. unfold modify at 1 in Hr. cbv beta iota in Hr.
  unfold bind at 1 in Hr.
  destruct (getOptionalInput p "working-directory") as [dir|].
  1: destruct (JsString.truthy (Some dir)).
  1: unfold call at 1 in Hr; destruct (Autobuild.chdir env dir) as [[]|e].
  2: { left. subst r. split; [reflexivity|]. split; [reflexivity|].
       left. eexists. reflexivity. }
  all: right; exists c, langs; unfold ret in Hr; cbv beta iota in Hr;
    rewrite autobuild_loop in Hr; subst r;
    cbn [completion locals emitted app Autobuild.languages
         Autobuild.currentLanguage];
    rewrite ?autobuildCalls_app; cbn [autobuildCalls app];
    rewrite autobuildCalls_map; repeat split; first [reflexivity|exact Hd].
Qed.

(** A report of the autobuild stage is the starting report or the one
    sent after the work of the [try] block. *)
Lemma autobuild_reports (sink : Sink) p env r :
  In (EvSendStatusReport r) (trace (Autobuild.run sink p env)) ->
  r = Autobuild.startingReport p \/
  (sink (Autobuild.startingReport p) = true /\
   In (EvSendStatusReport r)
      (autobuild_afterWork p (Autobuild.work p env Autobuild.initial))).
Proof.
  rewrite autobuild_run_eq. cbn [trace]. intros [H|H].
  - left. congruence.
  - destruct (sink (Autobuild.startingReport p)); [|contradiction].
    right. split; [reflexivity|]. apply in_app_or in H. destruct H as [H|H].
    + exfalso.
      exact (isWork_not_report _ _ (autobuild_work_isWork p env _) H).
    + exact H.
Qed.

Lemma autobuild_run_autobuildCalls (sink : Sink) p env :
  autobuildCalls (trace (Autobuild.run sink p env)) =
    if sink (Autobuild.startingReport p)
    then autobuildCalls (emitted (Autobuild.work p env Autobuild.initial))
    else [].
Proof.
  rewrite autobuild_run_eq. cbn [trace autobuildCalls].
  destruct (sink (Autobuild.startingReport p)); [|reflexivity].
  rewrite autobuildCalls_app, autobuild_afterWork_autobuildCalls.
  apply app_nil_r.
Qed.

Lemma autobuild_run_markedFailed (sink : Sink) p env :
  markedFailed (trace (Autobuild.run sink p env)) =
    if sink (Autobuild.startingReport p)
    then match completion (Autobuild.work p env Autobuild.initial) with
         | Throw _ => true
         | _ => false
         end
    else false.
Proof.
  rewrite autobuild_run_eq. cbn [trace]. rewrite markedFailed_cons.
  destruct (sink (Autobuild.startingReport p)); [|reflexivity].
  rewrite markedFailed_app,
    (markedFailed_isWork _ (autobuild_work_isWork p env _)).
  unfold autobuild_afterWork.
  destruct (completion (Autobuild.work p env Autobuild.initial));
    reflexivity.
Qed.

(** * Further properties of the autobuild stage *)

(** X1.  In the autobuild stage, when the autobuilder of a language is
    started and throws, the loop stops there: the languages determined
    for the job split into those built before it (whose autobuilders all
    returned), the failing language, and the languages after it, whose
    autobuilders are never started.  The handler then marks the process
    failed with the fixed advice followed by the error's message and
    sends, as the last thing [run] does, a completed report whose
    [autobuild_failure] is the failing language, whose
    [autobuild_languages] lists every determined language (built or
    not), and whose cause is the error's message. *)
Theorem X1_autobuild_failure_is_reported (sink : Sink) (p : Process)
    (env : Autobuild.Env) (failing : Language) (e : Error) :
  Autobuild.runAutobuild env failing = Raise e ->
  In (EvCall (RunAutobuild failing)) (trace (Autobuild.run sink p env)) ->
  exists c before after,
    getConfig p = Ok (Some c) /\
    Autobuild.determineAutobuildLanguages env c =
      Ok (Some (before ++ failing :: after)) /\
    (forall x, In x before -> Autobuild.runAutobuild env x = Ok tt) /\
    autobuildCalls (trace (Autobuild.run sink p env)) = before ++ [failing] /\
    exists events r,
      trace (Autobuild.run sink p env) =
        events ++
        [EvSetFailed (Autobuild.SET_FAILED_PREFIX ++ message e)%string;
         EvCall InitializeEnvironment;
         EvSendStatusReport r] /\
      report_autobuild_failure r = Some failing /\
      report_autobuild_languages r =
        Some (JsString.join "," (before ++ failing :: after)) /\
      report_status r = (if isUserError e then user_error else failure) /\
      report_cause r = Some (message e).
Proof.
  intros Hfail Hcalled.
  apply autobuildCalls_In in Hcalled.
  rewrite autobuild_run_autobuildCalls in *.
  rewrite autobuild_run_eq. cbn [trace].
  destruct (sink (Autobuild.startingReport p)); [|contradiction].
  destruct (autobuild_work_spec p env Autobuild.initial)
    as [[Hnone _]|[c [langs [Hcfg [Hdet [Hlangs [Hcalls [Hcur Hcompl]]]]]]]].
  { rewrite Hnone in Hcalled. contradiction. }
  rewrite Hcalls in Hcalled.
  pose proof (autobuild_attempted_raises _ _ _ _ Hcalled Hfail) as Herr.
  destruct (autobuild_attempted_error _ _ _ Herr)
    as [before [failing' [after [Hsplit [Hatt [Hfail' Hbefore]]]]]].
  assert (failing' = failing) as ->.
  { rewrite Hatt in Hcalled. apply in_app_or in Hcalled.
    destruct Hcalled as [Hin|[Heq|[]]]; [|exact Heq].
    rewrite (Hbefore _ Hin) in Hfail. discriminate. }
  exists c, before, after. rewrite <- Hsplit.
  split; [exact Hcfg|]. split; [exact Hdet|]. split; [exact Hbefore|].
  split; [rewrite Hcalls; exact Hatt|].
  rewrite Herr in Hcompl. rewrite Hatt, last_map_Some_app in Hcur.
  unfold autobuild_afterWork, autobuild_completedReport.
  rewrite Hcompl, Hlangs, Hcur.
  eexists (_ :: _), _. split.
  - reflexivity.
  - split; [reflexivity|]. split; [reflexivity|].
    split; reflexivity.
Qed.

Lemma X1_witness :
  exists before after,
    autobuildCalls
      (trace (Autobuild.run Sample.accepting Sample.process
                Sample.autobuildEnv_go_fails)) = before ++ ["go"] /\
    languages Sample.config = before ++ "go" :: after.
Proof.
  destruct (X1_autobuild_failure_is_reported Sample.accepting Sample.process
              Sample.autobuildEnv_go_fails "go" Sample.buildError eq_refl)
    as [c [before [after [Hcfg [Hdet [_ [Hcalls _]]]]]]].
  - vm_compute. do 6 right. left. reflexivity.
  - exists before, after. split; [exact Hcalls|].
    inversion Hcfg. subst c. inversion Hdet as [Hlangs]. exact Hlangs.
Defined.

(** X2.  In the autobuild stage a completed report with status [success]
    is sent only when the whole [try] block ran: the configuration was
    found, and either no languages were determined for autobuilding or
    the autobuilders of all of them were started, in the order in which
    they were determined, and every one returned.  The report then names
    no failing language and lists exactly those languages, and the
    process is not marked failed. *)
Theorem X2_autobuild_success_builds_every_language (sink : Sink) (p : Process)
    (env : Autobuild.Env) (r : StatusReport) :
  In (EvSendStatusReport r) (trace (Autobuild.run sink p env)) ->
  report_status r = success ->
  markedFailed (trace (Autobuild.run sink p env)) = false /\
  report_autobuild_failure r = None /\
  exists c,
    getConfig p = Ok (Some c) /\
    match Autobuild.determineAutobuildLanguages env c with
    | Ok (Some langs) =>
        autobuildCalls (trace (Autobuild.run sink p env)) = langs /\
        (forall x, In x langs -> Autobuild.runAutobuild env x = Ok tt) /\
        report_autobuild_languages r = Some (JsString.join "," langs)
    | Ok None =>
        autobuildCalls (trace (Autobuild.run sink p env)) = [] /\
        report_autobuild_languages r = Some EmptyString
    | Raise _ => False
    end.
Proof.
  intros Hin Hst. apply autobuild_reports in Hin.
  destruct Hin as [->|[Hs Hin]]; [discriminate|].
  rewrite autobuild_run_markedFailed, autobuild_run_autobuildCalls, Hs.
  unfold autobuild_afterWork in Hin.
  destruct (completion (Autobuild.work p env Autobuild.initial))
    as [[]|e|] eqn:Hc; [| |contradiction].
  2: { destruct Hin as [H|[H|[H|[]]]]; try discriminate.
       inversion H. subst r.
       rewrite autobuild_completedReport_status, getActionsStatus_error in Hst.
       destruct (isUserError e); discriminate. }
  destruct Hin as [H|[H|[]]]; [discriminate|]. inversion H. subst r. clear H.
  split; [reflexivity|]. split; [reflexivity|].
  destruct (autobuild_work_spec p env Autobuild.initial)
    as [[Hnone [_ [[e He]|[_ [Hlangs [c [Hcfg Hdet]]]]]]]
       |[c [langs [Hcfg [Hdet [Hlangs [Hcalls [_ Hcompl]]]]]]]].
  - congruence.
  - exists c. split; [exact Hcfg|]. rewrite Hdet. split; [exact Hnone|].
    unfold autobuild_completedReport. rewrite Hlangs. reflexivity.
  - exists c. split; [exact Hcfg|]. rewrite Hdet.
    destruct (autobuild_firstError (Autobuild.runAutobuild env) langs) eqn:Herr;
      [congruence|].
    destruct (autobuild_attempted_all _ _ Herr) as [Hatt Hall].
    split; [rewrite Hcalls; exact Hatt|]. split; [exact Hall|].
    unfold autobuild_completedReport. rewrite Hlangs. reflexivity.
Qed.

Lemma X2_witness :
  autobuildCalls
    (trace (Autobuild.run Sample.accepting Sample.process Sample.autobuildEnv)) =
  ["java"; "go"; "python"].
Proof.
  destruct (X2_autobuild_success_builds_every_language Sample.accepting
              Sample.process Sample.autobuildEnv
              (autobuild_completedReport Sample.process
                 (Autobuild.mkLocals (Some "python")
                    (Some ["java"; "go"; "python"])) None None))
    as [_ [_ [c [Hcfg H]]]].
  - vm_compute. do 9 right. left. reflexivity.
  - reflexivity.
  - inversion Hcfg. subst c. exact (proj1 H).
Defined.

(** X3.  Conversely, a report of the autobuild stage names a failing
    language only when the autobuilder of that language was the last one
    started and threw: the report then carries the message of the error
    it threw, its status is not [success], and the process has been
    marked failed.  An error raised before the loop (no configuration, a
    failing [chdir], ...) is reported without a failing language. *)
Theorem X3_autobuild_failure_language_threw (sink : Sink) (p : Process)
    (env : Autobuild.Env) (r : StatusReport) (failing : Language) :
  In (EvSendStatusReport r) (trace (Autobuild.run sink p env)) ->
  report_autobuild_failure r = Some failing ->
  exists e before,
    Autobuild.runAutobuild env failing = Raise e /\
    autobuildCalls (trace (Autobuild.run sink p env)) = before ++ [failing] /\
    (forall x, In x before -> Autobuild.runAutobuild env x = Ok tt) /\
    report_cause r = Some (message e) /\
    report_status r <> success /\
    markedFailed (trace (Autobuild.run sink p env)) = true.
Proof.
  intros Hin Hf. apply autobuild_reports in Hin.
  destruct Hin as [->|[Hs Hin]]; [discriminate|].
  rewrite autobuild_run_markedFailed, autobuild_run_autobuildCalls, Hs.
  unfold autobuild_afterWork in Hin.
  destruct (completion (Autobuild.work p env Autobuild.initial))
    as [[]|e|] eqn:Hc; [| |contradiction].
  { destruct Hin as [H|[H|[]]]; [discriminate|]. inversion H. subst r.
    discriminate. }
  destruct Hin as [H|[H|[H|[]]]]; try discriminate.
  inversion H. subst r. clear H. cbn in Hf.
  destruct (autobuild_work_spec p env Autobuild.initial)
    as [[_ [Hcur _]]|[c [langs [Hcfg [Hdet [Hlangs [Hcalls [Hcur Hcompl]]]]]]]].
  { rewrite Hcur in Hf. discriminate. }
  rewrite Hc in Hcompl.
  destruct (autobuild_firstError (Autobuild.runAutobuild env) langs) as [e'|]
    eqn:Herr; [|discriminate].
  inversion Hcompl. subst e'.
  destruct (autobuild_attempted_error _ _ _ Herr)
    as [before [failing' [after [Hsplit [Hatt [Hfail' Hbefore]]]]]].
  rewrite Hatt, last_map_Some_app in Hcur. rewrite Hcur in Hf.
  inversion Hf. subst failing'.
  exists e, before. split; [exact Hfail'|].
  split; [rewrite Hcalls; exact Hatt|]. split; [exact Hbefore|].
  split; [reflexivity|]. split; [|reflexivity].
  rewrite autobuild_completedReport_status, getActionsStatus_error.
  destruct (isUserError e); discriminate.
Qed.

Lemma X3_witness :
  exists e, Autobuild.runAutobuild Sample.autobuildEnv_go_fails "go" = Raise e.
Proof.
  destruct (X3_autobuild_failure_language_threw Sample.accepting
              Sample.process Sample.autobuildEnv_go_fails
              (autobuild_completedReport Sample.process
                 (Autobuild.mkLocals (Some "go")
                    (Some ["java"; "go"; "python"]))
                 (Some Sample.buildError) (Some "go")) "go")
    as [e [before [He _]]].
  - vm_compute. do 9 right. left. reflexivity.
  - reflexivity.
  - exists e. exact He.
Defined.

Lemma isCall_refl c : isCall c (EvCall c) = true.
Proof. unfold isCall. destruct (Call_eq_dec c c); congruence. Qed.

Lemma In_map_RunAutobuild c (langs : list Language) :
  (forall x, c <> RunAutobuild x) ->
  ~ In (EvCall c) (map (fun x => EvCall (RunAutobuild x)) langs).
Proof.
  intros Hc Hin. apply in_map_iff in Hin. destruct Hin as [x [Heq _]].
  inversion Heq. apply (Hc x). congruence.
Qed.

(** The working directory is changed once, after the languages have been
    determined and before the first autobuilder is started. *)
Lemma autobuild_work_chdir p env l dir :
  In (EvCall (Chdir dir)) (emitted (Autobuild.work p env l)) ->
  getOptionalInput p "working-directory" = Some dir /\
  dir <> EmptyString /\
  exists c langs,
    getConfig p = Ok (Some c) /\
    Autobuild.determineAutobuildLanguages env c = Ok (Some langs) /\
    forall e, Autobuild.chdir env dir = Raise e ->
      Autobuild.work p env l =
        mkRes (Throw e)
          (Autobuild.mkLocals (Autobuild.currentLanguage l) (Some langs))
          [EvCall GetGitHubVersion; EvCall CheckGitHubVersionInRange;
           EvCall GetConfig; EvCall DetermineAutobuildLanguages;
           EvCall (Chdir dir)].
Proof.
  remember (Autobuild.work p env l) as r eqn:Hr. unfold Autobuild.work in Hr.
  assert (Hstop : forall c evs loc,
            r = mkRes c loc evs ->
            forallb (fun e => negb (isCall (Chdir dir) e)) evs = true ->
            ~ In (EvCall (Chdir dir)) (emitted r)).
  { intros c evs loc -> Hevs Hin. cbn [emitted] in Hin.
    rewrite forallb_forall in Hevs. apply Hevs in Hin.
    rewrite isCall_refl in Hin. discriminate. }
  next_call Hr. destruct (getGitHubVersion p) as [[]|e]; cbv beta iota in Hr.
  2: { intros H. exfalso. apply (Hstop _ _ _ Hr); [reflexivity|exact H]. }
  next_call Hr. destruct (checkGitHubVersionInRange p) as [[]|e];
    cbv beta iota in Hr.
  2: { intros H. exfalso. apply (Hstop _ _ _ Hr); [reflexivity|exact H]. }
  next_call Hr. destruct (getConfig p) as [[c|]|e]; cbv beta iota in Hr.
  2: { intros H. exfalso. apply (Hstop _ _ _ Hr); [reflexivity|exact H]. }
  2: { intros H. exfalso. apply (Hstop _ _ _ Hr); [reflexivity|exact H]. }
  next_call Hr.
  destruct (Autobuild.determineAutobuildLanguages env c) as [[langs|]|e] eqn:Hd;
    cbv beta iota in Hr.
  2: { intros H. exfalso. apply (Hstop _ _ _ Hr); [reflexivity|exact H]. }
  2: { intros H. exfalso. apply (Hstop _ _ _ Hr); [reflexivity|exact H]. }
  clear Hstop.
  unfold bind at 1 in Hr. unfold modify at 1 in Hr. cbv beta iota in Hr.
  unfold bind at 1 in Hr.
  destruct (getOptionalInput p "working-directory") as [d|].
  1: destruct (JsString.truthy (Some d)) eqn:Htruthy.
  1: unfold call at 1 in Hr; destruct (Autobuild.chdir env d) as [[]|e] eqn:Hch.
  all: unfold ret in Hr; cbv beta iota in Hr;
    rewrite ?autobuild_loop in Hr; subst r; cbn [emitted app];
    intros Hin;
    repeat (destruct Hin as [Hin|Hin]; [try discriminate|]);
    try (exfalso; revert Hin; apply In_map_RunAutobuild; discriminate);
    try contradiction.
  all: inversion Hin; subst d; split; [reflexivity|];
    (split; [intros ->; discriminate Htruthy|]);
    exists c, langs; split; [reflexivity|]; split; [exact Hd|];
    intros e' He'; rewrite Hch in He'; inversion He'; reflexivity.
Qed.

(** X4.  The autobuild stage changes the working directory only to the
    value of the [working-directory] input, and only when that input is
    a non-empty string.  When the change of directory fails, no
    autobuilder is started at all: the stage is marked failed and its
    completed report carries the error's message, names no failing
    language, and still lists every language that was determined. *)
Theorem X4_autobuild_working_directory (sink : Sink) (p : Process)
    (env : Autobuild.Env) (dir : string) :
  In (EvCall (Chdir dir)) (trace (Autobuild.run sink p env)) ->
  getOptionalInput p "working-directory" = Some dir /\
  dir <> EmptyString /\
  forall e, Autobuild.chdir env dir = Raise e ->
    autobuildCalls (trace (Autobuild.run sink p env)) = [] /\
    markedFailed (trace (Autobuild.run sink p env)) = true /\
    exists c langs events r,
      getConfig p = Ok (Some c) /\
      Autobuild.determineAutobuildLanguages env c = Ok (Some langs) /\
      trace (Autobuild.run sink p env) =
        events ++ [EvCall InitializeEnvironment; EvSendStatusReport r] /\
      report_autobuild_failure r = None /\
      report_autobuild_languages r = Some (JsString.join "," langs) /\
      report_cause r = Some (message e).
Proof.
  intros Hin.
  assert (Hwork : In (EvCall (Chdir dir))
                    (emitted (Autobuild.work p env Autobuild.initial)) /\
                  sink (Autobuild.startingReport p) = true).
  { rewrite autobuild_run_eq in Hin. cbn [trace] in Hin.
    destruct Hin as [H|H]; [discriminate|].
    destruct (sink (Autobuild.startingReport p)); [|contradiction].
    split; [|reflexivity]. apply in_app_or in H. destruct H as [H|H]; [exact H|].
    exfalso. unfold autobuild_afterWork in H.
    destruct (completion (Autobuild.work p env Autobuild.initial));
      repeat (destruct H as [H|H]; [discriminate|]); exact H. }
  destruct Hwork as [Hwork Hs].
  destruct (autobuild_work_chdir p env _ _ Hwork)
    as [Hinput [Hdir [c [langs [Hcfg [Hdet Hfail]]]]]].
  split; [exact Hinput|]. split; [exact Hdir|]. intros e He.
  rewrite autobuild_run_autobuildCalls, autobuild_run_markedFailed,
    autobuild_run_eq, Hs, (Hfail e He).
  cbn [trace completion emitted locals]. split; [reflexivity|].
  split; [reflexivity|]. exists c, langs.
  unfold autobuild_afterWork. cbn [completion locals].
  eexists [_; _; _; _; _; _; _], _.
  split; [exact Hcfg|]. split; [exact Hdet|].
  split; [reflexivity|]. split; [reflexivity|]. split; reflexivity.
Qed.

Lemma X4_witness :
  autobuildCalls
    (trace (Autobuild.run Sample.accepting
              Sample.process_with_working_directory
              Sample.autobuildEnv_chdir_fails)) = [].
Proof.
  assert (Hcalled : In (EvCall (Chdir "src"))
                      (trace (Autobuild.run Sample.accepting
                                Sample.process_with_working_directory
                                Sample.autobuildEnv_chdir_fails))).
  { vm_compute. do 5 right. left. reflexivity. }
  apply (proj2 (proj2 (X4_autobuild_working_directory Sample.accepting
                         Sample.process_with_working_directory
                         Sample.autobuildEnv_chdir_fails "src" Hcalled))
           Sample.chdirError eq_refl).
Defined.

(** * Invariants of a block *)

Section InvariantFacts.
Context {L : Type}.
Variable I : Trace -> L -> Prop.

Lemma invariant_ret {A} (a : A) : invariant I (ret a : M L A).
Proof. intros t l H. cbn. rewrite app_nil_r. exact H. Qed.

Lemma invariant_throw {A} e : invariant I (throw e : M L A).
Proof. intros t l H. cbn. rewrite app_nil_r. exact H. Qed.

Lemma invariant_get : invariant I (get : M L L).
Proof. intros t l H. cbn. rewrite app_nil_r. exact H. Qed.

Lemma invariant_emit ev :
  (forall t l, I t l -> I (t ++ [ev]) l) -> invariant I (emit ev : M L unit).
Proof. intros Hev t l H. apply Hev. exact H. Qed.

Lemma invariant_call {A} c (r : Result A) :
  (forall t l, I t l -> I (t ++ [EvCall c]) l) ->
  invariant I (call c r : M L A).
Proof. intros Hev t l H. unfold call. destruct r; apply Hev; exact H. Qed.

Lemma invariant_modify f :
  (forall t l, I t l -> I t (f l)) -> invariant I (modify f : M L unit).
Proof. intros Hf t l H. cbn. rewrite app_nil_r. apply Hf. exact H. Qed.

Lemma invariant_bind {A B} (m : M L A) (f : A -> M L B) :
  invariant I m -> (forall a, invariant I (f a)) -> invariant I (bind m f).
Proof.
  intros Hm Hf t l H. unfold bind. specialize (Hm t l H).
  destruct (m l) as [[a|e|] l1 ev1]; cbn [emitted locals] in *;
    try exact Hm.
  specialize (Hf a _ _ Hm). destruct (f a l1) as [c2 l2 ev2].
  cbn [emitted locals] in *. rewrite app_assoc. exact Hf.
Qed.

(** The continuation of a block runs only when the block has completed
    normally. *)
Lemma invariant_bind_normal {A B} (m : M L A) (f : A -> M L B) :
  invariant I m ->
  (forall a, (exists l, completion (m l) = Normal a) -> invariant I (f a)) ->
  invariant I (bind m f).
Proof.
  intros Hm Hf t l H. unfold bind. specialize (Hm t l H).
  pose proof (fun a => Hf a) as Hf'.
  destruct (m l) as [[a|e|] l1 ev1] eqn:E; cbn [emitted locals] in *;
    try exact Hm.
  assert (Hn : exists l, completion (m l) = Normal a).
  { exists l. rewrite E. reflexivity. }
  specialize (Hf a Hn _ _ Hm). destruct (f a l1) as [c2 l2 ev2].
  cbn [emitted locals] in *. rewrite app_assoc. exact Hf.
Qed.

(** The continuation of a call runs only when the call has returned. *)
Lemma invariant_bind_call {A B} c (r : Result A) (f : A -> M L B) :
  (forall t l, I t l -> I (t ++ [EvCall c]) l) ->
  (forall a, r = Ok a -> invariant I (f a)) ->
  invariant I (bind (call c r) f).
Proof.
  intros Hev Hf t l H. unfold bind, call. destruct r as [a|e].
  - specialize (Hf a eq_refl _ _ (Hev t l H)).
    destruct (f a l) as [c2 l2 ev2]. cbn [emitted locals] in *.
    rewrite app_assoc. exact Hf.
  - apply Hev. exact H.
Qed.

(** [x = await f()]: the call and the assignment of its result are one
    step. *)
Lemma invariant_bind_call_modify {A B} c (r : Result A) (g : A -> L -> L)
    (k : A -> M L B) :
  (forall t l e, r = Raise e -> I t l -> I (t ++ [EvCall c]) l) ->
  (forall t l a, r = Ok a -> I t l -> I (t ++ [EvCall c]) (g a l)) ->
  (forall a, r = Ok a -> invariant I (k a)) ->
  invariant I (bind (call c r) (fun a => bind (modify (g a)) (fun _ => k a))).
Proof.
  intros Hraise Hok Hk t l H. unfold bind, call, modify.
  destruct r as [a|e].
  - specialize (Hk a eq_refl _ _ (Hok t l a eq_refl H)).
    destruct (k a (g a l)) as [c2 l2 ev2]. cbn [emitted locals app] in *.
    rewrite <- app_assoc in Hk. exact Hk.
  - apply (Hraise t l e eq_refl). exact H.
Qed.

(** The value of a variable that a block reads is one for which the
    invariant holds. *)
Lemma invariant_bind_get {B} (f : L -> M L B) :
  (forall a, (exists t, I t a) -> invariant I (f a)) ->
  invariant I (bind get f).
Proof.
  intros Hf t l H. unfold bind, get.
  specialize (Hf l (ex_intro _ t H) t l H).
  destruct (f l l) as [c2 l2 ev2]. exact Hf.
Qed.

Lemma invariant_tryCatch {A} (m : M L A) (h : Error -> M L A) :
  invariant I m -> (forall e, invariant I (h e)) ->
  invariant I (tryCatch m h).
Proof.
  intros Hm Hh t l H. unfold tryCatch. specialize (Hm t l H).
  destruct (m l) as [[a|e|] l1 ev1]; cbn [emitted locals] in *;
    try exact Hm.
  specialize (Hh e _ _ Hm). destruct (h e l1) as [c2 l2 ev2].
  cbn [emitted locals] in *. rewrite app_assoc. exact Hh.
Qed.

Lemma invariant_forOf {X} (xs : list X) (body : X -> M L unit) :
  (forall x, invariant I (body x)) -> invariant I (forOf xs body).
Proof.
  intros Hb. induction xs as [|x xs IH]; cbn [forOf].
  - apply invariant_ret.
  - apply invariant_bind; auto.
Qed.

Lemma invariant_forOf_In {X} (xs : list X) (body : X -> M L unit) :
  (forall x, In x xs -> invariant I (body x)) -> invariant I (forOf xs body).
Proof.
  induction xs as [|x xs IH]; intros Hb; cbn [forOf].
  - apply invariant_ret.
  - apply invariant_bind.
    + apply Hb. left. reflexivity.
    + intros _. apply IH. intros y Hy. apply Hb. right. exact Hy.
Qed.

End InvariantFacts.

(** Decomposing a block, statement by statement; [ev] discharges the
    obligations of the events and [st] those of the assignments. *)
Ltac invariant_step ev st :=
  match goal with
  | |- invariant _ (bind (call _ _) _) =>
      apply invariant_bind_call; [ev | intros ? ?]
  | |- invariant _ (bind get _) => apply invariant_bind_get; intros ? ?
  | |- invariant _ (bind _ _) => apply invariant_bind_normal; [|intros ? ?]
  | |- invariant _ (ret _) => apply invariant_ret
  | |- invariant _ (throw _) => apply invariant_throw
  | |- invariant _ get => apply invariant_get
  | |- invariant _ (emit _) => apply invariant_emit; ev
  | |- invariant _ (setFailed _) => apply invariant_emit; ev
  | |- invariant _ (call _ _) => apply invariant_call; ev
  | |- invariant _ (modify _) => apply invariant_modify; st
  | |- invariant _ (tryCatch _ _) => apply invariant_tryCatch; [|intro]
  | |- invariant _ (forOf _ _) => apply invariant_forOf_In; intros ? ?
  | |- invariant _ (if ?b then _ else _) => destruct b eqn:?
  | |- invariant _ (match ?x with _ => _ end) => destruct x eqn:?
  | |- invariant _ _ => progress cbv beta zeta
  end.

(** The blocks of the work of the analyze stage. *)
Ltac analyze_block :=
  match goal with
  | |- invariant _ _ =>
      progress unfold Analyze.setup, Analyze.analysis, Analyze.databaseUpload,
        Analyze.trapCacheUpload, Analyze.processingWait,
        Analyze.runAutobuildIfLegacyGoWorkflow
  end.

Ltac analyze_invariant ev st :=
  unfold Analyze.work;
  repeat first [invariant_step ev st | analyze_block].

Lemma always_event {L} (S : L -> Prop) (Q : Event -> Prop) ev :
  Q ev -> forall t l, always S Q t l -> always S Q (t ++ [ev]) l.
Proof.
  intros Hev t l [HS HQ]. split; [exact HS|].
  apply Forall_app. split; [exact HQ|]. constructor; [exact Hev|constructor].
Qed.

Lemma always_assign {L} (S : L -> Prop) (Q : Event -> Prop) (f : L -> L) :
  (forall l, S l -> S (f l)) ->
  forall t l, always S Q t l -> always S Q t (f l).
Proof. intros Hf t l [HS HQ]. split; [apply Hf; exact HS|exact HQ]. Qed.

(** What an invariant of the work of the [try] block says about the
    invocation. *)
Lemma invariant_always {L A} (S : L -> Prop) (Q : Event -> Prop)
    (m : M L A) l :
  invariant (always S Q) m -> S l ->
  S (locals (m l)) /\ forall e, In e (emitted (m l)) -> Q e.
Proof.
  intros Hm HS. destruct (Hm [] l (conj HS (Forall_nil Q))) as [HS' HQ].
  split; [exact HS'|]. apply Forall_forall. exact HQ.
Qed.

(** * Further properties of the analyze stage *)

(** The calls of the analyze stage other than the initialisation of the
    environment are made by the work of its [try] block. *)
Lemma analyze_run_call (sink : Sink) p env c :
  c <> InitializeEnvironment ->
  In (EvCall c) (trace (Analyze.run sink p env)) ->
  sink (Analyze.startingReport p) = true /\
  In (EvCall c) (emitted (Analyze.work p env Analyze.initial)).
Proof.
  intros Hc. rewrite analyze_run_eq. cbn [trace].
  intros [H|[H|H]]; [congruence|discriminate|].
  destruct (sink (Analyze.startingReport p)); [|contradiction].
  split; [reflexivity|]. apply in_app_or in H. destruct H as [H|H]; [exact H|].
  exfalso. unfold analyze_afterWork in H.
  destruct (completion (Analyze.work p env Analyze.initial));
    [destruct (expectsError p)|destruct (analyze_marksFailedOnError p)|];
    repeat (destruct H as [H|H]; [discriminate|]); exact H.
Qed.

Lemma analyze_trapCacheUpload_normal env a :
  (exists l, completion (Analyze.trapCacheUpload env l) = Normal a) ->
  exists did, Analyze.uploadTrapCaches env = Ok did.
Proof.
  intros [l H]. unfold Analyze.trapCacheUpload in H. unfold_monad.
  destruct (Analyze.getCodeQL env); [|discriminate H].
  destruct (Analyze.uploadTrapCaches env) as [did|]; [|discriminate H].
  exists did. reflexivity.
Qed.

Lemma or_else_brutal p :
  match JsString.or_else (getOptionalInput p "cleanup-level") (Some "brutal") with
  | Some lvl => lvl
  | None => "brutal"
  end = cleanupLevel p.
Proof.
  unfold JsString.or_else, JsString.truthy, cleanupLevel.
  destruct (getOptionalInput p "cleanup-level") as [s|]; [|reflexivity].
  destruct (String.eqb s EmptyString); reflexivity.
Qed.

Lemma analyze_work_cleanup p env :
  invariant
    (always (fun _ : Analyze.Locals => True)
       (fun e => forall level, e = EvCall (RunCleanup level) ->
          getOptionalInput p "cleanup-level" <> Some "none" /\
          level = cleanupLevel p /\
          exists timings, Analyze.runFinalize env = Ok timings))
    (Analyze.work p env).
Proof.
  analyze_invariant
    ltac:(apply always_event; intros ? Heq; first
            [ discriminate Heq
            | inversion Heq; subst; split;
              [ intros Hnone;
                match goal with
                | H : negb (JsString.strict_eq _ _) = true |- _ =>
                    rewrite Hnone in H; discriminate H
                end
              | split; [apply or_else_brutal | eexists; eassumption] ] ])
    ltac:(apply always_assign; auto).
Qed.

(** X5.  The analyze stage cleans the databases up unless the
    [cleanup-level] input is ["none"]; the level it passes to
    [runCleanup] is the input, or ["brutal"] when the input is absent or
    empty; and the clean-up is only started once [runFinalize] has
    returned. *)
Theorem X5_analyze_cleanup_level (sink : Sink) (p : Process)
    (env : Analyze.Env) (level : string) :
  In (EvCall (RunCleanup level)) (trace (Analyze.run sink p env)) ->
  getOptionalInput p "cleanup-level" <> Some "none" /\
  level = cleanupLevel p /\
  exists timings, Analyze.runFinalize env = Ok timings.
Proof.
  intros Hin. apply analyze_run_call in Hin; [|discriminate].
  destruct Hin as [_ Hin].
  destruct (invariant_always _ _ _ Analyze.initial
              (analyze_work_cleanup p env) I) as [_ HQ].
  exact (HQ _ Hin level eq_refl).
Qed.

Lemma X5_witness :
  "brutal" = cleanupLevel Sample.process.
Proof.
  apply (X5_analyze_cleanup_level Sample.accepting Sample.process
           Sample.analyzeEnv "brutal").
  vm_compute. repeat (first [left; reflexivity | right]).
Defined.

(** The events of the analyze stage are those of the work of its [try]
    block, the initialisation of the environment, the marking of the
    process, the export of the success marker and the reports. *)
Lemma analyze_run_events (sink : Sink) p env (Q : Event -> Prop) :
  Q (EvCall InitializeEnvironment) ->
  (forall r, Q (EvSendStatusReport r)) ->
  (forall msg, Q (EvSetFailed msg)) ->
  Q (EvExportVariable EnvVar.ANALYZE_DID_COMPLETE_SUCCESSFULLY "true") ->
  (forall e, In e (emitted (Analyze.work p env Analyze.initial)) -> Q e) ->
  forall e, In e (trace (Analyze.run sink p env)) -> Q e.
Proof.
  intros Hinit Hrep Hfail Hexp Hwork e. rewrite analyze_run_eq. cbn [trace].
  intros [<-|[<-|H]]; [exact Hinit|apply Hrep|].
  destruct (sink (Analyze.startingReport p)); [|contradiction].
  apply in_app_or in H. destruct H as [H|H]; [apply Hwork; exact H|].
  unfold analyze_afterWork in H.
  destruct (completion (Analyze.work p env Analyze.initial));
    [destruct (expectsError p)|destruct (analyze_marksFailedOnError p)|];
    repeat (destruct H as [<-|H]; [auto|]); contradiction.
Qed.

(** Outputs, warnings and calls other than the initialisation of the
    environment come from the work of the [try] block. *)
Lemma analyze_run_work_event (sink : Sink) p env e :
  isWork e = true -> isExportVariable e = false ->
  e <> EvCall InitializeEnvironment ->
  In e (trace (Analyze.run sink p env)) ->
  In e (emitted (Analyze.work p env Analyze.initial)).
Proof.
  intros Hw Hx Hi Hin.
  refine (analyze_run_events sink p env
            (fun e' => e' = e ->
               In e (emitted (Analyze.work p env Analyze.initial)))
            _ _ _ _ _ e Hin eq_refl).
  - intros Heq. congruence.
  - intros r Heq. subst e. discriminate Hw.
  - intros msg Heq. subst e. discriminate Hw.
  - intros Heq. subst e. discriminate Hx.
  - intros e' He' Heq. subst e'. exact He'.
Qed.

(** A report of the analyze stage is the starting report or the one sent
    after the work of the [try] block. *)
Lemma analyze_reports (sink : Sink) p env r :
  In (EvSendStatusReport r) (trace (Analyze.run sink p env)) ->
  r = Analyze.startingReport p \/
  (sink (Analyze.startingReport p) = true /\
   match completion (Analyze.work p env Analyze.initial) with
   | Normal _ =>
       r = analyze_successReport p env
             (locals (Analyze.work p env Analyze.initial))
   | Throw e =>
       r = analyze_catchReport p env
             (locals (Analyze.work p env Analyze.initial)) e
   | EarlyReturn => False
   end).
Proof.
  rewrite analyze_run_eq. cbn [trace]. intros [H|[H|H]]; [discriminate| |].
  - left. congruence.
  - destruct (sink (Analyze.startingReport p)); [|contradiction].
    right. split; [reflexivity|]. apply in_app_or in H. destruct H as [H|H].
    + exfalso. exact (isWork_not_report _ _ (analyze_work_isWork p env _) H).
    + unfold analyze_afterWork in H.
      destruct (completion (Analyze.work p env Analyze.initial));
        [destruct (expectsError p)|destruct (analyze_marksFailedOnError p)|];
        repeat (destruct H as [H|H]; [try discriminate; congruence|]);
        contradiction.
Qed.

Ltac skip_contra Hskip :=
  match goal with
  | H : getRequiredInput _ "skip-queries" = Ok ?a,
    H' : negb (String.eqb ?a "true") = true |- _ =>
      rewrite Hskip in H; inversion H; subst; discriminate H'
  | H : exists t, always _ _ t ?a, H' : Analyze.runStats ?a = Some _ |- _ =>
      destruct H as [? [[? ?] _]]; congruence
  | H : exists t, always _ _ t ?a, H' : Analyze.uploadResult ?a = Some _ |- _ =>
      destruct H as [? [[? ?] _]]; congruence
  end.

Lemma analyze_work_skip_queries p env :
  getRequiredInput p "skip-queries" = Ok "true" ->
  invariant
    (always (fun l => Analyze.runStats l = None /\ Analyze.uploadResult l = None)
       (fun e => isQueryOrUploadEvent e = false))
    (Analyze.work p env).
Proof.
  intros Hskip.
  analyze_invariant
    ltac:(first [ apply always_event; reflexivity
                | exfalso; skip_contra Hskip ])
    ltac:(first [ apply always_assign; intros ? [? ?]; split; assumption
                | exfalso; skip_contra Hskip ]).
Qed.

(** X6.  With the [skip-queries] input set to ["true"] the analyze stage
    runs no queries and uploads no results: [runQueries],
    [getAddSnippetsFlag], [getUploadValue], [uploadFromActions] and
    [waitForProcessing] are never called and the [sarif-id] output is
    never set.  A report of the stage then carries query statistics only
    when it reports a [CodeQLAnalysisError], whose statistics and message
    it carries. *)
Theorem X6_analyze_skip_queries (sink : Sink) (p : Process)
    (env : Analyze.Env) :
  getRequiredInput p "skip-queries" = Ok "true" ->
  forallb (fun e => negb (isQueryOrUploadEvent e))
    (trace (Analyze.run sink p env)) = true /\
  forall r stats,
    In (EvSendStatusReport r) (trace (Analyze.run sink p env)) ->
    report_stats r = Some stats ->
    exists e q,
      error_class e = CodeQLAnalysisError q /\
      stats = mkAnalysisStatusReport q [] /\
      report_cause r = Some (message e) /\
      isFailureStatus (report_status r) = true.
Proof.
  intros Hskip.
  destruct (invariant_always _ _ _ Analyze.initial
              (analyze_work_skip_queries p env Hskip) (conj eq_refl eq_refl))
    as [[Hstats Hupload] HQ].
  split.
  - apply forallb_forall. intros e He.
    apply (analyze_run_events sink p env
             (fun e => negb (isQueryOrUploadEvent e) = true));
      try reflexivity; [|exact He].
    intros e' He'. rewrite (HQ _ He'). reflexivity.
  - intros r stats Hin Hr. apply analyze_reports in Hin.
    destruct Hin as [->|[_ Hin]]; [discriminate|].
    destruct (completion (Analyze.work p env Analyze.initial)) as [[]|e|];
      [| |contradiction]; subst r.
    + unfold analyze_successReport, analyze_successStats in Hr.
      rewrite Hstats in Hr. discriminate.
    + unfold analyze_catchReport, analyze_catchStats in *. cbn in Hr.
      destruct (error_class e) as [| |q] eqn:Hclass; try discriminate.
      inversion Hr. subst stats. exists e, q.
      split; [exact Hclass|]. split; [reflexivity|]. split; [reflexivity|].
      rewrite analyze_finishReport_status, getActionsStatus_error.
      destruct (isUserError e); reflexivity.
Qed.

Lemma X6_witness :
  forallb (fun e => negb (isQueryOrUploadEvent e))
    (trace (Analyze.run Sample.accepting Sample.process_skip_queries
              Sample.analyzeEnv)) = true.
Proof.
  apply (proj1 (X6_analyze_skip_queries Sample.accepting
                  Sample.process_skip_queries Sample.analyzeEnv eq_refl)).
Defined.

Ltac upload_facts :=
  repeat match goal with
  | H : exists t, always _ _ t _ |- _ => destruct H as [? [? _]]
  | H : String.eqb _ _ = true |- _ => apply String.eqb_eq in H; subst
  | H : negb (String.eqb _ _) = true |- _ =>
      apply negb_true_iff, String.eqb_neq in H
  end.

Lemma analyze_work_upload p env :
  invariant
    (always
       (fun l =>
          (forall q, Analyze.runStats l = Some q ->
             Analyze.runQueries env = Ok q /\
             exists skip,
               getRequiredInput p "skip-queries" = Ok skip /\
               skip <> "true") /\
          (forall r, Analyze.uploadResult l = Some r ->
             Analyze.uploadFromActions env = Ok r))
       (fun e =>
          (e = EvCall UploadFromActions ->
           exists q skip,
             Analyze.runQueries env = Ok q /\
             getRequiredInput p "skip-queries" = Ok skip /\
             skip <> "true" /\
             Analyze.getUploadValue env (getOptionalInput p "upload") =
               Ok "always") /\
          (forall v, e = EvSetOutput "sarif-id" v ->
           exists r,
             Analyze.uploadFromActions env = Ok r /\
             v = OutString (sarifID r)) /\
          (forall sarif, e = EvCall (WaitForProcessing sarif) ->
           isInTestMode p = false /\
           getRequiredInput p "wait-for-processing" = Ok "true" /\
           (exists r,
              Analyze.uploadFromActions env = Ok r /\ sarifID r = sarif) /\
           exists did, Analyze.uploadTrapCaches env = Ok did)))
    (Analyze.work p env).
Proof.
  analyze_invariant
    ltac:(apply always_event; (split; [|split]);
          [ intros Heq; try discriminate Heq
          | intros ? Heq; try discriminate Heq
          | intros ? Heq; try discriminate Heq ])
    ltac:(apply always_assign; intros ? [Hstats Hup]; split;
          [ first [ exact Hstats | intros ? Heq ]
          | first [ exact Hup | intros ? Heq ] ]).
  - cbn in Heq. inversion Heq. subst. upload_facts.
    split; [assumption|]. solve [eauto].
  - upload_facts.
    match goal with
    | H : _ /\ _, H' : Analyze.runStats _ = Some _ |- _ =>
        destruct (proj1 H _ H') as [? [? [? ?]]]
    end.
    solve [eauto 10].
  - cbn in Heq. inversion Heq. subst. assumption.
  - inversion Heq. subst. solve [eauto].
  - inversion Heq. subst. upload_facts.
    match goal with
    | H : _ /\ _, H' : Analyze.uploadResult _ = Some _ |- _ =>
        pose proof (proj2 H _ H')
    end.
    split; [reflexivity|]. split; [assumption|]. split; [solve [eauto]|].
    eapply analyze_trapCacheUpload_normal. eassumption.
Qed.

(** X7.  The analyze stage uploads the results of the queries only when
    the queries were run and [runQueries] returned (so [skip-queries] is
    not ["true"]) and [getUploadValue] of the [upload] input is
    ["always"]; and the [sarif-id] output, when set, is the identifier
    that [uploadFromActions] returned. *)
Theorem X7_analyze_upload_conditions (sink : Sink) (p : Process)
    (env : Analyze.Env) :
  (In (EvCall UploadFromActions) (trace (Analyze.run sink p env)) ->
   exists q skip,
     Analyze.runQueries env = Ok q /\
     getRequiredInput p "skip-queries" = Ok skip /\
     skip <> "true" /\
     Analyze.getUploadValue env (getOptionalInput p "upload") = Ok "always") /\
  (forall v,
     In (EvSetOutput "sarif-id" v) (trace (Analyze.run sink p env)) ->
     exists r,
       Analyze.uploadFromActions env = Ok r /\ v = OutString (sarifID r)).
Proof.
  destruct (invariant_always _ _ _ Analyze.initial (analyze_work_upload p env))
    as [_ HQ].
  { split; discriminate. }
  split.
  - intros Hin. apply analyze_run_call in Hin; [|discriminate].
    exact (proj1 (HQ _ (proj2 Hin)) eq_refl).
  - intros v Hin.
    refine (analyze_run_events sink p env
              (fun e => e = EvSetOutput "sarif-id" v ->
                 exists r,
                   Analyze.uploadFromActions env = Ok r /\
                   v = OutString (sarifID r)) _ _ _ _ _ _ Hin eq_refl);
      try discriminate.
    intros e He ->. exact (proj1 (proj2 (HQ _ He)) v eq_refl).
Qed.

Lemma X7_witness :
  exists q skip,
    Analyze.runQueries Sample.analyzeEnv = Ok q /\
    getRequiredInput Sample.process "skip-queries" = Ok skip /\
    skip <> "true" /\
    Analyze.getUploadValue Sample.analyzeEnv
      (getOptionalInput Sample.process "upload") = Ok "always".
Proof.
  apply (proj1 (X7_analyze_upload_conditions Sample.accepting Sample.process
                  Sample.analyzeEnv)).
  vm_compute. repeat (first [left; reflexivity | right]).
Defined.

(** X8.  The analyze stage waits for the processing of an upload only
    outside test mode, only when the [wait-for-processing] input is
    ["true"], only for the SARIF identifier that [uploadFromActions]
    returned, and only after the upload of the TRAP caches has
    returned. *)
Theorem X8_analyze_wait_for_processing (sink : Sink) (p : Process)
    (env : Analyze.Env) (sarif : string) :
  In (EvCall (WaitForProcessing sarif)) (trace (Analyze.run sink p env)) ->
  isInTestMode p = false /\
  getRequiredInput p "wait-for-processing" = Ok "true" /\
  (exists r, Analyze.uploadFromActions env = Ok r /\ sarifID r = sarif) /\
  exists did, Analyze.uploadTrapCaches env = Ok did.
Proof.
  intros Hin. apply analyze_run_call in Hin; [|discriminate].
  destruct (invariant_always _ _ _ Analyze.initial (analyze_work_upload p env))
    as [_ HQ].
  { split; discriminate. }
  exact (proj2 (proj2 (HQ _ (proj2 Hin))) sarif eq_refl).
Qed.

Lemma X8_witness :
  exists r,
    Analyze.uploadFromActions Sample.analyzeEnv = Ok r /\ sarifID r = "sarif-1".
Proof.
  apply (X8_analyze_wait_for_processing Sample.accepting Sample.process
           Sample.analyzeEnv "sarif-1").
  vm_compute. repeat (first [left; reflexivity | right]).
Defined.

(** The work of the [try] block of the analyze stage exports no
    variable. *)
Lemma analyze_work_exports_nothing p env l e :
  In e (emitted (Analyze.work p env l)) -> isExportVariable e = false.
Proof.
  assert (H : plain (fun e => negb (isExportVariable e)) (Analyze.work p env)).
  { unfold_analyze. plain_auto. }
  intros Hin. destruct (H l) as [Hall _]. rewrite forallb_forall in Hall.
  apply Hall in Hin. apply negb_true_iff in Hin. exact Hin.
Qed.

(** The success marker is exported exactly when the work of the [try]
    block completes normally. *)
Lemma analyze_marker_normal (sink : Sink) p env :
  In (EvExportVariable EnvVar.ANALYZE_DID_COMPLETE_SUCCESSFULLY "true")
     (trace (Analyze.run sink p env)) <->
  sink (Analyze.startingReport p) = true /\
  exists u, completion (Analyze.work p env Analyze.initial) = Normal u.
Proof.
  rewrite analyze_run_eq. cbn [trace]. split.
  - intros [H|[H|H]]; [discriminate|discriminate|].
    destruct (sink (Analyze.startingReport p)); [|contradiction].
    split; [reflexivity|]. apply in_app_or in H. destruct H as [H|H].
    + apply analyze_work_exports_nothing in H. discriminate.
    + unfold analyze_afterWork in H.
      destruct (completion (Analyze.work p env Analyze.initial)) as [u|e|];
        [exists u; reflexivity| |contradiction].
      exfalso. destruct (analyze_marksFailedOnError p);
        repeat (destruct H as [H|H]; [discriminate|]); exact H.
  - intros [-> [u Hu]]. do 2 right. apply in_or_app. right.
    unfold analyze_afterWork. rewrite Hu. apply in_or_app. right.
    left. reflexivity.
Qed.

(** X9.  The analyze stage exports
    [CODEQL_ACTION_ANALYZE_DID_COMPLETE_SUCCESSFULLY] exactly when it
    sends a completed report that carries no cause, that is, when no
    error ended its [try] block. *)
Theorem X9_analyze_success_marker (sink : Sink) (p : Process)
    (env : Analyze.Env) :
  In (EvExportVariable EnvVar.ANALYZE_DID_COMPLETE_SUCCESSFULLY "true")
     (trace (Analyze.run sink p env)) <->
  exists r,
    In (EvSendStatusReport r) (trace (Analyze.run sink p env)) /\
    isCompletedReport (EvSendStatusReport r) = true /\
    report_cause r = None.
Proof.
  rewrite analyze_marker_normal. split.
  - intros [Hs [u Hu]].
    exists (analyze_successReport p env
              (locals (Analyze.work p env Analyze.initial))).
    split; [|split; [|reflexivity]].
    + rewrite analyze_run_eq, Hs. cbn [trace]. do 2 right.
      apply in_or_app. right. unfold analyze_afterWork. rewrite Hu.
      apply in_or_app. right. right. left. reflexivity.
    + apply isCompletedReport_true. apply getActionsStatus_not_starting.
  - intros [r [Hin [Hcompleted Hcause]]]. apply analyze_reports in Hin.
    destruct Hin as [->|[Hs Hin]]; [discriminate|].
    split; [exact Hs|].
    destruct (completion (Analyze.work p env Analyze.initial)) as [u|e|];
      [exists u; reflexivity| |contradiction].
    subst r. discriminate.
Qed.

(** X10.  When the [expect-error] input is ["true"] and no error ends the
    [try] block of the analyze stage, the stage is running in test mode
    and fails on purpose: the last three things [run] does are to mark
    the process failed because the expected error was not thrown, to
    export the success marker, and to send a completed report that
    carries no cause.  Nothing before that marks the process failed, and
    the exit code is 1. *)
Theorem X10_analyze_expected_error_not_thrown (sink : Sink) (p : Process)
    (env : Analyze.Env) :
  getOptionalInput p "expect-error" = Some "true" ->
  In (EvExportVariable EnvVar.ANALYZE_DID_COMPLETE_SUCCESSFULLY "true")
     (trace (Analyze.run sink p env)) ->
  isInTestMode p = true /\
  exitCode (Analyze.runWrapper sink p env) = 1%Z /\
  exists events r,
    trace (Analyze.run sink p env) =
      events ++
      [EvSetFailed Analyze.EXPECT_ERROR_NOT_THROWN;
       EvExportVariable EnvVar.ANALYZE_DID_COMPLETE_SUCCESSFULLY "true";
       EvSendStatusReport r] /\
    markedFailed events = false /\
    report_cause r = None.
Proof.
  intros Hinput Hmarker. apply analyze_marker_normal in Hmarker.
  destruct Hmarker as [Hs [u Hu]].
  assert (Hexp : expectsError p = true).
  { unfold expectsError. rewrite Hinput. reflexivity. }
  assert (Htrace :
    trace (Analyze.run sink p env) =
      ([EvCall InitializeEnvironment;
        EvSendStatusReport (Analyze.startingReport p)] ++
       emitted (Analyze.work p env Analyze.initial)) ++
      [EvSetFailed Analyze.EXPECT_ERROR_NOT_THROWN;
       EvExportVariable EnvVar.ANALYZE_DID_COMPLETE_SUCCESSFULLY "true";
       EvSendStatusReport
         (analyze_successReport p env
            (locals (Analyze.work p env Analyze.initial)))]).
  { rewrite analyze_run_eq, Hs. cbn [trace]. unfold analyze_afterWork.
    rewrite Hu, Hexp. rewrite <- app_assoc. reflexivity. }
  split; [|split].
  - destruct (isInTestMode p) eqn:Htest; [reflexivity|].
    exfalso.
    assert (Hbad : Analyze.hasBadExpectErrorInput p = true).
    { unfold Analyze.hasBadExpectErrorInput. rewrite Hinput, Htest.
      reflexivity. }
    destruct (analyze_work_bad_expect_error p env Analyze.initial Hbad)
      as [_ [e [He _]]].
    congruence.
  - unfold exitCode, Analyze.runWrapper. rewrite analyze_run_eq.
    cbn [rejected]. rewrite <- analyze_run_eq, Htrace.
    rewrite !markedFailed_app. cbn. rewrite !orb_true_r. reflexivity.
  - eexists _, _. split; [exact Htrace|]. split; [|reflexivity].
    rewrite markedFailed_app,
      (markedFailed_isWork _ (analyze_work_isWork p env _)).
    reflexivity.
Qed.

Lemma X10_witness :
  exitCode (Analyze.runWrapper Sample.accepting
              Sample.process_expecting_error_in_vain Sample.analyzeEnv) = 1%Z.
Proof.
  apply (X10_analyze_expected_error_not_thrown Sample.accepting
           Sample.process_expecting_error_in_vain Sample.analyzeEnv eq_refl).
  vm_compute. repeat (first [left; reflexivity | right]).
Defined.

(** * The [db-locations] output *)

Lemma object_get_set_same o k v :
  object_get (Analyze.object_set o k v) k = Some v.
Proof.
  induction o as [|[k' v'] o IH]; cbn [Analyze.object_set object_get].
  - rewrite String.eqb_refl. reflexivity.
  - destruct (String.eqb k' k) eqn:E; cbn [object_get]; rewrite E;
      [reflexivity|exact IH].
Qed.

Lemma object_get_set_other o k v k' :
  k <> k' -> object_get (Analyze.object_set o k v) k' = object_get o k'.
Proof.
  intros Hne. induction o as [|[k0 v0] o IH];
    cbn [Analyze.object_set object_get].
  - apply String.eqb_neq in Hne. rewrite Hne. reflexivity.
  - destruct (String.eqb k0 k) eqn:E; cbn [object_get].
    + apply String.eqb_eq in E. subst k0.
      apply String.eqb_neq in Hne. rewrite Hne. reflexivity.
    + rewrite IH. reflexivity.
Qed.

Lemma object_set_keys o k v :
  map fst (Analyze.object_set o k v) =
    if existsb (fun k' => String.eqb k' k) (map fst o)
    then map fst o else map fst o ++ [k].
Proof.
  induction o as [|[k' v'] o IH]; cbn [Analyze.object_set map fst existsb];
    [reflexivity|].
  destruct (String.eqb k' k) eqn:E; cbn [map fst orb]; [reflexivity|].
  rewrite IH. destruct (existsb _ (map fst o)); reflexivity.
Qed.

Lemma object_set_NoDup o k v :
  NoDup (map fst o) -> NoDup (map fst (Analyze.object_set o k v)).
Proof.
  intros H. rewrite object_set_keys.
  destruct (existsb (fun k' => String.eqb k' k) (map fst o)) eqn:E;
    [exact H|].
  apply NoDup_app; [exact H|repeat constructor; intros []|].
  intros a Ha [Heq|[]]. subst a.
  assert (Hex : existsb (fun k' => String.eqb k' k) (map fst o) = true).
  { apply existsb_exists. exists k. split; [exact Ha|apply String.eqb_refl]. }
  congruence.
Qed.

Lemma dbLocations_spec (path : Language -> string) (langs : list Language) o :
  NoDup (map fst o) ->
  let result :=
    fold_left (fun o language => Analyze.object_set o language (path language))
      langs o in
  NoDup (map fst result) /\
  forall language,
    object_get result language =
      if JsString.array_includes langs language
      then Some (path language) else object_get o language.
Proof.
  revert o. induction langs as [|x langs IH]; intros o Hnd; cbn [fold_left].
  - split; [exact Hnd|reflexivity].
  - destruct (IH (Analyze.object_set o x (path x)) (object_set_NoDup _ _ _ Hnd))
      as [Hnd' Hget].
    split; [exact Hnd'|]. intros language. cbv zeta in Hget. rewrite Hget.
    unfold JsString.array_includes. cbn [existsb].
    destruct (existsb (String.eqb language) langs); [rewrite orb_true_r; reflexivity|].
    rewrite orb_false_r. destruct (String.eqb language x) eqn:E.
    + apply String.eqb_eq in E. subst x. apply object_get_set_same.
    + apply object_get_set_other. apply String.eqb_neq in E. congruence.
Qed.

(** * Values of a block *)

Section YieldsFacts.
Context {L : Type}.

Lemma yields_ret {A} (P : A -> Prop) (a : A) :
  P a -> yields (ret a : M L A) P.
Proof. intros H l a' Heq. inversion Heq. subst. exact H. Qed.

Lemma yields_throw {A} (P : A -> Prop) e : yields (throw e : M L A) P.
Proof. intros l a Heq. discriminate Heq. Qed.

Lemma yields_any {A} (m : M L A) : yields m (fun _ => True).
Proof. intros l a _. exact I. Qed.

Lemma yields_bind {A B} (P : B -> Prop) (m : M L A) (f : A -> M L B) :
  (forall a, (exists l, completion (m l) = Normal a) -> yields (f a) P) ->
  yields (bind m f) P.
Proof.
  intros Hf l b. unfold bind.
  destruct (m l) as [[a|e|] l1 ev1] eqn:E; try discriminate.
  assert (Hn : exists l, completion (m l) = Normal a).
  { exists l. rewrite E. reflexivity. }
  specialize (Hf a Hn l1 b). destruct (f a l1) as [c2 l2 ev2]. exact Hf.
Qed.

Lemma yields_bind_call {A B} (P : B -> Prop) c (r : Result A)
    (f : A -> M L B) :
  (forall a, r = Ok a -> yields (f a) P) -> yields (bind (call c r) f) P.
Proof.
  intros Hf l b. unfold bind, call. destruct r as [a|e]; [|discriminate].
  specialize (Hf a eq_refl l b). destruct (f a l) as [c2 l2 ev2]. exact Hf.
Qed.

Lemma yields_call {A} (P : A -> Prop) c (r : Result A) :
  (forall a, r = Ok a -> P a) -> yields (call c r : M L A) P.
Proof.
  intros H l a. unfold call. destruct r as [a'|e]; [|discriminate].
  intros Heq. inversion Heq. subst. apply H. reflexivity.
Qed.

End YieldsFacts.

Ltac yields_step :=
  match goal with
  | |- yields (bind (call _ _) _) _ => apply yields_bind_call; intros ? ?
  | |- yields (bind _ _) _ => apply yields_bind; intros ? ?
  | |- yields (throw _) _ => apply yields_throw
  | |- yields (call _ _) _ => apply yields_call; intros ? ?
  | |- yields (ret _) _ => apply yields_ret
  | |- yields (if ?b then _ else _) _ => destruct b eqn:?
  | |- yields (match ?x with _ => _ end) _ => destruct x eqn:?
  | |- yields _ _ => progress cbv beta zeta
  end.

(** What is known once the set-up of the analyze stage has completed. *)
Lemma analyze_setup_yields p env :
  yields (Analyze.setup p env)
    (fun co =>
       getConfig p = Ok (Some (fst co)) /\
       Analyze.hasBadExpectErrorInput p = false /\
       getRequiredInput p "output" = Ok (snd co)).
Proof.
  unfold Analyze.setup. repeat yields_step.
  all: cbn [fst snd]; split; [assumption|]; split; [|assumption];
    match goal with
    | H : exists l, completion ((if ?b then _ else _) l) = Normal _ |- _ =>
        destruct b; [destruct H as [? H]; discriminate H|reflexivity]
    end.
Qed.

Lemma analyze_setup_normal p env a :
  (exists l, completion (Analyze.setup p env l) = Normal a) ->
  getConfig p = Ok (Some (fst a)) /\
  Analyze.hasBadExpectErrorInput p = false /\
  getRequiredInput p "output" = Ok (snd a).
Proof. intros [l H]. exact (analyze_setup_yields p env l a H). Qed.

Lemma analyze_work_db_locations p env :
  invariant
    (always (fun _ : Analyze.Locals => True)
       (fun e => forall v, e = EvSetOutput "db-locations" v ->
          exists c o,
            getConfig p = Ok (Some c) /\
            v = OutObject o /\
            NoDup (map fst o) /\
            forall language,
              object_get o language =
                if JsString.array_includes (languages c) language
                then Some (Analyze.getCodeQLDatabasePath env c language)
                else None))
    (Analyze.work p env).
Proof.
  analyze_invariant
    ltac:(apply always_event; intros ? Heq; first
            [ discriminate Heq | inversion Heq; subst ])
    ltac:(apply always_assign; auto).
  match goal with
  | H : exists l, completion (Analyze.setup _ _ l) = Normal ?a |- _ =>
      destruct (analyze_setup_normal _ _ _ H) as [Hcfg _];
      destruct (dbLocations_spec
                  (Analyze.getCodeQLDatabasePath env (fst a))
                  (languages (fst a)) [] (NoDup_nil _)) as [Hnd Hget];
      exists (fst a); eexists; split; [exact Hcfg|]; split; [reflexivity|];
      split; [exact Hnd|exact Hget]
  end.
Qed.

(** X11.  The [db-locations] output of the analyze stage is an object
    with one property for each language of the configuration and no
    other, each language appearing once however often it is listed; the
    value of a property is the path of the database of its language. *)
Theorem X11_analyze_db_locations (sink : Sink) (p : Process)
    (env : Analyze.Env) (v : OutputValue) :
  In (EvSetOutput "db-locations" v) (trace (Analyze.run sink p env)) ->
  exists c o,
    getConfig p = Ok (Some c) /\
    v = OutObject o /\
    NoDup (map fst o) /\
    forall language,
      object_get o language =
        if JsString.array_includes (languages c) language
        then Some (Analyze.getCodeQLDatabasePath env c language)
        else None.
Proof.
  intros Hin.
  destruct (invariant_always _ _ _ Analyze.initial
              (analyze_work_db_locations p env) I) as [_ HQ].
  apply analyze_run_work_event in Hin; try reflexivity; [|discriminate].
  exact (HQ _ Hin v eq_refl).
Qed.

Lemma X11_witness :
  exists c o,
    getConfig Sample.process = Ok (Some c) /\
    OutObject
      [("java", "/tmp/codeql_databases/java");
       ("go", "/tmp/codeql_databases/go");
       ("python", "/tmp/codeql_databases/python")] = OutObject o /\
    NoDup (map fst o) /\
    forall language,
      object_get o language =
        if JsString.array_includes (languages c) language
        then Some (Analyze.getCodeQLDatabasePath Sample.analyzeEnv c language)
        else None.
Proof.
  apply (X11_analyze_db_locations Sample.accepting Sample.process
           Sample.analyzeEnv).
  vm_compute. repeat (first [left; reflexivity | right]).
Defined.

(** * Go in the analyze stage *)

Lemma analyze_work_go p env :
  invariant
    (always (fun _ : Analyze.Locals => True)
       (fun e =>
          (forall tool, e = EvCall (SafeWhich tool) ->
             tool = "go" /\
             exists wrapper,
               processEnv p EnvVar.GO_BINARY_LOCATION = Some wrapper) /\
          (e = EvWarning Analyze.GO_WHICH_WARNING ->
             exists wrapper found,
               processEnv p EnvVar.GO_BINARY_LOCATION = Some wrapper /\
               Analyze.safeWhich env "go" = Ok found /\
               found <> wrapper) /\
          (forall language, e = EvCall (RunAutobuild language) ->
             language = Language.go /\
             exists c, getConfig p = Ok (Some c) /\ legacyGoWorkflow p env c) /\
          (e = EvWarning Analyze.GO_TRACING_WARNING ->
             processEnv p "CODEQL_EXTRACTOR_GO_BUILD_TRACING" <> None /\
             exists c,
               getConfig p = Ok (Some c) /\
               In Language.go (languages c) /\
               goExtractionOutputExists env c)))
    (Analyze.work p env).
Proof.
  analyze_invariant
    ltac:(apply always_event; (split; [|split; [|split]]);
          [ intros ? Heq; try discriminate Heq
          | intros Heq; try discriminate Heq
          | intros ? Heq; try discriminate Heq
          | intros Heq; try discriminate Heq ])
    ltac:(apply always_assign; auto).
  - inversion Heq. subst. split; [reflexivity|]. eauto.
  - match goal with
    | H : String.eqb _ _ = false |- _ => apply String.eqb_neq in H
    end.
    eexists _, _. split; [reflexivity|]. split; [eassumption|]. congruence.
  - split; [discriminate|].
    match goal with
    | H : exists l, completion (Analyze.setup _ _ l) = Normal ?a |- _ =>
        destruct (analyze_setup_normal _ _ _ H) as [Hcfg _]; exists (fst a)
    end.
    split; [exact Hcfg|].
    split; [|apply doesGoExtractionOutputExist_spec; assumption].
    apply array_includes_spec.
    match goal with
    | H : negb _ = false |- _ => apply negb_false_iff in H; exact H
    end.
  - inversion Heq. subst. split; [reflexivity|].
    match goal with
    | H : exists l, completion (Analyze.setup _ _ l) = Normal ?a |- _ =>
        destruct (analyze_setup_normal _ _ _ H) as [Hcfg _]; exists (fst a)
    end.
    split; [exact Hcfg|]. unfold legacyGoWorkflow.
    rewrite <- array_includes_spec, <- doesGoExtractionOutputExist_spec.
    repeat match goal with
           | H : negb _ = false |- _ => apply negb_false_iff in H
           end.
    split; [assumption|]. split; [|split; [assumption|congruence]].
    intros Htrue. apply strict_eq_spec in Htrue. congruence.
Qed.

(** X12.  The analyze stage looks for the [go] binary, and for no other
    tool, only when the init stage left the location of its wrapper
    script in [CODEQL_ACTION_GO_BINARY]; and it warns about an unexpected
    result for [which go] only when the binary that was found is not
    that wrapper script. *)
Theorem X12_analyze_go_wrapper_check (sink : Sink) (p : Process)
    (env : Analyze.Env) :
  (forall tool,
     In (EvCall (SafeWhich tool)) (trace (Analyze.run sink p env)) ->
     tool = "go" /\
     exists wrapper, processEnv p EnvVar.GO_BINARY_LOCATION = Some wrapper) /\
  (In (EvWarning Analyze.GO_WHICH_WARNING) (trace (Analyze.run sink p env)) ->
   exists wrapper found,
     processEnv p EnvVar.GO_BINARY_LOCATION = Some wrapper /\
     Analyze.safeWhich env "go" = Ok found /\
     found <> wrapper).
Proof.
  destruct (invariant_always _ _ _ Analyze.initial (analyze_work_go p env) I)
    as [_ HQ].
  split.
  - intros tool Hin.
    apply analyze_run_work_event in Hin; try reflexivity; [|discriminate].
    exact (proj1 (HQ _ Hin) tool eq_refl).
  - intros Hin.
    apply analyze_run_work_event in Hin; try reflexivity; [|discriminate].
    exact (proj1 (proj2 (HQ _ Hin)) eq_refl).
Qed.

Lemma X12_witness :
  exists wrapper found,
    processEnv Sample.process_with_go_wrapper EnvVar.GO_BINARY_LOCATION =
      Some wrapper /\
    Analyze.safeWhich Sample.analyzeEnv "go" = Ok found /\
    found <> wrapper.
Proof.
  apply (proj2 (X12_analyze_go_wrapper_check Sample.accepting
                  Sample.process_with_go_wrapper Sample.analyzeEnv)).
  vm_compute. repeat (first [left; reflexivity | right]).
Defined.

(** X13.  The only autobuilder that the analyze stage ever starts is the
    one of Go, and only for a configuration, loaded by the stage, in
    which the legacy Go workflow is detected.  The stage warns that
    [CODEQL_EXTRACTOR_GO_BUILD_TRACING] has no effect only when that
    variable is set, Go is a configured language and extraction output
    for Go exists. *)
Theorem X13_analyze_go_autobuild (sink : Sink) (p : Process)
    (env : Analyze.Env) :
  (forall language,
     In (EvCall (RunAutobuild language)) (trace (Analyze.run sink p env)) ->
     language = Language.go /\
     exists c, getConfig p = Ok (Some c) /\ legacyGoWorkflow p env c) /\
  (In (EvWarning Analyze.GO_TRACING_WARNING) (trace (Analyze.run sink p env)) ->
   processEnv p "CODEQL_EXTRACTOR_GO_BUILD_TRACING" <> None /\
   exists c,
     getConfig p = Ok (Some c) /\
     In Language.go (languages c) /\
     goExtractionOutputExists env c).
Proof.
  destruct (invariant_always _ _ _ Analyze.initial (analyze_work_go p env) I)
    as [_ HQ].
  split.
  - intros language Hin.
    apply analyze_run_work_event in Hin; try reflexivity; [|discriminate].
    exact (proj1 (proj2 (proj2 (HQ _ Hin))) language eq_refl).
  - intros Hin.
    apply analyze_run_work_event in Hin; try reflexivity; [|discriminate].
    exact (proj2 (proj2 (proj2 (HQ _ Hin))) eq_refl).
Qed.

Lemma X13_witness :
  exists c,
    getConfig Sample.process = Ok (Some c) /\
    legacyGoWorkflow Sample.process Sample.analyzeEnv c.
Proof.
  apply (proj1 (X13_analyze_go_autobuild Sample.accepting Sample.process
                  Sample.analyzeEnv) "go").
  vm_compute. repeat (first [left; reflexivity | right]).
Defined.

(** * The upload of the TRAP caches *)














(** * Further properties of the init stage *)

(** The events of the init stage are those of its set-up, of the work of
    its two [try] blocks, the marking of the process and the reports. *)
Lemma init_run_events (sink : Sink) p env (Q : Event -> Prop) :
  (forall r, Q (EvSendStatusReport r)) ->
  (forall msg, Q (EvSetFailed msg)) ->
  (forall e, In e (emitted (Init.preamble p env Init.initial)) -> Q e) ->
  (forall l e, In e (emitted (Init.firstWork p env l)) -> Q e) ->
  (forall c l e,
     (exists l', completion (Init.firstWork p env l') = Normal c) ->
     In e (emitted (Init.secondTry p env c l)) -> Q e) ->
  forall e, In e (trace (Init.run sink p env)) -> Q e.
Proof.
  intros Hrep Hfail Hpre Hfirst Hsecond e. rewrite init_run_eq. cbn [trace].
  intros H. apply in_app_or in H. destruct H as [H|H]; [apply Hpre; exact H|].
  unfold init_afterPreamble in H.
  destruct (completion (Init.preamble p env Init.initial));
    [|contradiction|contradiction].
  destruct H as [<-|H]; [apply Hrep|].
  destruct (sink (Init.startingReport p)); [|contradiction].
  apply in_app_or in H. destruct H as [H|H]; [exact (Hfirst _ _ H)|].
  unfold init_afterFirst in H.
  destruct (completion (Init.firstWork p env _)) as [c|err|] eqn:Hc.
  - apply in_app_or in H. destruct H as [H|H].
    + refine (Hsecond c _ e _ H). eexists. exact Hc.
    + unfold init_afterSecond in H.
      destruct (completion (Init.secondTry p env c _));
        repeat (destruct H as [<-|H]; [auto|]); contradiction.
  - repeat (destruct H as [<-|H]; [auto|]). contradiction.
  - contradiction.
Qed.

Ltac init_block :=
  match goal with
  | |- invariant _ _ =>
      progress unfold Init.preamble, Init.firstWork, Init.secondTry,
        Init.installGoWrapper
  end.

Ltac init_invariant ev st :=
  repeat first [invariant_step ev st | init_block].

(** The value of the first [try] block is the configuration that
    [initConfig] returned. *)
Lemma init_firstWork_yields p env :
  yields (Init.firstWork p env) (fun c => init_config p env = Ok c).
Proof. unfold Init.firstWork. repeat yields_step. assumption. Qed.

Lemma init_firstWork_invariant p env :
  invariant
    (always (fun _ : Init.Locals => True) (init_firstWork_calls p env))
    (Init.firstWork p env).
Proof.
  init_invariant
    ltac:(apply always_event; intros Heq; try discriminate Heq)
    ltac:(apply always_assign; auto).
  match goal with
  | H : Init.initConfig env _ _ = Ok ?c |- _ => exists c; split; [exact H|]
  end.
  repeat match goal with
         | H : String.eqb _ _ = true |- _ => apply String.eqb_eq in H; subst
         end.
  split; [apply array_includes_spec; assumption|].
  split; assumption.
Qed.

Lemma init_secondTry_invariant p env c :
  invariant
    (always (fun _ : Init.Locals => True) (init_secondTry_calls p env c))
    (Init.secondTry p env c).
Proof.
  init_invariant
    ltac:(apply always_event; (split; [|split; [|split; [|split]]]);
          [ intros ? Heq; try discriminate Heq
          | intros Heq; try discriminate Heq
          | intros Heq; try discriminate Heq
          | intros ? Heq; try discriminate Heq
          | intros ? Heq; try discriminate Heq ])
    ltac:(apply always_assign; auto).
  all: repeat match goal with
              | H : _ && _ = true |- _ => apply andb_true_iff in H; destruct H
              | H : JsString.array_includes _ _ = true |- _ =>
                  apply array_includes_spec in H
              end.
  all: try (inversion Heq; subst).
  all: try solve [ repeat split; assumption
                 | split; assumption
                 | assumption
                 | reflexivity
                 | left; reflexivity
                 | right; left; reflexivity
                 | right; split; [reflexivity|congruence]
                 | right; right; repeat split; assumption
                 | match goal with
                   | H : processEnv _ _ = _ |- _ =>
                       rewrite H; first [assumption | reflexivity]
                   end ].
Qed.

Ltac not_emitted Hr :=
  subst; cbn [emitted app]; let Hin := fresh "Hin" in
  intros Hin; exfalso;
  repeat (destruct Hin as [Hin|Hin]; [discriminate Hin|]); exact Hin.

(** The installation of the Python dependencies is the last call of the
    first [try] block, and its failure is turned into a warning. *)
Lemma init_firstWork_python p env l :
  In (EvCall InstallPythonDeps) (emitted (Init.firstWork p env l)) ->
  (exists c, completion (Init.firstWork p env l) = Normal c) /\
  (forall e, Init.installPythonDeps env = Raise e ->
     exists events,
       emitted (Init.firstWork p env l) =
         events ++ [EvCall InstallPythonDeps;
                    EvWarning (message e ++ Init.PYTHON_DEPS_HINT)]) /\
  (forall u, Init.installPythonDeps env = Ok u ->
     exists events,
       emitted (Init.firstWork p env l) = events ++ [EvCall InstallPythonDeps]).
Proof.
  remember (Init.firstWork p env l) as r eqn:Hr. unfold Init.firstWork in Hr.
  next_call Hr. destruct (Init.getDefaultCliVersion env) as [valid|e];
    cbv beta iota in Hr; [|not_emitted Hr].
  unfold bind at 1 in Hr. unfold modify at 1 in Hr. cbv beta iota in Hr.
  next_call Hr. destruct (Init.initCodeQL env) as [tools|e];
    cbv beta iota in Hr; [|not_emitted Hr].
  unfold bind at 1 in Hr. unfold modify at 1 in Hr. cbv beta iota in Hr.
  next_call Hr. destruct (Init.validateWorkflow env) as [[]|e];
    cbv beta iota in Hr; [|not_emitted Hr].
  cbv zeta in Hr.
  next_call Hr. destruct (getRequiredEnvParam p "GITHUB_WORKSPACE") as [ws|e];
    cbv beta iota in Hr; [|not_emitted Hr].
  next_call Hr.
  destruct (Init.initConfig env _ _) as [c|e]; cbv beta iota in Hr;
    [|not_emitted Hr].
  revert Hr. unfold_monad. intros Hr.
  destruct (JsString.array_includes (languages c) Language.python);
    [|not_emitted Hr].
  destruct (getRequiredInput p "setup-python-dependencies") as [setup|e];
    [|not_emitted Hr].
  destruct (String.eqb setup "true"); [|not_emitted Hr].
  destruct (Init.featureGetValue env Init.DISABLE_PYTHON_DEPS) as [[]|e];
    [not_emitted Hr| |not_emitted Hr].
  destruct (Init.installPythonDeps env) as [[]|e]; subst r;
    cbn [completion emitted app]; intros _.
  - split; [eexists; reflexivity|]. split; [discriminate|].
    intros _ _. eexists [_; _; _; _; _; _; _]. reflexivity.
  - split; [eexists; reflexivity|]. split; [|discriminate].
    intros e' He'. inversion He'. subst e'.
    eexists [_; _; _; _; _; _; _]. reflexivity.
Qed.

(** A report of the init stage is the starting report, the report of the
    handler of the first [try] block, or the completed report sent after
    the second. *)
Lemma init_reports (sink : Sink) p env r :
  In (EvSendStatusReport r) (trace (Init.run sink p env)) ->
  r = Init.startingReport p \/
  (exists e,
     completion (Init.firstWork p env
                   (locals (Init.preamble p env Init.initial))) = Throw e /\
     r = init_firstCatchReport p e) \/
  (exists c l error,
     completion (Init.firstWork p env
                   (locals (Init.preamble p env Init.initial))) = Normal c /\
     init_config p env = Ok c /\
     r = init_completedReport p env c l error /\
     (forall e,
        In e (emitted
                (Init.secondTry p env c
                   (locals (Init.firstWork p env
                              (locals (Init.preamble p env Init.initial)))))) ->
        In e (trace (Init.run sink p env))) /\
     match error with
     | Some e =>
         completion
           (Init.secondTry p env c
              (locals (Init.firstWork p env
                         (locals (Init.preamble p env Init.initial))))) =
         Throw e
     | None =>
         completion
           (Init.secondTry p env c
              (locals (Init.firstWork p env
                         (locals (Init.preamble p env Init.initial))))) =
         Normal tt
     end).
Proof.
  intros H.
  assert (Hin : forall c e,
            sink (Init.startingReport p) = true ->
            (exists u, completion (Init.preamble p env Init.initial) = Normal u) ->
            completion (Init.firstWork p env
                          (locals (Init.preamble p env Init.initial))) =
              Normal c ->
            In e (emitted
                    (Init.secondTry p env c
                       (locals (Init.firstWork p env
                                  (locals (Init.preamble p env Init.initial)))))) ->
            In e (trace (Init.run sink p env))).
  { intros c e Hs [u Hu] Hc He. rewrite init_run_eq. cbn [trace].
    apply in_or_app. right. unfold init_afterPreamble. rewrite Hu, Hs.
    right. apply in_or_app. right. unfold init_afterFirst. rewrite Hc.
    apply in_or_app. left. exact He. }
  rewrite init_run_eq in H. cbn [trace] in H. apply in_app_or in H.
  destruct H as [H|H].
  { exfalso. exact (isWork_not_report _ _ (init_preamble_isWork p env _) H). }
  unfold init_afterPreamble in H.
  destruct (completion (Init.preamble p env Init.initial)) as [u|e|] eqn:Hu;
    [|contradiction|contradiction].
  destruct H as [H|H]; [left; congruence|].
  destruct (sink (Init.startingReport p)) eqn:Hs; [|contradiction].
  apply in_app_or in H. destruct H as [H|H].
  { exfalso. exact (isWork_not_report _ _ (init_firstWork_isWork p env _) H). }
  right. unfold init_afterFirst in H.
  destruct (completion (Init.firstWork p env _)) as [c|e|] eqn:Hc;
    [| |contradiction].
  - right. apply in_app_or in H. destruct H as [H|H].
    { exfalso.
      exact (isWork_not_report _ _ (init_secondTry_isWork p env c _) H). }
    unfold init_afterSecond in H.
    pose proof (init_firstWork_yields p env _ _ Hc) as Hcfg.
    destruct (completion (Init.secondTry p env c _)) as [[]|e|] eqn:Hc2;
      [| |contradiction].
    + destruct H as [H|[]]. inversion H. subst r.
      exists c. eexists. exists None.
      split; [reflexivity|]. split; [exact Hcfg|]. split; [reflexivity|].
      split; [|exact Hc2].
      intros e He. apply (Hin c e eq_refl); [exists u; reflexivity| |exact He].
      reflexivity.
    + destruct H as [H|[H|[]]]; [discriminate|]. inversion H. subst r.
      exists c. eexists. exists (Some e).
      split; [reflexivity|]. split; [exact Hcfg|]. split; [reflexivity|].
      split; [|exact Hc2].
      intros e' He. apply (Hin c e' eq_refl); [exists u; reflexivity| |exact He].
      reflexivity.
  - left. destruct H as [H|[H|[]]]; [discriminate|]. inversion H.
    exists e. split; reflexivity.
Qed.

Lemma init_run_firstWork_event (sink : Sink) p env e :
  In e (emitted (Init.firstWork p env
                   (locals (Init.preamble p env Init.initial)))) ->
  sink (Init.startingReport p) = true ->
  (exists u, completion (Init.preamble p env Init.initial) = Normal u) ->
  In e (trace (Init.run sink p env)).
Proof.
  intros Hin Hs [u Hu]. rewrite init_run_eq. cbn [trace].
  apply in_or_app. right. unfold init_afterPreamble. rewrite Hu, Hs.
  right. apply in_or_app. left. exact Hin.
Qed.

(** The call of [installPythonDeps] in a trace of the init stage is made
    by the first [try] block. *)
Lemma init_run_python (sink : Sink) p env :
  In (EvCall InstallPythonDeps) (trace (Init.run sink p env)) ->
  In (EvCall InstallPythonDeps)
     (emitted (Init.firstWork p env
                 (locals (Init.preamble p env Init.initial)))) /\
  sink (Init.startingReport p) = true /\
  exists u, completion (Init.preamble p env Init.initial) = Normal u.
Proof.
  assert (Hpre : plain (fun e => negb (isCall InstallPythonDeps e))
                   (Init.preamble p env)).
  { unfold Init.preamble. plain_auto. }
  assert (Hsecond : forall c,
            plain (fun e => negb (isCall InstallPythonDeps e))
              (Init.secondTry p env c)).
  { intros c. unfold Init.secondTry, Init.installGoWrapper. plain_auto. }
  assert (Hno : forall A (m : M Init.Locals A) l,
            plain (fun e => negb (isCall InstallPythonDeps e)) m ->
            ~ In (EvCall InstallPythonDeps) (emitted (m l))).
  { intros A m l Hm Hin. destruct (Hm l) as [Hall _].
    rewrite forallb_forall in Hall. apply Hall in Hin.
    rewrite isCall_refl in Hin. discriminate. }
  rewrite init_run_eq. cbn [trace]. intros H. apply in_app_or in H.
  destruct H as [H|H]; [exfalso; exact (Hno _ _ _ Hpre H)|].
  unfold init_afterPreamble in H.
  destruct (completion (Init.preamble p env Init.initial)) as [u|e|];
    [|contradiction|contradiction].
  destruct H as [H|H]; [discriminate|].
  destruct (sink (Init.startingReport p)); [|contradiction].
  apply in_app_or in H. destruct H as [H|H].
  { split; [exact H|]. split; [reflexivity|]. exists u. reflexivity. }
  exfalso. unfold init_afterFirst in H.
  destruct (completion (Init.firstWork p env _)) as [c|e|].
  - apply in_app_or in H. destruct H as [H|H];
      [exact (Hno _ _ _ (Hsecond c) H)|].
    unfold init_afterSecond in H.
    destruct (completion (Init.secondTry p env c _));
      repeat (destruct H as [H|H]; [discriminate|]); exact H.
  - repeat (destruct H as [H|H]; [discriminate|]). exact H.
  - exact H.
Qed.

(** X15.  The init stage installs the Python dependencies only when
    Python is a language of the configuration that [initConfig]
    returned, the [setup-python-dependencies] input is ["true"] and the
    feature flag that disables the installation is off.  A failure of
    the installation does not fail the stage: the first [try] block
    still completes with the configuration, the error's message followed
    by the hint about [setup-python-dependencies] is logged as a
    warning, and no report of the stage has status [aborted]. *)
Theorem X15_init_python_dependencies (sink : Sink) (p : Process)
    (env : Init.Env) :
  In (EvCall InstallPythonDeps) (trace (Init.run sink p env)) ->
  (exists c,
     init_config p env = Ok c /\
     In Language.python (languages c) /\
     getRequiredInput p "setup-python-dependencies" = Ok "true" /\
     Init.featureGetValue env Init.DISABLE_PYTHON_DEPS = Ok false /\
     completion (Init.firstWork p env
                   (locals (Init.preamble p env Init.initial))) = Normal c) /\
  (forall e, Init.installPythonDeps env = Raise e ->
     In (EvWarning (message e ++ Init.PYTHON_DEPS_HINT))
        (trace (Init.run sink p env))) /\
  (forall r, In (EvSendStatusReport r) (trace (Init.run sink p env)) ->
     report_status r <> aborted).
Proof.
  intros Hin. apply init_run_python in Hin.
  destruct Hin as [Hin [Hs Hpre]].
  destruct (init_firstWork_python p env _ Hin) as [[c Hc] [Hraise _]].
  destruct (invariant_always _ _ _
              (locals (Init.preamble p env Init.initial))
              (init_firstWork_invariant p env) I) as [_ HQ].
  destruct (HQ _ Hin eq_refl) as [c' [Hcfg [Hpy [Hsetup Hflag]]]].
  pose proof (init_firstWork_yields p env _ _ Hc) as Hcfg'.
  assert (c' = c) by congruence. subst c'.
  split; [|split].
  - exists c. repeat split; assumption.
  - intros e He. destruct (Hraise e He) as [events Hev].
    apply init_run_firstWork_event; [|exact Hs|exact Hpre].
    rewrite Hev. apply in_or_app. right. right. left. reflexivity.
  - intros r Hr. apply init_reports in Hr.
    destruct Hr as [->|[[e [He _]]|[c' [l [error [_ [_ [-> _]]]]]]]].
    + discriminate.
    + congruence.
    + rewrite init_completedReport_status.
      destruct error as [e|]; cbn; [destruct (isUserError e)|]; discriminate.
Qed.

Lemma X15_witness :
  In (EvWarning (message Sample.pipError ++ Init.PYTHON_DEPS_HINT))
     (trace (Init.run Sample.accepting Sample.process
               Sample.initEnv_python_deps_fail)).
Proof.
  assert (Hcalled : In (EvCall InstallPythonDeps)
                      (trace (Init.run Sample.accepting Sample.process
                                Sample.initEnv_python_deps_fail))).
  { vm_compute. repeat (first [left; reflexivity | right]). }
  apply (proj1 (proj2 (X15_init_python_dependencies Sample.accepting
                         Sample.process Sample.initEnv_python_deps_fail
                         Hcalled))
           Sample.pipError eq_refl).
Defined.

Ltac wrapper_fails tac :=
  cbn [completion locals emitted app];
  split; [reflexivity|]; split; [reflexivity|];
  split;
  [ let path := fresh "path" in let Hin := fresh "Hin" in
    intros path; split;
    [ intros Hin; exfalso;
      repeat (destruct Hin as [Hin|Hin]; [discriminate Hin|]); exact Hin
    | tac ]
  | cbn; first [discriminate | intros _; reflexivity] ].

(** X16.  Installing the wrapper script for a statically linked [go]
    never fails the init stage: whatever its collaborators do, the block
    completes normally and leaves the variables of [run] as they were.
    It exports [CODEQL_ACTION_GO_BINARY] exactly when [go] was found, its
    file type includes "statically linked", and the directory, the
    script and its permissions were all set up, and the value is the
    path of the script in the temporary [bin] directory; when it logs a
    warning instead, the variable is not exported. *)
Theorem X16_init_go_wrapper (env : Init.Env) (l : Init.Locals) :
  completion (Init.installGoWrapper env l) = Normal tt /\
  locals (Init.installGoWrapper env l) = l /\
  (forall path,
     In (EvExportVariable EnvVar.GO_BINARY_LOCATION path)
        (emitted (Init.installGoWrapper env l)) <->
     path = path_join [Init.tempBinPath env; "go"] /\
     exists goBinaryPath fileOutput,
       Init.safeWhich env "go" = Ok goBinaryPath /\
       Init.getFileType env goBinaryPath = Ok fileOutput /\
       JsString.includes fileOutput "statically linked" = true /\
       Init.mkdirSync env (Init.tempBinPath env) = Ok tt /\
       Init.writeFileSync env path = Ok tt /\
       Init.chmodSync env path = Ok tt) /\
  (existsb isWarning (emitted (Init.installGoWrapper env l)) = true ->
   existsb isExportVariable (emitted (Init.installGoWrapper env l)) = false).
Proof.
  unfold Init.installGoWrapper. unfold_monad.
  destruct (Init.safeWhich env "go") as [goBinaryPath|e1] eqn:H1.
  2: { wrapper_fails ltac:(intros [_ [g [f [Hg _]]]]; discriminate Hg). }
  destruct (Init.getFileType env goBinaryPath) as [fileOutput|e2] eqn:H2.
  2: { wrapper_fails ltac:(intros [_ [g [f [Hg [Hf _]]]]]; congruence). }
  destruct (JsString.includes fileOutput "statically linked") eqn:H3.
  2: { wrapper_fails ltac:(intros [_ [g [f [Hg [Hf [Hi _]]]]]]; congruence). }
  destruct (Init.mkdirSync env (Init.tempBinPath env)) as [[]|e4] eqn:H4.
  2: { wrapper_fails
         ltac:(intros [_ [g [f [_ [_ [_ [Hm _]]]]]]]; discriminate Hm). }
  destruct (Init.writeFileSync env (path_join [Init.tempBinPath env; "go"]))
    as [[]|e5] eqn:H5.
  2: { wrapper_fails
         ltac:(intros [-> [g [f [_ [_ [_ [_ [Hw _]]]]]]]]; congruence). }
  destruct (Init.chmodSync env (path_join [Init.tempBinPath env; "go"]))
    as [[]|e6] eqn:H6.
  2: { wrapper_fails
         ltac:(intros [-> [g [f [_ [_ [_ [_ [_ Hc]]]]]]]]; congruence). }
  cbn [completion locals emitted app].
  split; [reflexivity|]. split; [reflexivity|]. split; [|discriminate].
  intros path. split.
  - intros Hin.
    destruct Hin as [H|[H|[H|[H|[H|[H|[H|[]]]]]]]]; try discriminate H.
    inversion H. subst path. split; [reflexivity|].
    exists goBinaryPath, fileOutput. repeat split; assumption.
  - intros [-> _]. do 6 right. left. reflexivity.
Qed.

Lemma init_secondTry_exports p env c :
  invariant
    (always (fun _ : Init.Locals => True)
       (fun e => forall name value, e = EvExportVariable name value ->
          init_export p env c name value))
    (Init.secondTry p env c).
Proof.
  init_invariant
    ltac:(apply always_event; intros ? ? Heq; first
            [ discriminate Heq | inversion Heq; subst ])
    ltac:(apply always_assign; auto).
  all: repeat match goal with
              | H : _ && _ = true |- _ => apply andb_true_iff in H; destruct H
              | H : JsString.array_includes _ _ = true |- _ =>
                  apply array_includes_spec in H
              end.
  - apply export_goflags; [assumption|]. intros ->. discriminate.
  - apply export_go_binary; assumption.
  - match goal with
    | H : exists l, completion _ = Normal _ |- _ => destruct H as [l Hram]
    end.
    destruct (processEnv p "CODEQL_RAM") as [v|] eqn:Henv;
      [destruct (JsString.truthy (Some v)) eqn:Htruthy|];
      unfold ret, call in Hram.
    + inversion Hram. subst.
      apply export_ram_from_environment; [assumption|].
      intros ->. discriminate.
    + destruct (Init.getMemoryFlagValue env) eqn:Hflag; inversion Hram. subst.
      apply export_ram_from_flag; [rewrite Henv; exact Htruthy|exact Hflag].
    + destruct (Init.getMemoryFlagValue env) eqn:Hflag; inversion Hram. subst.
      apply export_ram_from_flag; [rewrite Henv; reflexivity|exact Hflag].
  - apply export_threads; assumption.
  - apply export_disable_kotlin; assumption.
  - match goal with
    | H : exists l, completion _ = Normal _ |- _ => destruct H as [l Hlimit]
    end.
    match goal with
    | H' : Init.codeQlVersionAbove env "2.13.4" = Ok ?a |- _ =>
        destruct a; [|discriminate Hlimit]
    end.
    unfold bind, call, ret in Hlimit.
    destruct (Init.codeQlVersionAbove env "2.14.4") as [[]|] eqn:Habove;
      try discriminate Hlimit.
    apply export_kotlin_limit; assumption.
  - apply (export_lombok p env c true); assumption.
  - apply (export_lombok p env c false); assumption.
  - apply export_disable_python_libraries; assumption.
  - match goal with
    | H : Init.runInit env = Ok (Some ?entries), x : string * string |- _ =>
        apply (export_tracer p env c entries); [exact H|destruct x; assumption]
    end.
Qed.

Lemma init_preamble_exports p env :
  invariant
    (always (fun _ : Init.Locals => True)
       (fun e => forall name value, e = EvExportVariable name value ->
          name = EnvVar.JOB_RUN_UUID /\ value = Init.uuidV4 env))
    (Init.preamble p env).
Proof.
  init_invariant
    ltac:(apply always_event; intros ? ? Heq; first
            [ discriminate Heq | inversion Heq; subst; split; reflexivity ])
    ltac:(apply always_assign; auto).
Qed.

Lemma init_firstWork_exports_nothing p env :
  invariant
    (always (fun _ : Init.Locals => True)
       (fun e => isExportVariable e = false))
    (Init.firstWork p env).
Proof.
  init_invariant
    ltac:(apply always_event; reflexivity)
    ltac:(apply always_assign; auto).
Qed.

(** X17.  Every environment variable that the init stage exports is the
    identifier of the job run, exported by the set-up, or one of the
    variables of its second [try] block under the condition of that
    block: [GOFLAGS] when it is set and not empty; the location of the
    Go wrapper script; [CODEQL_RAM] from the environment when it is set
    there, otherwise from [getMemoryFlagValue]; [CODEQL_THREADS]; the
    variable that disables Kotlin when its feature flag is on; the
    Kotlin version limit for a CLI above 2.13.4 and not above 2.14.4;
    the Lombok variable, for Java, when it is not already set, with the
    value of its feature flag; the variable that disables the library
    extraction of Python when its feature flag is on; and the entries of
    the tracer configuration that [runInit] returned. *)
Theorem X17_init_exported_variables (sink : Sink) (p : Process)
    (env : Init.Env) (name value : string) :
  In (EvExportVariable name value) (trace (Init.run sink p env)) ->
  (name = EnvVar.JOB_RUN_UUID /\ value = Init.uuidV4 env) \/
  exists c, init_config p env = Ok c /\ init_export p env c name value.
Proof.
  intros Hin.
  refine (init_run_events sink p env
            (fun e => forall name value, e = EvExportVariable name value ->
               (name = EnvVar.JOB_RUN_UUID /\ value = Init.uuidV4 env) \/
               exists c,
                 init_config p env = Ok c /\ init_export p env c name value)
            _ _ _ _ _ _ Hin name value eq_refl).
  - discriminate.
  - discriminate.
  - intros e He n v Heq. left.
    exact (proj2 (invariant_always _ _ _ Init.initial
                    (init_preamble_exports p env) I) e He n v Heq).
  - intros l e He n v Heq. exfalso.
    pose proof (proj2 (invariant_always _ _ _ l
                         (init_firstWork_exports_nothing p env) I) e He) as H.
    subst e. discriminate H.
  - intros c l e [l' Hc] He n v Heq. right. exists c.
    split; [exact (init_firstWork_yields p env l' c Hc)|].
    exact (proj2 (invariant_always _ _ _ l
                    (init_secondTry_exports p env c) I) e He n v Heq).
Qed.

Lemma X17_witness :
  (EnvVar.GO_BINARY_LOCATION = EnvVar.JOB_RUN_UUID /\
   "/tmp/bin/go" = Init.uuidV4 Sample.initEnv) \/
  exists c,
    init_config Sample.process Sample.initEnv = Ok c /\
    init_export Sample.process Sample.initEnv c EnvVar.GO_BINARY_LOCATION
      "/tmp/bin/go".
Proof.
  apply (X17_init_exported_variables Sample.accepting Sample.process
           Sample.initEnv).
  vm_compute. repeat (first [left; reflexivity | right]).
Defined.

Lemma init_blocks_conditional_calls p env :
  invariant (always (fun _ : Init.Locals => True) (init_conditional_call p env))
    (Init.preamble p env) /\
  invariant (always (fun _ : Init.Locals => True) (init_conditional_call p env))
    (Init.firstWork p env).
Proof.
  split;
    init_invariant
      ltac:(apply always_event; (split; [|split; [|split]]);
            [ intros ? Heq; discriminate Heq
            | intros Heq; discriminate Heq
            | intros Heq; discriminate Heq
            | intros Heq; discriminate Heq ])
      ltac:(apply always_assign; auto).
Qed.

(** X18.  The init stage consults a collaborator only when its answer is
    needed: it looks for the [go] binary only on Linux with Go among the
    languages of the configuration; it computes the memory flag only
    when [CODEQL_RAM] is unset or empty; it asks whether the CLI is
    above 2.14.4 only when it is above 2.13.4; and it reads the Lombok
    feature flag only for Java and only when the Lombok variable is not
    already set. *)
Theorem X18_init_conditional_calls (sink : Sink) (p : Process)
    (env : Init.Env) (e : Event) :
  In e (trace (Init.run sink p env)) -> init_conditional_call p env e.
Proof.
  intros Hin.
  refine (init_run_events sink p env (init_conditional_call p env)
            _ _ _ _ _ e Hin).
  - intros r. split; [intros ? Heq; discriminate Heq|].
    split; [intros Heq; discriminate Heq|].
    split; intros Heq; discriminate Heq.
  - intros msg. split; [intros ? Heq; discriminate Heq|].
    split; [intros Heq; discriminate Heq|].
    split; intros Heq; discriminate Heq.
  - intros e' He'.
    exact (proj2 (invariant_always _ _ _ Init.initial
                    (proj1 (init_blocks_conditional_calls p env)) I) e' He').
  - intros l e' He'.
    exact (proj2 (invariant_always _ _ _ l
                    (proj2 (init_blocks_conditional_calls p env)) I) e' He').
  - intros c l e' [l' Hc] He'.
    pose proof (init_firstWork_yields p env l' c Hc) as Hcfg.
    destruct (proj2 (invariant_always _ _ _ l
                       (init_secondTry_invariant p env c) I) e' He')
      as [Hwhich [_ [Hram [Habove Hfeature]]]].
    split; [|split; [|split]].
    + intros tool Heq. destruct (Hwhich tool Heq) as [-> [Hgo Hlinux]].
      split; [reflexivity|]. split; [exact Hlinux|]. exists c. split; assumption.
    + exact Hram.
    + intros Heq. destruct (Habove _ Heq) as [Habs|[_ H]];
        [discriminate Habs|exact H].
    + intros Heq.
      destruct (Hfeature _ Heq) as [Habs|[Habs|[_ [Hjava Hvar]]]];
        try discriminate Habs.
      split; [exact Hvar|]. exists c. split; assumption.
Qed.

Lemma X18_witness :
  init_conditional_call Sample.process Sample.initEnv
    (EvCall (CodeQlVersionAbove "2.14.4")).
Proof.
  apply (X18_init_conditional_calls Sample.accepting Sample.process
           Sample.initEnv).
  vm_compute. repeat (first [left; reflexivity | right]).
Defined.

(** * The end of the init stage *)

Lemma forallb_negb_existsb (P : Event -> bool) (t : Trace) :
  forallb (fun e => negb (P e)) t = true -> existsb P t = false.
Proof.
  induction t as [|e t IH]; cbn [forallb existsb]; [reflexivity|].
  destruct (P e); cbn; [discriminate|exact IH].
Qed.

Lemma finishes_emit {L} (P : Event -> bool) ev :
  P ev = true -> finishes P (emit ev : M L unit).
Proof.
  intros H l. cbn. rewrite H. split; [eexists; reflexivity|reflexivity].
Qed.

Lemma finishes_bind {L A B} (P : Event -> bool) (m : M L A) (f : A -> M L B) :
  plain (fun e => negb (P e)) m -> (forall a, finishes P (f a)) ->
  finishes P (bind m f).
Proof.
  intros Hm Hf l. unfold bind. destruct (Hm l) as [Hall Hret].
  apply forallb_negb_existsb in Hall.
  destruct (m l) as [[a|e|] l1 ev1]; cbn [emitted completion] in *.
  - specialize (Hf a l1). destruct (f a l1) as [c2 l2 ev2].
    cbn [emitted completion] in *. rewrite existsb_app, Hall. exact Hf.
  - rewrite Hall. split; [discriminate|]. intros [a Ha]. discriminate Ha.
  - congruence.
Qed.

Ltac finishes_step :=
  match goal with
  | |- finishes _ (bind _ _) => apply finishes_bind; [plain_auto|intro]
  | |- finishes _ (emit _) => apply finishes_emit; reflexivity
  | |- finishes _ (if ?b then _ else _) => destruct b eqn:?
  | |- finishes _ (match ?x with _ => _ end) => destruct x eqn:?
  | |- finishes _ _ => progress cbv beta zeta
  end.

(** The [codeql-path] output is the last thing that the second [try]
    block does. *)
Lemma init_secondTry_finishes p env c :
  finishes (isOutput "codeql-path") (Init.secondTry p env c).
Proof.
  unfold Init.secondTry, Init.installGoWrapper. repeat finishes_step.
Qed.

Lemma init_secondTry_outputs p env c :
  invariant
    (always (fun _ : Init.Locals => True)
       (fun e => forall name value, e = EvSetOutput name value ->
          name = "codeql-path" /\ value = OutString (codeQLCmd c)))
    (Init.secondTry p env c).
Proof.
  init_invariant
    ltac:(apply always_event; intros ? ? Heq; first
            [ discriminate Heq | inversion Heq; subst; split; reflexivity ])
    ltac:(apply always_assign; auto).
Qed.

Lemma init_blocks_output_nothing p env :
  invariant
    (always (fun _ : Init.Locals => True)
       (fun e => forall name value, e <> EvSetOutput name value))
    (Init.preamble p env) /\
  invariant
    (always (fun _ : Init.Locals => True)
       (fun e => forall name value, e <> EvSetOutput name value))
    (Init.firstWork p env).
Proof.
  split;
    init_invariant
      ltac:(apply always_event; intros ? ?; discriminate)
      ltac:(apply always_assign; auto).
Qed.

(** X19.  The init stage sets an output only at the very end of its
    second [try] block: the only output is [codeql-path], its value is
    the path of the CodeQL command of the configuration that
    [initConfig] returned, and it is set exactly when the stage sends a
    report with status [success]. *)
Theorem X19_init_codeql_path_output (sink : Sink) (p : Process)
    (env : Init.Env) :
  (forall name value,
     In (EvSetOutput name value) (trace (Init.run sink p env)) ->
     name = "codeql-path" /\
     exists c, init_config p env = Ok c /\ value = OutString (codeQLCmd c)) /\
  ((exists value,
      In (EvSetOutput "codeql-path" value) (trace (Init.run sink p env))) <->
   (exists r,
      In (EvSendStatusReport r) (trace (Init.run sink p env)) /\
      report_status r = success)).
Proof.
  assert (Hout : forall name value,
            In (EvSetOutput name value) (trace (Init.run sink p env)) ->
            name = "codeql-path" /\
            exists c,
              init_config p env = Ok c /\ value = OutString (codeQLCmd c)).
  { intros name value Hin.
    refine (init_run_events sink p env
              (fun e => forall name value, e = EvSetOutput name value ->
                 name = "codeql-path" /\
                 exists c,
                   init_config p env = Ok c /\
                   value = OutString (codeQLCmd c))
              _ _ _ _ _ _ Hin name value eq_refl).
    - discriminate.
    - discriminate.
    - intros e He n v Heq. exfalso.
      exact (proj2 (invariant_always _ _ _ Init.initial
                      (proj1 (init_blocks_output_nothing p env)) I)
               e He n v Heq).
    - intros l e He n v Heq. exfalso.
      exact (proj2 (invariant_always _ _ _ l
                      (proj2 (init_blocks_output_nothing p env)) I)
               e He n v Heq).
    - intros c l e [l' Hc] He n v Heq.
      destruct (proj2 (invariant_always _ _ _ l
                         (init_secondTry_outputs p env c) I) e He n v Heq)
        as [-> ->].
      split; [reflexivity|]. exists c.
      split; [exact (init_firstWork_yields p env l' c Hc)|reflexivity]. }
  split; [exact Hout|]. split.
  - intros [value Hin].
    pose proof Hin as Hin'. rewrite init_run_eq in Hin'. cbn [trace] in Hin'.
    assert (Hsilent : forall A (m : M Init.Locals A) l name v,
              invariant
                (always (fun _ : Init.Locals => True)
                   (fun e => forall name value, e <> EvSetOutput name value))
                m ->
              ~ In (EvSetOutput name v) (emitted (m l))).
    { intros A m l name v Hm H.
      exact (proj2 (invariant_always _ _ _ l Hm I) _ H name v eq_refl). }
    apply in_app_or in Hin'. destruct Hin' as [H|H].
    { exfalso. revert H. apply Hsilent.
      exact (proj1 (init_blocks_output_nothing p env)). }
    unfold init_afterPreamble in H.
    destruct (completion (Init.preamble p env Init.initial)) as [u|e|] eqn:Hu;
      [|contradiction|contradiction].
    destruct H as [H|H]; [discriminate|].
    destruct (sink (Init.startingReport p)) eqn:Hs; [|contradiction].
    apply in_app_or in H. destruct H as [H|H].
    { exfalso. revert H. apply Hsilent.
      exact (proj2 (init_blocks_output_nothing p env)). }
    unfold init_afterFirst in H.
    destruct (completion (Init.firstWork p env _)) as [c|e|] eqn:Hc.
    2: { exfalso. repeat (destruct H as [H|H]; [discriminate|]). exact H. }
    2: contradiction.
    assert (Hn : exists a,
              completion
                (Init.secondTry p env c
                   (locals (Init.firstWork p env
                              (locals (Init.preamble p env Init.initial))))) =
              Normal a).
    { apply in_app_or in H. destruct H as [H|H].
      - apply (init_secondTry_finishes p env c). apply existsb_exists.
        exists (EvSetOutput "codeql-path" value). split; [exact H|reflexivity].
      - exfalso. unfold init_afterSecond in H.
        destruct (completion (Init.secondTry p env c _));
          repeat (destruct H as [H|H]; [discriminate|]); exact H. }
    destruct Hn as [[] Hn].
    exists (init_completedReport p env c
              (locals (Init.secondTry p env c
                         (locals (Init.firstWork p env
                                    (locals (Init.preamble p env
                                               Init.initial))))))
              None).
    split; [|reflexivity].
    rewrite init_run_eq. cbn [trace]. apply in_or_app. right.
    unfold init_afterPreamble. rewrite Hu, Hs. right.
    apply in_or_app. right. unfold init_afterFirst. rewrite Hc.
    apply in_or_app. right. unfold init_afterSecond. rewrite Hn.
    left. reflexivity.
  - intros [r [Hin Hst]]. apply init_reports in Hin.
    destruct Hin as [->|[[e [_ ->]]|[c [l [error [_ [_ [-> [Hsecond Hc2]]]]]]]]].
    + discriminate Hst.
    + rewrite init_firstCatchReport_status in Hst.
      destruct (isUserError e); discriminate Hst.
    + destruct error as [e|].
      { rewrite init_completedReport_status, getActionsStatus_error in Hst.
        destruct (isUserError e); discriminate Hst. }
      assert (Hex : existsb (isOutput "codeql-path")
                      (emitted
                         (Init.secondTry p env c
                            (locals (Init.firstWork p env
                                       (locals (Init.preamble p env
                                                  Init.initial)))))) = true).
      { apply (init_secondTry_finishes p env c). exists tt. exact Hc2. }
      apply existsb_exists in Hex. destruct Hex as [e [He HP]].
      destruct e as [| | | |name value| |]; try discriminate HP.
      cbn in HP. apply String.eqb_eq in HP. subst name.
      exists value. apply Hsecond. exact He.
Qed.

Lemma X19_witness :
  "codeql-path" = "codeql-path" /\
  exists c,
    init_config Sample.process Sample.initEnv = Ok c /\
    OutString "/opt/codeql/codeql" = OutString (codeQLCmd c).
Proof.
  apply (proj1 (X19_init_codeql_path_output Sample.accepting Sample.process
                  Sample.initEnv)).
  vm_compute. repeat (first [left; reflexivity | right]).
Defined.

(** X20.  The init stage reports [aborted] only for an error of its
    first [try] block, and that report carries no field of the
    configuration; it reports [failure] only for an error of its second
    [try] block, after [initConfig] has returned, and that report carries
    the languages of the configuration.  Either report carries the
    message of the error as its cause. *)
Theorem X20_init_aborted_or_failure (sink : Sink) (p : Process)
    (env : Init.Env) (r : StatusReport) :
  In (EvSendStatusReport r) (trace (Init.run sink p env)) ->
  (report_status r = aborted ->
   report_config_fields r = None /\
   exists e,
     completion (Init.firstWork p env
                   (locals (Init.preamble p env Init.initial))) = Throw e /\
     report_cause r = Some (message e)) /\
  (report_status r = failure ->
   exists c e fields,
     init_config p env = Ok c /\
     completion
       (Init.secondTry p env c
          (locals (Init.firstWork p env
                     (locals (Init.preamble p env Init.initial))))) =
     Throw e /\
     report_cause r = Some (message e) /\
     report_config_fields r = Some fields /\
     report_languages fields = JsString.join "," (languages c)).
Proof.
  intros Hin. apply init_reports in Hin.
  destruct Hin as [->|[[e [He ->]]|[c [l [error [_ [Hcfg [-> [_ Hc2]]]]]]]]].
  - split; discriminate.
  - split.
    + intros _. split; [reflexivity|]. exists e. split; [exact He|reflexivity].
    + rewrite init_firstCatchReport_status.
      destruct (isUserError e); discriminate.
  - rewrite init_completedReport_status. split.
    + destruct error as [e|]; cbn; [destruct (isUserError e)|]; discriminate.
    + destruct error as [e|]; [|discriminate]. intros _.
      exists c, e. eexists. split; [exact Hcfg|]. split; [exact Hc2|].
      split; [reflexivity|]. split; reflexivity.
Qed.

Lemma X20_witness :
  report_config_fields
    (init_firstCatchReport Sample.process Sample.configError) = None.
Proof.
  assert (Hsent : In (EvSendStatusReport
                        (init_firstCatchReport Sample.process
                           Sample.configError))
                     (trace (Init.run Sample.accepting Sample.process
                               Sample.initEnv_config_fails))).
  { vm_compute. repeat (first [left; reflexivity | right]). }
  apply (proj1 (X20_init_aborted_or_failure Sample.accepting Sample.process
                  Sample.initEnv_config_fails _ Hsent)).
  reflexivity.
Defined.

(** X21.  When the set-up that precedes the first [try] block of the
    init stage throws, [run] rejects with that error: nothing but the
    calls of the set-up has happened (no report is sent, no variable is
    exported), the wrapper marks the process failed with "init action
    failed: " followed by the error's message and then checks for the
    timeout, and the exit code is 1. *)
Theorem X21_init_setup_failure (sink : Sink) (p : Process) (env : Init.Env)
    (e : Error) :
  completion (Init.preamble p env Init.initial) = Throw e ->
  rejected (Init.run sink p env) = Some e /\
  Init.runWrapper sink p env =
    emitted (Init.preamble p env Init.initial) ++
    [EvSetFailed ("init action failed: " ++ message e);
     EvCall CheckForTimeout] /\
  (forall ev, In ev (emitted (Init.preamble p env Init.initial)) ->
     exists c, ev = EvCall c) /\
  exitCode (Init.runWrapper sink p env) = 1%Z.
Proof.
  intros He.
  assert (Hfin : finishes isExportVariable (Init.preamble p env)).
  { unfold Init.preamble. repeat finishes_step. }
  assert (Hplain : plain (fun ev => match ev with
                                    | EvCall _ | EvExportVariable _ _ => true
                                    | _ => false
                                    end) (Init.preamble p env)).
  { unfold Init.preamble. plain_auto. }
  assert (Hrun : Init.run sink p env =
                 mkOutcome (Some e) (emitted (Init.preamble p env Init.initial))).
  { rewrite init_run_eq. unfold init_afterPreamble. rewrite He.
    rewrite app_nil_r. reflexivity. }
  assert (Hwrap : Init.runWrapper sink p env =
                  emitted (Init.preamble p env Init.initial) ++
                  [EvSetFailed ("init action failed: " ++ message e);
                   EvCall CheckForTimeout]).
  { unfold Init.runWrapper. rewrite Hrun. reflexivity. }
  split; [rewrite Hrun; reflexivity|]. split; [exact Hwrap|]. split.
  - intros ev Hin. destruct (Hplain Init.initial) as [Hall _].
    rewrite forallb_forall in Hall. pose proof (Hall _ Hin) as Hev.
    destruct ev as [c| | |name value| | |]; try discriminate Hev.
    + exists c. reflexivity.
    + exfalso.
      assert (Hex : existsb isExportVariable
                      (emitted (Init.preamble p env Init.initial)) = true).
      { apply existsb_exists. eexists. split; [exact Hin|reflexivity]. }
      apply (Hfin Init.initial) in Hex. destruct Hex as [a Ha]. congruence.
  - unfold exitCode. rewrite Hwrap, markedFailed_app. cbn.
    rewrite orb_true_r. reflexivity.
Qed.

Lemma X21_witness :
  exitCode (Init.runWrapper Sample.accepting Sample.process_offline
              Sample.initEnv) = 1%Z.
Proof.
  apply (X21_init_setup_failure Sample.accepting Sample.process_offline
           Sample.initEnv Sample.networkError eq_refl).
Defined.

(** * Further properties of the query loop of the earlier build *)

(** How the loop over the languages ends: the languages split into those
    analysed successfully and the rest, and the loop stops at the first
    language of the rest. *)
Lemma legacy_forLanguages_spec env langs l :
  locals (LegacyAnalyze.forLanguages env langs l) = l /\
  exists done rest,
    langs = done ++ rest /\
    (forall x, In x done -> legacy_analysable env x) /\
    (forall x,
       In (EvCall (DatabaseAnalyze x))
          (emitted (LegacyAnalyze.forLanguages env langs l)) ->
       In x done \/ exists rest', rest = x :: rest') /\
    match rest with
    | [] =>
        completion (LegacyAnalyze.forLanguages env langs l) =
          Normal (mkQueriesStatusReport None [])
    | x :: _ =>
        match LegacyAnalyze.queries env x with
        | [] =>
            completion (LegacyAnalyze.forLanguages env langs l) =
              Throw (mkError PlainError (LegacyAnalyze.NO_QUERIES x))
        | _ :: _ =>
            legacy_analysisSucceeds env x = false /\
            completion (LegacyAnalyze.forLanguages env langs l) =
              Normal (mkQueriesStatusReport (Some x) [])
        end
    end.
Proof.
  revert l. induction langs as [|x langs IH]; intros l.
  - split; [reflexivity|]. exists [], []. split; [reflexivity|].
    split; [intros x []|]. split; [intros x []|]. reflexivity.
  - cbn [LegacyAnalyze.forLanguages].
    destruct (LegacyAnalyze.queries env x) as [|q qs] eqn:Hq.
    { split; [reflexivity|]. exists [], (x :: langs). split; [reflexivity|].
      split; [intros y []|]. split; [intros y []|]. rewrite Hq. reflexivity. }
    cbv zeta. unfold_monad. unfold legacy_analysable, legacy_analysisSucceeds in *.
    destruct (LegacyAnalyze.writeFileSync env
                (LegacyAnalyze.getCodeQLDatabasePath env x ++ "-queries.qls")%string)
      as [[]|e] eqn:Hw.
    2: { split; [reflexivity|]. exists [], (x :: langs).
         split; [reflexivity|]. split; [intros y []|].
         split.
         - cbn. intros y [H|[]]. discriminate H.
         - rewrite Hq, Hw. split; reflexivity. }
    destruct (LegacyAnalyze.databaseAnalyze env x) as [[]|e] eqn:Ha.
    2: { split; [reflexivity|]. exists [], (x :: langs).
         split; [reflexivity|]. split; [intros y []|].
         split.
         - cbn. intros y [H|[H|[]]]; [discriminate H|].
           inversion H. subst y. right. exists langs. reflexivity.
         - rewrite Hq, Hw, Ha. split; reflexivity. }
    destruct (IH l) as [Hl [done [rest [Hsplit [Hdone [Hev Hend]]]]]].
    destruct (LegacyAnalyze.forLanguages env langs l) as [c2 l2 ev2].
    cbn [completion locals emitted app] in *.
    split; [exact Hl|]. exists (x :: done), rest.
    split; [rewrite Hsplit; reflexivity|]. split.
    { intros y [<-|Hy]; [|apply Hdone; exact Hy].
      split; [rewrite Hq; discriminate|]. rewrite Hw, Ha. reflexivity. }
    split.
    { intros y [H|[H|H]]; [discriminate H| |].
      - inversion H. left. left. reflexivity.
      - destruct (Hev y H) as [Hy|Hy]; [left; right; exact Hy|right; exact Hy]. }
    exact Hend.
Qed.

(** A language is analysed only when queries were selected for it. *)
Lemma legacy_analysed_has_queries env langs l x :
  In (EvCall (DatabaseAnalyze x))
     (emitted (LegacyAnalyze.forLanguages env langs l)) ->
  LegacyAnalyze.queries env x <> [].
Proof.
  revert l. induction langs as [|y langs IH]; intros l;
    cbn [LegacyAnalyze.forLanguages].
  - intros [].
  - destruct (LegacyAnalyze.queries env y) as [|q qs] eqn:Hq; [intros []|].
    cbv zeta. unfold_monad.
    destruct (LegacyAnalyze.writeFileSync env _) as [[]|e].
    2: { cbn. intros [H|[]]. discriminate H. }
    destruct (LegacyAnalyze.databaseAnalyze env y) as [[]|e].
    2: { cbn. intros [H|[H|[]]]; [discriminate H|]. inversion H. subst x.
         rewrite Hq. discriminate. }
    specialize (IH l).
    destruct (LegacyAnalyze.forLanguages env langs l) as [c2 l2 ev2].
    cbn [emitted app] in *. intros [H|[H|H]]; [discriminate H| |].
    + inversion H. subst x. rewrite Hq. discriminate.
    + apply IH. exact H.
Qed.

Lemma legacy_runQueries_spec env langs l :
  match LegacyAnalyze.getCodeQL env with
  | Raise e =>
      LegacyAnalyze.runQueries env langs l = mkRes (Throw e) l [EvCall GetCodeQL]
  | Ok _ =>
      completion (LegacyAnalyze.runQueries env langs l) =
        completion (LegacyAnalyze.forLanguages env langs l) /\
      emitted (LegacyAnalyze.runQueries env langs l) =
        EvCall GetCodeQL :: emitted (LegacyAnalyze.forLanguages env langs l)
  end.
Proof.
  unfold LegacyAnalyze.runQueries. unfold bind, call.
  destruct (LegacyAnalyze.getCodeQL env) as [[]|e]; [|reflexivity].
  destruct (LegacyAnalyze.forLanguages env langs l) as [c2 l2 ev2].
  split; reflexivity.
Qed.

(** X22.  In the earlier build, the report that [runQueries] returns
    tells how far the loop over the languages got.  Without a failure
    language, queries were selected for every language and every
    analysis succeeded.  With a failure language, that language is the
    first one whose query suite could not be written or whose analysis
    threw: all languages before it were analysed successfully, and no
    language after it was analysed at all.  In either case the report
    carries no other field. *)
Theorem X22_legacy_failure_language (env : LegacyAnalyze.Env)
    (langs : list Language) (l : unit) (report : QueriesStatusReport) :
  completion (LegacyAnalyze.runQueries env langs l) = Normal report ->
  query_fields report = [] /\
  match analyze_failure_language report with
  | None => forall x, In x langs -> legacy_analysable env x
  | Some failing =>
      exists before after,
        langs = before ++ failing :: after /\
        (forall x, In x before -> legacy_analysable env x) /\
        LegacyAnalyze.queries env failing <> [] /\
        legacy_analysisSucceeds env failing = false /\
        forall x,
          In (EvCall (DatabaseAnalyze x))
             (emitted (LegacyAnalyze.runQueries env langs l)) ->
          In x before \/ x = failing
  end.
Proof.
  intros Hn. pose proof (legacy_runQueries_spec env langs l) as Hspec.
  destruct (LegacyAnalyze.getCodeQL env) as [[]|e].
  2: { rewrite Hspec in Hn. discriminate Hn. }
  destruct Hspec as [Hc Hev]. rewrite Hc in Hn. rewrite Hev.
  destruct (legacy_forLanguages_spec env langs l)
    as [_ [done [rest [Hsplit [Hdone [Hcalls Hend]]]]]].
  destruct rest as [|x rest].
  - rewrite Hn in Hend. inversion Hend. subst report.
    split; [reflexivity|]. cbn. intros y Hy. apply Hdone.
    rewrite Hsplit, app_nil_r in Hy. exact Hy.
  - destruct (LegacyAnalyze.queries env x) as [|q qs] eqn:Hq.
    { rewrite Hn in Hend. discriminate Hend. }
    destruct Hend as [Hfail Hend]. rewrite Hn in Hend. inversion Hend.
    subst report. split; [reflexivity|]. cbn.
    exists done, rest. split; [exact Hsplit|]. split; [exact Hdone|].
    split; [rewrite Hq; discriminate|]. split; [exact Hfail|].
    intros y [H|H]; [discriminate H|].
    destruct (Hcalls y H) as [Hy|[rest' Hy]]; [left; exact Hy|].
    right. congruence.
Qed.

Lemma X22_witness :
  exists before after,
    ["java"; "go"; "python"] = before ++ "go" :: after /\
    (forall x, In x before -> legacy_analysable Sample.legacyEnv_go_fails x).
Proof.
  destruct (X22_legacy_failure_language Sample.legacyEnv_go_fails
              ["java"; "go"; "python"] tt
              (mkQueriesStatusReport (Some "go") []) eq_refl)
    as [_ [before [after [Hsplit [Hbefore _]]]]].
  exists before, after. split; [exact Hsplit|exact Hbefore].
Defined.

(** X23.  In the earlier build, an error thrown while the query suite of
    a language is written or while its database is analysed never leaves
    [runQueries].  What [runQueries] throws is either the error of
    [getCodeQL], before any language is looked at, or the error that no
    queries were selected for a language, after all languages before it
    were analysed successfully and before anything is done for that
    language. *)
Theorem X23_legacy_thrown_errors (env : LegacyAnalyze.Env)
    (langs : list Language) (l : unit) (e : Error) :
  completion (LegacyAnalyze.runQueries env langs l) = Throw e ->
  (LegacyAnalyze.getCodeQL env = Raise e /\
   emitted (LegacyAnalyze.runQueries env langs l) = [EvCall GetCodeQL]) \/
  (exists before x after,
     langs = before ++ x :: after /\
     (forall y, In y before -> legacy_analysable env y) /\
     LegacyAnalyze.queries env x = [] /\
     e = mkError PlainError (LegacyAnalyze.NO_QUERIES x) /\
     forall y,
       In (EvCall (DatabaseAnalyze y))
          (emitted (LegacyAnalyze.runQueries env langs l)) ->
       In y before).
Proof.
  intros Ht. pose proof (legacy_runQueries_spec env langs l) as Hspec.
  destruct (LegacyAnalyze.getCodeQL env) as [[]|e'].
  2: { left. rewrite Hspec in Ht |- *. inversion Ht. split; reflexivity. }
  right. destruct Hspec as [Hc Hev]. rewrite Hc in Ht. rewrite Hev.
  destruct (legacy_forLanguages_spec env langs l)
    as [_ [done [rest [Hsplit [Hdone [Hcalls Hend]]]]]].
  destruct rest as [|x rest].
  { rewrite Ht in Hend. discriminate Hend. }
  destruct (LegacyAnalyze.queries env x) as [|q qs] eqn:Hq.
  2: { destruct Hend as [_ Hend]. rewrite Ht in Hend. discriminate Hend. }
  rewrite Ht in Hend. inversion Hend. subst e.
  exists done, x, rest. split; [exact Hsplit|]. split; [exact Hdone|].
  split; [exact Hq|]. split; [reflexivity|].
  intros y [H|H]; [discriminate H|].
  destruct (Hcalls y H) as [Hy|[rest' Hy]]; [exact Hy|].
  exfalso. inversion Hy. subst y.
  exact (legacy_analysed_has_queries env langs l x H Hq).
Qed.

Lemma X23_witness :
  exists before x after,
    ["java"; "go"; "python"] = before ++ x :: after /\
    LegacyAnalyze.queries Sample.legacyEnv_no_python_queries x = [].
Proof.
  destruct (X23_legacy_thrown_errors Sample.legacyEnv_no_python_queries
              ["java"; "go"; "python"] tt
              (mkError PlainError (LegacyAnalyze.NO_QUERIES "python")) eq_refl)
    as [[Habs _]|[before [x [after [Hsplit [_ [Hq _]]]]]]].
  - discriminate Habs.
  - exists before, x, after. split; [exact Hsplit|exact Hq].
Defined.
